(** * Shipping-order comparator: conversion, extraction and comparison
      endpoints and the client-side workflow controller.

    A shallow embedding of
      - [app/api/process-pdf] (conversion route),
      - [app/api/extract-invoice] (image extraction route),
      - the text extraction route,
      - [app/api/compare-orders/route.ts] (comparison route),
      - [components/pdf-uploader] (the [PdfUploader] controller).

    JavaScript values are modelled untyped, as the code sees them at run
    time: what the controller stores is whatever [response.json()] gave.
    Numbers are the rational values of IEEE doubles (JSON carries neither
    NaN nor infinities).  Awaited calls are answered by explicit outcome
    arguments; every synchronous stretch of code between two awaits is one
    atomic transition, as on an event loop, the awaits of one iteration of
    the extraction loop settling together. *)

From Stdlib Require Import List String Ascii Bool Arith ZArith QArith Lia.
From Stdlib Require Import DecimalString.
Import ListNotations.

Set Warnings "-register-all".
Local Open Scope string_scope.
Local Open Scope list_scope.
Local Open Scope nat_scope.

(* ================================================================== *)
(** ** JavaScript values *)
(* ================================================================== *)

Inductive JSValue : Type :=
| JUndefined
| JNull
| JBool (b : bool)
| JNum (q : Q)
| JStr (s : string)
| JArr (elems : list JSValue)
| JObj (fields : list (string * JSValue)).

(** A plain object: its own enumerable properties, in insertion order. *)
Definition JSObject : Type := list (string * JSValue).

(** [ToBoolean]: what [!v], [v || w] and [if (v)] test. *)
Definition js_truthy (v : JSValue) : bool :=
  match v with
  | JUndefined | JNull => false
  | JBool b => b
  | JNum q => negb (Qeq_bool q 0)
  | JStr s => negb (s =? "")%string
  | JArr _ | JObj _ => true
  end.

Definition js_nullish (v : JSValue) : bool :=
  match v with
  | JUndefined | JNull => true
  | _ => false
  end.

(** [Array.isArray]. *)
Definition js_isArray (v : JSValue) : bool :=
  match v with
  | JArr _ => true
  | _ => false
  end.

(** [typeof v === 'string']. *)
Definition js_isString (v : JSValue) : bool :=
  match v with
  | JStr _ => true
  | _ => false
  end.

(** An integer-valued number, as array lengths, indices and literals are. *)
Definition js_nat (n : nat) : JSValue := JNum (inject_Z (Z.of_nat n)).

Definition nat_to_string (n : nat) : string :=
  NilZero.string_of_uint (Nat.to_uint n).

(** Own-property read on a plain object; a missing key reads [undefined]. *)
Fixpoint obj_get (o : JSObject) (k : string) : JSValue :=
  match o with
  | [] => JUndefined
  | (k', v) :: rest => if (k' =? k)%string then v else obj_get rest k
  end.

Fixpoint obj_has (o : JSObject) (k : string) : bool :=
  match o with
  | [] => false
  | (k', _) :: rest => (k' =? k)%string || obj_has rest k
  end.

(** Property write: an existing key keeps its place, a new one is appended. *)
Fixpoint obj_set (o : JSObject) (k : string) (v : JSValue) : JSObject :=
  match o with
  | [] => [(k, v)]
  | (k', v') :: rest =>
      if (k' =? k)%string then (k', v) :: rest else (k', v') :: obj_set rest k v
  end.

Fixpoint index_entries (i : nat) (vs : list JSValue) : JSObject :=
  match vs with
  | [] => []
  | v :: rest => (nat_to_string i, v) :: index_entries (S i) rest
  end.

Fixpoint char_entries (i : nat) (s : string) : JSObject :=
  match s with
  | EmptyString => []
  | String c rest =>
      (nat_to_string i, JStr (String c EmptyString)) :: char_entries (S i) rest
  end.

(** Object spread [{ ...v }]: the own enumerable properties of [v]. *)
Definition js_spread (v : JSValue) : JSObject :=
  match v with
  | JObj fields => fields
  | JArr elems => index_entries 0 elems
  | JStr s => char_entries 0 s
  | JUndefined | JNull | JBool _ | JNum _ => []
  end.

Definition js_is_undefined (v : JSValue) : bool :=
  match v with
  | JUndefined => true
  | _ => false
  end.

(** [JSON.parse(JSON.stringify(v))], what a caller reads of a value sent
    as JSON: a property holding [undefined] is dropped, an array element
    holding [undefined] becomes [null]. *)
Fixpoint json_wire (v : JSValue) : JSValue :=
  match v with
  | JArr elems =>
      JArr (map (fun x => if js_is_undefined x then JNull else json_wire x)
              elems)
  | JObj fields =>
      JObj ((fix wire_fields (o : list (string * JSValue)) :=
               match o with
               | [] => []
               | (k, x) :: rest =>
                   if js_is_undefined x then wire_fields rest
                   else (k, json_wire x) :: wire_fields rest
               end) fields)
  | JUndefined | JNull | JBool _ | JNum _ | JStr _ => v
  end.

(** The body of a response as its caller parses it. *)
Definition wire_body (b : JSObject) : JSValue := json_wire (JObj b).

(** ** Exceptions *)

(** A thrown value: an [Error] with its message, or anything else. *)
Inductive Thrown : Type :=
| ThrownError (message : string)
| ThrownOther.

Inductive Exc (A : Type) : Type :=
| Ok (a : A)
| Throw (t : Thrown).
Arguments Ok {A} a.
Arguments Throw {A} t.

Definition bind {A B : Type} (m : Exc A) (k : A -> Exc B) : Exc B :=
  match m with
  | Ok a => k a
  | Throw t => Throw t
  end.

Notation "x <- m ;; k" := (bind m (fun x => k))
  (at level 61, m at next level, right associativity).

(** [error instanceof Error ? error.message : fallback]. *)
Definition message_or (t : Thrown) (fallback : string) : string :=
  match t with
  | ThrownError m => m
  | ThrownOther => fallback
  end.

(** ** HTTP responses built by [NextResponse.json] *)

Record Response : Type := mkResponse {
  status : nat;
  body : JSObject;
  cors : bool
}.

Definition json_response (st : nat) (b : JSObject) : Response :=
  mkResponse st b false.

Definition json_response_cors (st : nat) (b : JSObject) : Response :=
  mkResponse st b true.

(** [process.env.X]: unset, or a string. *)
Definition EnvVar : Type := option string.

Definition env_value (e : EnvVar) : JSValue :=
  match e with
  | None => JUndefined
  | Some s => JStr s
  end.

(** An uploaded [File]. *)
Record File : Type := mkFile {
  file_name : string;
  file_type : string;
  file_content : string
}.

(** A [FormData] entry: a file or a plain string field. *)
Inductive FormEntry : Type :=
| EntryFile (f : File)
| EntryString (s : string).

(** [formData.get(name)]: [null] when the field is absent. *)
Definition entry_truthy (e : option FormEntry) : bool :=
  match e with
  | None => false
  | Some (EntryFile _) => true
  | Some (EntryString s) => negb (s =? "")%string
  end.

(** What an awaited [response.json()] / [request.json()] gives. *)
Inductive JsonOutcome : Type :=
| JsonThrows (t : Thrown)
| JsonValue (v : JSValue).

(** What an awaited [fetch] gives: a rejection, or a response with its
    status line and body. *)
Inductive FetchOutcome : Type :=
| FetchThrows (t : Thrown)
| FetchResponse (st : nat) (statusText : string) (json : JsonOutcome).

(** [response.ok]: the status is in the range 200-299. *)
Definition resp_ok (st : nat) : bool := (200 <=? st) && (st <=? 299).

(** What an awaited [request.formData()] gives. *)
Inductive FormDataOutcome : Type :=
| FormDataThrows (t : Thrown)
| FormDataOk (get : string -> option FormEntry).

(** What an awaited [llm.invoke] gives.  The model is wrapped by
    [withStructuredOutput] on a [z.object] schema, so a result is an
    object; a reply that does not parse is a rejection. *)
Inductive LlmOutcome (A : Type) : Type :=
| LlmThrows (t : Thrown)
| LlmReturns (r : A).
Arguments LlmThrows {A} t.
Arguments LlmReturns {A} r.

(** ** Outbound calls *)

Inductive LlmPrompt : Type :=
| PromptImage (image : FormEntry)
| PromptText (text : string)
| PromptCompare (order1 order2 : JSValue).

Inductive Outbound : Type :=
| ConvertApiCall (bearer : string) (file : FormEntry)
| LlmCall (modelName : string) (apiKey : string) (prompt : LlmPrompt).

(** A route handler's run: the outbound calls it made and its response. *)
Definition HandlerRun : Type := (list Outbound * Response)%type.

Definition calls (r : HandlerRun) : list Outbound := fst r.
Definition response (r : HandlerRun) : Response := snd r.

(* ================================================================== *)
(** ** The route handlers *)
(* ================================================================== *)

Section PropertyReads.

(** The message of the engine's [TypeError] for a property read on
    [undefined] or [null]; its text is engine-specific. *)
Variable TypeErrorMessage : string.

(** [v.k] for the named keys the handlers read; none of them is a
    built-in property of arrays, strings, numbers or booleans. *)
Definition js_get (v : JSValue) (k : string) : Exc JSValue :=
  match v with
  | JUndefined | JNull => Throw (ThrownError TypeErrorMessage)
  | JObj o => Ok (obj_get o k)
  | JBool _ | JNum _ | JStr _ | JArr _ => Ok JUndefined
  end.

(** [v[0]]. *)
Definition js_first (v : JSValue) : Exc JSValue :=
  match v with
  | JUndefined | JNull => Throw (ThrownError TypeErrorMessage)
  | JArr elems => Ok (nth 0 elems JUndefined)
  | JStr (String c _) => Ok (JStr (String c EmptyString))
  | JStr EmptyString => Ok JUndefined
  | JObj o => Ok (obj_get o "0")
  | JBool _ | JNum _ => Ok JUndefined
  end.

(** [Object.keys(v)], whose result is only logged. *)
Definition js_object_keys (v : JSValue) : Exc unit :=
  if js_nullish v then Throw (ThrownError TypeErrorMessage) else Ok tt.

End PropertyReads.

(** [!OPENAI_API_KEY]: unset or empty. *)
Definition key_missing (env : EnvVar) : bool := negb (js_truthy (env_value env)).

Definition env_string (env : EnvVar) : string :=
  match env with
  | Some s => s
  | None => ""
  end.

(** [a < b] on numbers. *)
Definition js_lt (a b : Q) : bool := negb (Qle_bool b a).

(** *** Conversion route: [POST /api/process-pdf] *)

Module ProcessPdf.
Section Route.

(** [String(v)], as template literals apply it. *)
Variable ToString : JSValue -> string.

(** The message of the engine's [TypeError]. *)
Variable TypeErrorMessage : string.

Definition fallback_secret : string := "4FkbnBsk9bN53Gv5dtw4UmbuAIcGTg65".

(** [process.env.CONVERTAPI_SECRET || '4Fkbn...']. *)
Definition CONVERTAPI_SECRET (env : EnvVar) : string :=
  match env with
  | Some s => if js_truthy (JStr s) then s else fallback_secret
  | None => fallback_secret
  end.

(** The loop over [result.Files]: page [i] of the array becomes the page
    numbered [i + 1]. *)
Fixpoint build_pages (i : nat) (files : list JSValue) : Exc (list JSValue) :=
  match files with
  | [] => Ok []
  | fileInfo :: rest =>
      fileData <- js_get TypeErrorMessage fileInfo "FileData" ;;
      fileName <- js_get TypeErrorMessage fileInfo "FileName" ;;
      fileExt <- js_get TypeErrorMessage fileInfo "FileExt" ;;
      fileSize <- js_get TypeErrorMessage fileInfo "FileSize" ;;
      let imageDataUrl := ("data:image/jpeg;base64," ++ ToString fileData)%string in
      let page := JObj [ ("pageNumber", js_nat (i + 1));
                         ("imageDataUrl", JStr imageDataUrl);
                         ("width", js_nat 800);
                         ("height", js_nat 1000);
                         ("fileName", fileName);
                         ("fileExt", fileExt);
                         ("fileSize", fileSize) ] in
      pages <- build_pages (S i) rest ;;
      Ok (page :: pages)
  end.

(** The code after the upstream [fetch] has settled. *)
Definition convert_upstream (up : FetchOutcome) : Exc Response :=
  match up with
  | FetchThrows t => Throw t
  | FetchResponse st statusText json =>
      if negb (resp_ok st) then
        Throw (ThrownError ("ConvertAPI error: " ++ nat_to_string st
                              ++ " " ++ statusText)%string)
      else
        match json with
        | JsonThrows t => Throw t
        | JsonValue result =>
            files <- js_get TypeErrorMessage result "Files" ;;
            (* console.log(..., Object.keys(result.Files[0])) *)
            first <- js_first TypeErrorMessage files ;;
            _ <- js_object_keys TypeErrorMessage first ;;
            if negb (js_truthy files) || negb (js_isArray files) then
              Throw (ThrownError "Invalid response from ConvertAPI")
            else
              match files with
              | JArr fs =>
                  pageImages <- build_pages 0 fs ;;
                  cost <- js_get TypeErrorMessage result "ConversionCost" ;;
                  Ok (json_response 200
                        [ ("success", JBool true);
                          ("totalPages", js_nat (List.length fs));
                          ("pages", JArr pageImages);
                          ("conversionInfo",
                            JObj [("conversionCost", cost)]) ])
              | _ => Throw (ThrownError "Invalid response from ConvertAPI")
              end
        end
  end.

(** The [try] block of the handler, with the calls it made. *)
Definition convert_try (form : FormDataOutcome) (env : EnvVar)
    (up : FetchOutcome) : list Outbound * Exc Response :=
  match form with
  | FormDataThrows t => ([], Throw t)
  | FormDataOk get =>
      let file := get "pdf" in
      match file with
      | None =>
          ([], Ok (json_response 400 [("error", JStr "No PDF file provided")]))
      | Some entry =>
          if negb (entry_truthy file) then
            ([], Ok (json_response 400
                       [("error", JStr "No PDF file provided")]))
          else
            let secret := CONVERTAPI_SECRET env in
            if negb (js_truthy (JStr secret)) then
              ([], Ok (json_response 500
                         [("error", JStr "ConvertAPI secret is not configured")]))
            else
              ([ConvertApiCall secret entry], convert_upstream up)
      end
  end.

Definition POST (form : FormDataOutcome) (env : EnvVar)
    (up : FetchOutcome) : HandlerRun :=
  let (made, r) := convert_try form env up in
  match r with
  | Ok resp => (made, resp)
  | Throw error =>
      (made, json_response 500
               [ ("success", JBool false);
                 ("error", JStr (message_or error "Failed to process PDF")) ])
  end.

End Route.
End ProcessPdf.
Import ProcessPdf.

(** *** Image extraction route: [POST /api/extract-invoice] *)

Module ExtractInvoice.
Section Route.

(** The message of the engine's [TypeError]. *)
Variable TypeErrorMessage : string.

(** [await imageFile.arrayBuffer()]: a string entry has no such method. *)
Definition entry_arrayBuffer (e : FormEntry) : Exc string :=
  match e with
  | EntryFile f => Ok (file_content f)
  | EntryString _ => Throw (ThrownError TypeErrorMessage)
  end.

Definition extract_image_try (env : EnvVar) (form : FormDataOutcome)
    (llm : LlmOutcome JSObject) (now : string)
    : list Outbound * Exc Response :=
  if key_missing env then
    ([], Ok (json_response 500
               [("error", JStr "OpenAI API key is not configured")]))
  else
    match form with
    | FormDataThrows t => ([], Throw t)
    | FormDataOk get =>
        let imageFile := get "image" in
        match imageFile with
        | None =>
            ([], Ok (json_response 400
                       [("error", JStr "No image file provided")]))
        | Some entry =>
            if negb (entry_truthy imageFile) then
              ([], Ok (json_response 400
                         [("error", JStr "No image file provided")]))
            else
              match entry_arrayBuffer entry with
              | Throw t => ([], Throw t)
              | Ok _ =>
                  ([LlmCall "gpt-4o-mini" (env_string env) (PromptImage entry)],
                   match llm with
                   | LlmThrows t => Throw t
                   | LlmReturns r =>
                       Ok (json_response 200
                             [ ("success", JBool true);
                               ("data", JObj r);
                               ("extractedAt", JStr now) ])
                   end)
              end
        end
    end.

Definition POST (env : EnvVar) (form : FormDataOutcome)
    (llm : LlmOutcome JSObject) (now : string) : HandlerRun :=
  let (made, r) := extract_image_try env form llm now in
  match r with
  | Ok resp => (made, resp)
  | Throw error =>
      (made, json_response 500
               [ ("success", JBool false);
                 ("error", JStr (message_or error "An unknown error occurred")) ])
  end.

End Route.
End ExtractInvoice.
Import ExtractInvoice.

(** *** Text extraction route *)

Module ExtractText.
Section Route.

(** [String(v)], as template literals apply it. *)
Variable ToString : JSValue -> string.

(** The message of the engine's [TypeError]. *)
Variable TypeErrorMessage : string.

Definition extract_text_try (env : EnvVar) (req : JsonOutcome)
    (llm : LlmOutcome JSObject) (now : string)
    : list Outbound * Exc Response :=
  if key_missing env then
    ([], Ok (json_response_cors 500
               [("error", JStr "OpenAI API key is not configured")]))
  else
    match req with
    | JsonThrows t => ([], Throw t)
    | JsonValue reqBody =>
        (* const { text } = body *)
        match js_get TypeErrorMessage reqBody "text" with
        | Throw t => ([], Throw t)
        | Ok text =>
            if negb (js_truthy text) || negb (js_isString text) then
              ([], Ok (json_response_cors 400
                         [("error", JStr "No text input provided")]))
            else
              ([LlmCall "gpt-4.1-mini" (env_string env)
                  (PromptText match text with
                              | JStr t => t
                              | _ => ToString text
                              end)],
               match llm with
               | LlmThrows t => Throw t
               | LlmReturns r =>
                   Ok (json_response_cors 200
                         [ ("success", JBool true);
                           ("data", JObj r);
                           ("extractedAt", JStr now) ])
               end)
        end
    end.

Definition POST (env : EnvVar) (req : JsonOutcome)
    (llm : LlmOutcome JSObject) (now : string) : HandlerRun :=
  let (made, r) := extract_text_try env req llm now in
  match r with
  | Ok resp => (made, resp)
  | Throw error =>
      (made, json_response_cors 500
               [ ("success", JBool false);
                 ("error", JStr (message_or error "An unknown error occurred")) ])
  end.

End Route.
End ExtractText.
Import ExtractText.

(** *** Comparison route: [POST /api/compare-orders] *)

Module CompareOrders.

(** [ComparisonResultSchema], the shape the structured output is parsed to. *)
Inductive Severity : Type := critical | major | minor.
Inductive Quality : Type := excellent | good | fair | poor.

Record Discrepancy : Type := mkDiscrepancy {
  field : string;
  order1_value : string;
  order2_value : string;
  severity : Severity;
  description : string
}.

Record Match : Type := mkMatch {
  match_field : string;
  match_value : string;
  match_confidence : Q
}.

Record Analysis : Type := mkAnalysis {
  overall_confidence : Q;
  comparison_quality : Quality;
  potential_issues : list string;
  recommendation : string
}.

Record ComparisonResult : Type := mkComparisonResult {
  discrepancies : list Discrepancy;
  matches : list Match;
  analysis : Analysis;
  summary : string
}.

Definition severity_json (s : Severity) : JSValue :=
  JStr match s with
       | critical => "critical"
       | major => "major"
       | minor => "minor"
       end.

Definition quality_json (q : Quality) : JSValue :=
  JStr match q with
       | excellent => "excellent"
       | good => "good"
       | fair => "fair"
       | poor => "poor"
       end.

Definition discrepancy_json (d : Discrepancy) : JSValue :=
  JObj [ ("field", JStr (field d));
         ("order1_value", JStr (order1_value d));
         ("order2_value", JStr (order2_value d));
         ("severity", severity_json (severity d));
         ("description", JStr (description d)) ].

Definition match_json (m : Match) : JSValue :=
  JObj [ ("field", JStr (match_field m));
         ("value", JStr (match_value m));
         ("confidence", JNum (match_confidence m)) ].

Definition analysis_json (a : Analysis) : JSValue :=
  JObj [ ("overall_confidence", JNum (overall_confidence a));
         ("comparison_quality", quality_json (comparison_quality a));
         ("potential_issues", JArr (map JStr (potential_issues a)));
         ("recommendation", JStr (recommendation a)) ].

Definition comparison_json (r : ComparisonResult) : JSValue :=
  JObj [ ("discrepancies", JArr (map discrepancy_json (discrepancies r)));
         ("matches", JArr (map match_json (matches r)));
         ("analysis", analysis_json (analysis r));
         ("summary", JStr (summary r)) ].

(** The number the literal [0.8] denotes: the double nearest to 4/5,
    which is 3602879701896397 / 2^52. *)
Definition literal_0_8 : Q := 3602879701896397 # 4503599627370496.

Section Route.

(** The message of the engine's [TypeError]. *)
Variable TypeErrorMessage : string.

Definition compare_try (env : EnvVar) (req : JsonOutcome)
    (llm : LlmOutcome ComparisonResult) (now : string)
    : list Outbound * Exc Response :=
  if key_missing env then
    ([], Ok (json_response 500
               [("error", JStr "OpenAI API key is not configured")]))
  else
    match req with
    | JsonThrows t => ([], Throw t)
    | JsonValue reqBody =>
        (* const { order1, order2 } = await request.json() *)
        match (order1 <- js_get TypeErrorMessage reqBody "order1" ;;
               order2 <- js_get TypeErrorMessage reqBody "order2" ;;
               Ok (order1, order2)) with
        | Throw t => ([], Throw t)
        | Ok (order1, order2) =>
            if negb (js_truthy order1) || negb (js_truthy order2) then
              ([], Ok (json_response 400
                         [("error",
                           JStr "Both order1 and order2 data are required")]))
            else
              ([LlmCall "gpt-4o-mini" (env_string env)
                  (PromptCompare order1 order2)],
               match llm with
               | LlmThrows t => Throw t
               | LlmReturns r =>
                   let needsManualReview :=
                     js_lt (overall_confidence (analysis r)) literal_0_8 in
                   Ok (json_response 200
                         [ ("success", JBool true);
                           ("comparison", comparison_json r);
                           ("needsManualReview", JBool needsManualReview);
                           ("comparedAt", JStr now) ])
               end)
        end
    end.

Definition POST (env : EnvVar) (req : JsonOutcome)
    (llm : LlmOutcome ComparisonResult) (now : string) : HandlerRun :=
  let (made, r) := compare_try env req llm now in
  match r with
  | Ok resp => (made, resp)
  | Throw error =>
      (made, json_response 500
               [ ("success", JBool false);
                 ("error",
                   JStr (message_or error
                           "An unknown error occurred during comparison")) ])
  end.

End Route.
End CompareOrders.
Import CompareOrders.


(* ================================================================== *)
(** ** The workflow controller ([PdfUploader]) *)
(* ================================================================== *)

(** A page as the controller holds it.  [pageNumber], [imageDataUrl],
    [width] and [height] are copied unchecked from the conversion
    response, so they are whatever values the response carried. *)
Record PageImage : Type := mkPageImage {
  pageNumber : JSValue;
  imageDataUrl : JSValue;
  selected : bool;
  width : JSValue;
  height : JSValue
}.

(** An element of [extractedData]: the object built in the loop. *)
Definition ExtractedData : Type := JSObject.

Record PdfData : Type := mkPdfData {
  file : option File;
  pageImages : list PageImage;
  loading : bool;
  extractedData : list ExtractedData;
  processing : bool
}.

Inductive PdfNumber : Type := One | Two.

Record AppState : Type := mkAppState {
  pdf1 : PdfData;
  pdf2 : PdfData;
  comparisonResult : JSValue;
  comparing : bool;
  showExtractedData : bool
}.

Definition empty_pdf : PdfData := mkPdfData None [] false [] false.

Definition initial_state : AppState :=
  mkAppState empty_pdf empty_pdf JNull false false.

(** [pdfNumber === 1 ? pdf1 : pdf2]. *)
Definition pdfData (n : PdfNumber) (s : AppState) : PdfData :=
  match n with
  | One => pdf1 s
  | Two => pdf2 s
  end.

(** [setPdfData(prev => f prev)] with [setPdfData] chosen by [pdfNumber]. *)
Definition setPdfData (n : PdfNumber) (f : PdfData -> PdfData)
    (s : AppState) : AppState :=
  match n with
  | One => mkAppState (f (pdf1 s)) (pdf2 s) (comparisonResult s)
             (comparing s) (showExtractedData s)
  | Two => mkAppState (pdf1 s) (f (pdf2 s)) (comparisonResult s)
             (comparing s) (showExtractedData s)
  end.

Definition setComparing (b : bool) (s : AppState) : AppState :=
  mkAppState (pdf1 s) (pdf2 s) (comparisonResult s) b (showExtractedData s).

Definition setComparisonResult (v : JSValue) (s : AppState) : AppState :=
  mkAppState (pdf1 s) (pdf2 s) v (comparing s) (showExtractedData s).

Definition setShowExtractedData (b : bool) (s : AppState) : AppState :=
  mkAppState (pdf1 s) (pdf2 s) (comparisonResult s) (comparing s) b.

(** What the controller does to the outside, in the order it does it. *)
Inductive Effect : Type :=
| Alert (message : string)
| ConsoleError (label : string)
| ConvertIssued (f : File)
| DataUrlFetched (url : JSValue)
| ExtractIssued (page : JSValue) (fileName : string)
| ExtractSettled (page : JSValue)
| CompareIssued (order1 order2 : JSValue).

(** The awaited [fetch] and [response.json()] of one call, taken together. *)
Inductive NetOutcome : Type :=
| NetThrows (t : Thrown)
| NetJson (v : JSValue).

(** The awaits of one loop iteration of [processSelectedImages]: reading
    the data URL into a blob may reject before the API call is issued. *)
Inductive PageOutcome : Type :=
| BlobFails (t : Thrown)
| PageNet (o : NetOutcome).

Section Controller.

Variable ToString : JSValue -> string.
Variable TypeErrorMessage : string.

Let get := js_get TypeErrorMessage.

(** *** [processPdf] *)

(** The guard [!selectedFile || selectedFile.type !== 'application/pdf']. *)
Definition processPdf_rejects (selectedFile : option File) : bool :=
  match selectedFile with
  | None => true
  | Some f => negb (file_type f =? "application/pdf")%string
  end.

(** One element of [result.pages.map(...)]. *)
Definition page_of_json (page : JSValue) : Exc PageImage :=
  pn <- get page "pageNumber" ;;
  url <- get page "imageDataUrl" ;;
  w <- get page "width" ;;
  h <- get page "height" ;;
  Ok (mkPageImage pn url false w h).

Fixpoint pages_of_json (pages : list JSValue) : Exc (list PageImage) :=
  match pages with
  | [] => Ok []
  | page :: rest =>
      img <- page_of_json page ;;
      imgs <- pages_of_json rest ;;
      Ok (img :: imgs)
  end.

(** [result.pages.map(...)]: only an array has [map]. *)
Definition images_of_result (result : JSValue) : Exc (list PageImage) :=
  pages <- get result "pages" ;;
  match pages with
  | JArr ps => pages_of_json ps
  | _ => Throw (ThrownError TypeErrorMessage)
  end.

(** The [try] block of [processPdf] once the call has settled. *)
Definition processPdf_try (o : NetOutcome) : Exc (list PageImage) :=
  match o with
  | NetThrows t => Throw t
  | NetJson result =>
      success <- get result "success" ;;
      if js_truthy success then images_of_result result
      else
        err <- get result "error" ;;
        Throw (ThrownError (if js_truthy err then ToString err
                            else "Failed to process PDF"))
  end.

(** Up to the first await: the guard, then the reset of the document. *)
Definition processPdf_start (selectedFile : option File) (n : PdfNumber)
    (s : AppState) : AppState * list Effect * bool :=
  match selectedFile with
  | None => (s, [Alert "Please select a valid PDF file"], false)
  | Some f =>
      if processPdf_rejects selectedFile then
        (s, [Alert "Please select a valid PDF file"], false)
      else
        (setPdfData n
           (fun prev => mkPdfData (Some f) [] true [] (processing prev)) s,
         [ConvertIssued f], true)
  end.

(** After the await. *)
Definition processPdf_finish (n : PdfNumber) (o : NetOutcome)
    (s : AppState) : AppState * list Effect :=
  match processPdf_try o with
  | Ok images =>
      (setPdfData n
         (fun prev => mkPdfData (file prev) images false
                        (extractedData prev) (processing prev)) s,
       [])
  | Throw _ =>
      (setPdfData n
         (fun prev => mkPdfData (file prev) (pageImages prev) false
                        (extractedData prev) (processing prev)) s,
       [ConsoleError "Error processing PDF:";
        Alert "Error processing PDF. Please try again."])
  end.

(** *** Page selection *)

(** [a === b] where [a] and [b] are not the same reference: primitives
    compare by value, distinct arrays and objects are never equal. *)
Definition js_strict_eq (a b : JSValue) : bool :=
  match a, b with
  | JUndefined, JUndefined => true
  | JNull, JNull => true
  | JBool x, JBool y => Bool.eqb x y
  | JNum x, JNum y => Qeq_bool x y
  | JStr x, JStr y => (x =? y)%string
  | _, _ => false
  end.

Definition flip_selected (img : PageImage) : PageImage :=
  mkPageImage (pageNumber img) (imageDataUrl img) (negb (selected img))
    (width img) (height img).

Definition set_selected (b : bool) (img : PageImage) : PageImage :=
  mkPageImage (pageNumber img) (imageDataUrl img) b (width img) (height img).

Fixpoint toggle_images (j k : nat) (p : JSValue) (imgs : list PageImage)
    : list PageImage :=
  match imgs with
  | [] => []
  | img :: rest =>
      (if (j =? k) || js_strict_eq (pageNumber img) p
       then flip_selected img else img)
        :: toggle_images (S j) k p rest
  end.

(** A click on the [k]-th thumbnail: [togglePageSelection(image.pageNumber,
    pdfNumber)].  The clicked image's own number is the very value passed,
    so it always matches. *)
Definition togglePageSelection (k : nat) (n : PdfNumber) (s : AppState)
    : AppState :=
  match nth_error (pageImages (pdfData n s)) k with
  | None => s
  | Some clicked =>
      setPdfData n
        (fun prev =>
           mkPdfData (file prev)
             (toggle_images 0 k (pageNumber clicked) (pageImages prev))
             (loading prev) (extractedData prev) (processing prev)) s
  end.

Definition selectAllPages (n : PdfNumber) (s : AppState) : AppState :=
  setPdfData n
    (fun prev =>
       mkPdfData (file prev) (map (set_selected true) (pageImages prev))
         (loading prev) (extractedData prev) (processing prev)) s.

Definition deselectAllPages (n : PdfNumber) (s : AppState) : AppState :=
  setPdfData n
    (fun prev =>
       mkPdfData (file prev) (map (set_selected false) (pageImages prev))
         (loading prev) (extractedData prev) (processing prev)) s.

(** *** [processSelectedImages] *)

Definition selectedImages (pd : PdfData) : list PageImage :=
  filter selected (pageImages pd).

(** The entry pushed by the [catch] block. *)
Definition failure_entry (imageData : PageImage) : ExtractedData :=
  [ ("success", JBool false);
    ("error", JStr ("Failed to process page "
                      ++ ToString (pageNumber imageData))%string);
    ("pageNumber", pageNumber imageData) ].

(** The entry pushed by the [try] block:
    [{ ...result, pageNumber: imageData.pageNumber }]. *)
Definition success_entry (result : JSValue) (imageData : PageImage)
    : ExtractedData :=
  obj_set (js_spread result) "pageNumber" (pageNumber imageData).

Definition page_fileName (imageData : PageImage) : string :=
  ("page-" ++ ToString (pageNumber imageData) ++ ".jpg")%string.

(** One iteration of the loop body, with all its awaits settled. *)
Definition process_page (imageData : PageImage) (o : PageOutcome)
    : list Effect * ExtractedData :=
  let pn := pageNumber imageData in
  match o with
  | BlobFails _ =>
      ([DataUrlFetched (imageDataUrl imageData);
        ConsoleError "Error processing page"],
       failure_entry imageData)
  | PageNet (NetThrows _) =>
      ([DataUrlFetched (imageDataUrl imageData);
        ExtractIssued pn (page_fileName imageData);
        ExtractSettled pn;
        ConsoleError "Error processing page"],
       failure_entry imageData)
  | PageNet (NetJson result) =>
      ([DataUrlFetched (imageDataUrl imageData);
        ExtractIssued pn (page_fileName imageData);
        ExtractSettled pn],
       success_entry result imageData)
  end.

(** The [for ... of] loop: iteration [k] is answered by [answers k]; each
    entry is pushed onto [results] whatever the iteration's outcome. *)
Fixpoint process_loop (answers : nat -> PageOutcome) (k : nat)
    (images : list PageImage) : list Effect * list ExtractedData :=
  match images with
  | [] => ([], [])
  | imageData :: rest =>
      let (effs, entry) := process_page imageData (answers k) in
      let (effs', results) := process_loop answers (S k) rest in
      (effs ++ effs', entry :: results)
  end.

(** The final [setPdfData(prev => ({ ...prev, extractedData: results,
    processing: false }))]. *)
Definition commit_results (n : PdfNumber) (results : list ExtractedData)
    (s : AppState) : AppState :=
  setPdfData n
    (fun prev => mkPdfData (file prev) (pageImages prev) (loading prev)
                   results false) s.

Definition mark_processing (n : PdfNumber) (s : AppState) : AppState :=
  setPdfData n
    (fun prev => mkPdfData (file prev) (pageImages prev) (loading prev)
                   (extractedData prev) true) s.

(** A whole run with nothing else happening in between. *)
Definition processSelectedImages (n : PdfNumber)
    (answers : nat -> PageOutcome) (s : AppState)
    : AppState * list Effect :=
  let images := selectedImages (pdfData n s) in
  match images with
  | [] => (s, [Alert "Please select at least one page to process"])
  | _ :: _ =>
      let (effs, results) := process_loop answers 0 images in
      (commit_results n results (mark_processing n s), effs)
  end.

(** *** [compareOrders] *)

(** [extractedData.find(result => result.success)?.data]. *)
Definition first_success_data (results : list ExtractedData) : JSValue :=
  match find (fun result => js_truthy (obj_get result "success")) results with
  | Some result => obj_get result "data"
  | None => JUndefined
  end.

(** Up to the first await: the guard, the two state updates, and the
    call being issued. *)
Definition compareOrders_start (s : AppState)
    : AppState * list Effect * bool :=
  let order1Data := first_success_data (extractedData (pdf1 s)) in
  let order2Data := first_success_data (extractedData (pdf2 s)) in
  if negb (js_truthy order1Data) || negb (js_truthy order2Data) then
    (s,
     [Alert "Please ensure both PDFs have been processed and have successful extractions before comparing."],
     false)
  else
    (setComparisonResult JNull (setComparing true s),
     [CompareIssued order1Data order2Data],
     true).

(** After the await: the result is stored, and [finally] drops the flag
    in the same synchronous stretch. *)
Definition compareOrders_finish (o : NetOutcome) (s : AppState)
    : AppState * list Effect :=
  match o with
  | NetJson result =>
      (setComparing false (setComparisonResult result s), [])
  | NetThrows _ =>
      (setComparing false
         (setComparisonResult
            (JObj [ ("success", JBool false);
                    ("error",
                      JStr "Failed to compare orders. Please try again.") ])
            s),
       [ConsoleError "Error comparing orders:"])
  end.

(** *** The controller as an event-driven machine *)

(** A handler suspended at an await. *)
Inductive Task : Type :=
| ConvertTask (n : PdfNumber)
| ExtractTask (n : PdfNumber) (todo : list PageImage)
    (results : list ExtractedData)
| CompareTask.

Record Config : Type := mkConfig {
  app : AppState;
  tasks : list Task;
  trace : list Effect
}.

Definition initial_config : Config := mkConfig initial_state [] [].

Inductive Event : Type :=
| SelectFile (selectedFile : option File) (n : PdfNumber)
| TogglePage (k : nat) (n : PdfNumber)
| SelectAll (n : PdfNumber)
| DeselectAll (n : PdfNumber)
| ClickExtract (n : PdfNumber)
| ClickCompare
| ToggleShow
| Settle (i : nat) (o : PageOutcome).

Fixpoint remove_nth {A : Type} (i : nat) (l : list A) : list A :=
  match l, i with
  | [], _ => []
  | _ :: rest, O => rest
  | x :: rest, S j => x :: remove_nth j rest
  end.

Fixpoint replace_nth {A : Type} (i : nat) (y : A) (l : list A) : list A :=
  match l, i with
  | [], _ => []
  | _ :: rest, O => y :: rest
  | x :: rest, S j => x :: replace_nth j y rest
  end.

(** The loop of [processSelectedImages] entering an iteration:
    [fetch(imageData.imageDataUrl)] is issued in the synchronous stretch
    that ends at the iteration's first await. *)
Definition enter_iteration (todo : list PageImage) : list Effect :=
  match todo with
  | [] => []
  | imageData :: _ => [DataUrlFetched (imageDataUrl imageData)]
  end.

(** What an iteration does once its awaits have settled: all of
    [process_page] but the fetch of the data URL, its first effect, which
    was issued when the iteration was entered. *)
Definition page_settled (imageData : PageImage) (o : PageOutcome)
    : list Effect * ExtractedData :=
  let (effs, entry) := process_page imageData o in
  (tl effs, entry).

(** The [i]-th suspended handler resumes with outcome [o] and runs to its
    next await or to its end.  The awaits of one loop iteration (the data
    URL, its blob, the API call and its body) settle as one event; the
    handler touches no state between them.  When the loop goes on, the
    next iteration is entered before the handler suspends again. *)
Definition resume (i : nat) (t : Task) (o : PageOutcome) (c : Config)
    : Config :=
  match t, o with
  | ConvertTask n, PageNet no =>
      let (s', effs) := processPdf_finish n no (app c) in
      mkConfig s' (remove_nth i (tasks c)) (trace c ++ effs)
  | ExtractTask n (imageData :: rest) results, _ =>
      let (effs, entry) := page_settled imageData o in
      let results' := results ++ [entry] in
      match rest with
      | [] =>
          mkConfig (commit_results n results' (app c))
            (remove_nth i (tasks c)) (trace c ++ effs)
      | _ :: _ =>
          mkConfig (app c)
            (replace_nth i (ExtractTask n rest results') (tasks c))
            (trace c ++ effs ++ enter_iteration rest)
      end
  | CompareTask, PageNet no =>
      let (s', effs) := compareOrders_finish no (app c) in
      mkConfig s' (remove_nth i (tasks c)) (trace c ++ effs)
  | _, _ => c
  end.

Definition step (e : Event) (c : Config) : Config :=
  match e with
  | SelectFile selectedFile n =>
      (* handleFileChange: if (selectedFile) processPdf(...) *)
      match selectedFile with
      | None => c
      | Some _ =>
          let '(s', effs, started) := processPdf_start selectedFile n (app c) in
          mkConfig s'
            (if started then tasks c ++ [ConvertTask n] else tasks c)
            (trace c ++ effs)
      end
  | TogglePage k n =>
      mkConfig (togglePageSelection k n (app c)) (tasks c) (trace c)
  | SelectAll n =>
      mkConfig (selectAllPages n (app c)) (tasks c) (trace c)
  | DeselectAll n =>
      mkConfig (deselectAllPages n (app c)) (tasks c) (trace c)
  | ClickExtract n =>
      match selectedImages (pdfData n (app c)) with
      | [] =>
          mkConfig (app c) (tasks c)
            (trace c ++ [Alert "Please select at least one page to process"])
      | images =>
          (* up to the first await of the first iteration *)
          mkConfig (mark_processing n (app c))
            (tasks c ++ [ExtractTask n images []])
            (trace c ++ enter_iteration images)
      end
  | ClickCompare =>
      let '(s', effs, started) := compareOrders_start (app c) in
      mkConfig s'
        (if started then tasks c ++ [CompareTask] else tasks c)
        (trace c ++ effs)
  | ToggleShow =>
      mkConfig (setShowExtractedData (negb (showExtractedData (app c))) (app c))
        (tasks c) (trace c)
  | Settle i o =>
      match nth_error (tasks c) i with
      | None => c
      | Some t => resume i t o c
      end
  end.

(** Events are handled one after the other. *)
Fixpoint run (events : list Event) (c : Config) : Config :=
  match events with
  | [] => c
  | e :: rest => run rest (step e c)
  end.

End Controller.

(* ================================================================== *)
(** ** Helper definitions for the statements *)
(* ================================================================== *)

(** [v.k] on a value known not to be [undefined] or [null]. *)
Definition js_field (v : JSValue) (k : string) : JSValue :=
  match v with
  | JObj o => obj_get o k
  | _ => JUndefined
  end.

(** The data URL the conversion route builds for one upstream file. *)
Definition data_url_of (ToString : JSValue -> string) (fileInfo : JSValue)
    : JSValue :=
  JStr ("data:image/jpeg;base64,"
          ++ ToString (js_field fileInfo "FileData"))%string.

(** The body of the conversion route's success response. *)
Definition success_body (result : JSValue) (fs pages : list JSValue)
    : JSObject :=
  [ ("success", JBool true);
    ("totalPages", js_nat (List.length fs));
    ("pages", JArr pages);
    ("conversionInfo",
      JObj [("conversionCost", js_field result "ConversionCost")]) ].

(** The form data the controller posts to the conversion route:
    [formData.append('pdf', selectedFile)]. *)
Definition pdf_form (f : File) : FormDataOutcome :=
  FormDataOk (fun name => if (name =? "pdf")%string
                          then Some (EntryFile f) else None).

(** The Conversion Gateway end to end: the controller's guard, then the
    route.  [None] is the controller refusing the file with an alert. *)
Definition conversion_gateway (ToString : JSValue -> string)
    (TypeErrorMessage : string) (selectedFile : option File)
    (env : EnvVar) (up : FetchOutcome) : option HandlerRun :=
  match selectedFile with
  | None => None
  | Some f =>
      if processPdf_rejects selectedFile then None
      else Some (ProcessPdf.POST ToString TypeErrorMessage (pdf_form f) env up)
  end.

Definition gateway_succeeds (g : option HandlerRun) : bool :=
  match g with
  | None => false
  | Some r =>
      (status (response r) =? 200)
      && js_truthy (obj_get (body (response r)) "success")
  end.

(** The four listed causes of failure. *)
Definition no_file (selectedFile : option File) : Prop :=
  selectedFile = None.

Definition not_pdf (selectedFile : option File) : Prop :=
  exists f, selectedFile = Some f /\ file_type f <> "application/pdf".

Definition upstream_non_success (up : FetchOutcome) : Prop :=
  exists st statusText json,
    up = FetchResponse st statusText json /\ resp_ok st = false.

Definition lacks_page_list (up : FetchOutcome) : Prop :=
  exists st statusText result,
    up = FetchResponse st statusText (JsonValue result) /\
    resp_ok st = true /\
    js_isArray (js_field result "Files") = false.

Definition listed_failure (selectedFile : option File) (up : FetchOutcome)
    : Prop :=
  no_file selectedFile \/ not_pdf selectedFile \/
  upstream_non_success up \/ lacks_page_list up.

(** The upstream call or the reading of its body rejects. *)
Definition upstream_throws (up : FetchOutcome) : Prop :=
  (exists t, up = FetchThrows t) \/
  (exists st statusText t, up = FetchResponse st statusText (JsonThrows t)).

(** A success status with a body whose [Files] is a non-empty array of
    entries none of which is [null]. *)
Definition upstream_page_list (up : FetchOutcome) (fs : list JSValue) : Prop :=
  exists st statusText result,
    up = FetchResponse st statusText (JsonValue result) /\
    resp_ok st = true /\
    js_field result "Files" = JArr fs /\
    fs <> [] /\
    forallb (fun f => negb (js_nullish f)) fs = true.

(** The three shapes of a route's response. *)
Definition ok_shape (payload : string) (r : Response) : Prop :=
  status r = 200 /\
  obj_get (body r) "success" = JBool true /\
  obj_has (body r) payload = true.

Definition exception_shape (r : Response) : Prop :=
  status r = 500 /\
  exists m, body r = [("success", JBool false); ("error", JStr m)].

Definition precondition_shape (r : Response) : Prop :=
  (status r = 400 \/ status r = 500) /\
  exists m, body r = [("error", JStr m)].

(** The value of the double with integer significand [m] and exponent
    [e], that is [m * 2^e]. *)
Definition double_value (m e : Z) : Q :=
  if (0 <=? e)%Z then inject_Z (m * 2 ^ e)
  else Qmake m (Z.to_pos (2 ^ (- e))).

(** The numbers a binary64 double can hold: a significand below [2^53]
    in magnitude and an exponent between -1074 and 971. *)
Definition is_binary64 (q : Q) : Prop :=
  exists m e : Z,
    (Z.abs m < 2 ^ 53)%Z /\ (-1074 <= e <= 971)%Z /\
    (q == double_value m e)%Q.

(** What the read [result.Files[0]] finds nothing in: [Files] absent,
    [null], a number, a boolean or an empty string, an empty array, or
    anything that holds [undefined] or [null] at index 0. *)
Definition first_file_unreadable (files : JSValue) : bool :=
  match files with
  | JUndefined | JNull | JBool _ | JNum _ => true
  | JStr s => (s =? "")%string
  | JArr [] => true
  | JArr (f0 :: _) => js_nullish f0
  | JObj o => js_nullish (obj_get o "0")
  end.

(** [Files] is not an array, yet holds something at index 0: a non-empty
    string, or an object whose property ["0"] is neither [undefined] nor
    [null]. *)
Definition indexable_non_array (files : JSValue) : bool :=
  match files with
  | JStr s => negb (s =? "")%string
  | JObj o => negb (js_nullish (obj_get o "0"))
  | _ => false
  end.

(** The body of the comparison route's success response. *)
Definition comparison_body (r : ComparisonResult) (flag : bool)
    (now : string) : JSObject :=
  [ ("success", JBool true);
    ("comparison", comparison_json r);
    ("needsManualReview", JBool flag);
    ("comparedAt", JStr now) ].

(** [extractedData.some(r => r.success)]: the document has a successful
    Extraction Result. *)
Definition has_success (results : list ExtractedData) : bool :=
  existsb (fun r => js_truthy (obj_get r "success")) results.

(** A successful result that carries a record as its data, as the
    extraction route's success responses do. *)
Definition carries_record (r : ExtractedData) : Prop :=
  js_truthy (obj_get r "success") = true ->
  exists o, obj_get r "data" = JObj o.

(** The elements of a list with their positions. *)
Definition indexed {A : Type} (l : list A) : list (nat * A) :=
  combine (seq 0 (List.length l)) l.

(** The API-call events of one loop iteration: none when the page's data
    URL could not be read, else the call being issued and then settled. *)
Definition page_call_events (ToString : JSValue -> string)
    (imageData : PageImage) (o : PageOutcome) : list Effect :=
  match o with
  | BlobFails _ => []
  | PageNet _ =>
      [ ExtractIssued (pageNumber imageData) (page_fileName ToString imageData);
        ExtractSettled (pageNumber imageData) ]
  end.

Definition is_call_event (e : Effect) : bool :=
  match e with
  | ExtractIssued _ _ | ExtractSettled _ => true
  | _ => false
  end.

(** What is recorded for a page: the entry bears the page's number; a
    page whose data URL could not be read, or whose call was rejected, is
    recorded as a failure that names the page and carries no data; an
    answered call is recorded as its answer, every named property (one
    that is not an array index) but the page number being the answer's
    own, [success], [data] and [error] among them. *)
Definition recorded_outcome (ToString : JSValue -> string)
    (imageData : PageImage) (o : PageOutcome) (entry : ExtractedData)
    : Prop :=
  obj_get entry "pageNumber" = pageNumber imageData /\
  match o with
  | BlobFails _ | PageNet (NetThrows _) =>
      obj_get entry "success" = JBool false /\
      obj_get entry "error"
        = JStr ("Failed to process page "
                  ++ ToString (pageNumber imageData))%string /\
      obj_get entry "data" = JUndefined
  | PageNet (NetJson result) =>
      forall key,
        key <> "pageNumber" ->
        (forall i, (nat_to_string i =? key)%string = false) ->
        obj_get entry key = js_field result key
  end.

Definition other_pdf (n : PdfNumber) : PdfNumber :=
  match n with
  | One => Two
  | Two => One
  end.


Definition one_of_three_shapes (payload : string) (r : Response) : Prop :=
  ok_shape payload r \/ exception_shape r \/ precondition_shape r.

(** The three components of what [compareOrders] does up to its await. *)
Definition compare_state (s : AppState) : AppState :=
  fst (fst (compareOrders_start s)).

Definition compare_effects (s : AppState) : list Effect :=
  snd (fst (compareOrders_start s)).

Definition compare_started (s : AppState) : bool :=
  snd (compareOrders_start s).

Definition compare_alert : Effect :=
  Alert "Please ensure both PDFs have been processed and have successful extractions before comparing.".

(** The comparison slice of the state. *)
Definition comparison_view (s : AppState) : bool * JSValue :=
  (comparing s, comparisonResult s).

(** What one event can do to the comparison slice. *)
Inductive view_change (c : Config) (e : Event) : bool * JSValue -> Prop :=
| view_kept :
    view_change c e (comparison_view (app c))
| view_cleared :
    e = ClickCompare ->
    compare_started (app c) = true ->
    view_change c e (true, JNull)
| view_stored (i : nat) (o : NetOutcome) (result : JSValue) :
    e = Settle i (PageNet o) ->
    nth_error (tasks c) i = Some CompareTask ->
    view_change c e (false, result).

(** Sample data for the concrete instances below. *)
Definition sample_ToString (v : JSValue) : string :=
  match v with
  | JStr s => s
  | _ => "?"
  end.

Definition sample_TypeError : string := "TypeError".

Definition sample_pdf : File := mkFile "order.pdf" "application/pdf" "%PDF".

Definition sample_file_info (name data : string) : JSValue :=
  JObj [ ("FileName", JStr name); ("FileExt", JStr "jpg");
         ("FileSize", js_nat 1); ("FileData", JStr data) ].

Definition sample_upstream : FetchOutcome :=
  FetchResponse 200 "OK"
    (JsonValue
       (JObj [ ("ConversionCost", js_nat 1);
               ("Files", JArr [ sample_file_info "order-1.jpg" "AAAA";
                                sample_file_info "order-2.jpg" "BBBB";
                                sample_file_info "order-3.jpg" "CCCC" ]) ])).

Definition sample_order (tracking : string) : JSValue :=
  JObj [ ("OrderNumber", JStr "SO-1"); ("TrackingNumber", JStr tracking) ].

Definition sample_compare_request : JsonOutcome :=
  JsonValue (JObj [ ("order1", sample_order "1Z999");
                    ("order2", sample_order "1Z998") ]).

Definition sample_comparison : ComparisonResult :=
  mkComparisonResult
    [ mkDiscrepancy "TrackingNumber" "1Z999" "1Z998" critical
        "Tracking numbers differ" ]
    [ mkMatch "OrderNumber" "SO-1" 1 ]
    (mkAnalysis (3 # 4) fair [] "Review the tracking number")
    "One critical discrepancy".

Definition sample_page (k : nat) (sel : bool) : PageImage :=
  mkPageImage (js_nat k) (JStr "data:image/jpeg;base64,AAAA") sel
    (js_nat 800) (js_nat 1000).

(** A document of three pages with pages 1 and 3 selected. *)
Definition sample_document : PdfData :=
  mkPdfData (Some sample_pdf)
    [sample_page 1 true; sample_page 2 false; sample_page 3 true]
    false [] false.

Definition sample_state : AppState :=
  mkAppState sample_document empty_pdf JNull false false.

Definition sample_extraction : JSValue :=
  JObj [ ("success", JBool true);
         ("data", sample_order "1Z999");
         ("extractedAt", JStr "2024-01-01T00:00:00.000Z") ].

(** The first page's call succeeds, every later one is rejected. *)
Definition sample_answers (k : nat) : PageOutcome :=
  match k with
  | O => PageNet (NetJson sample_extraction)
  | S _ => PageNet (NetThrows (ThrownError "Failed to fetch"))
  end.

Definition full_success : ExtractedData :=
  [ ("success", JBool true); ("data", sample_order "1Z999");
    ("extractedAt", JStr "2024-01-01T00:00:00.000Z");
    ("pageNumber", js_nat 1) ].

Definition with_results (r1 r2 : list ExtractedData) : AppState :=
  mkAppState (mkPdfData (Some sample_pdf) [] false r1 false)
             (mkPdfData (Some sample_pdf) [] false r2 false)
             JNull false false.

Definition sample_conversion : JSValue :=
  JObj [ ("success", JBool true);
         ("totalPages", js_nat 1);
         ("pages",
           JArr [ JObj [ ("pageNumber", js_nat 1);
                         ("imageDataUrl", JStr "data:image/jpeg;base64,AAAA");
                         ("width", js_nat 800);
                         ("height", js_nat 1000) ] ]) ].

(** Upload, convert, select and extract one page of one document. *)
Definition sample_prepare (n : PdfNumber) : list Event :=
  [ SelectFile (Some sample_pdf) n;
    Settle 0 (PageNet (NetJson sample_conversion));
    SelectAll n;
    ClickExtract n;
    Settle 0 (PageNet (NetJson sample_extraction)) ].

Definition sample_session : list Event :=
  sample_prepare One ++ sample_prepare Two ++ [ClickCompare].

(* ================================================================== *)
(** ** What the controller renders *)
(* ================================================================== *)

(** [getSeverityColor], on whatever string the result carries. *)
Definition getSeverityColor (severity : string) : string :=
  if (severity =? "critical")%string then "text-red-600 bg-red-50"
  else if (severity =? "major")%string then "text-orange-600 bg-orange-50"
  else if (severity =? "minor")%string then "text-yellow-600 bg-yellow-50"
  else "text-gray-600 bg-gray-50".

(** The icons [getSeverityIcon] chooses from; it has no [default]. *)
Inductive Icon : Type := AlertCircle | AlertTriangle.

Definition getSeverityIcon (severity : string) : option Icon :=
  if (severity =? "critical")%string then Some AlertCircle
  else if (severity =? "major")%string then Some AlertTriangle
  else if (severity =? "minor")%string then Some AlertCircle
  else None.

(** The name a [Severity] is sent under. *)
Definition severity_name (s : Severity) : string :=
  match s with
  | critical => "critical"
  | major => "major"
  | minor => "minor"
  end.

(** [disabled] of the Extract button. *)
Definition extract_disabled (pd : PdfData) : bool :=
  processing pd || (List.length (filter selected (pageImages pd)) =? 0).

(** The Compare card is rendered. *)
Definition compare_card_shown (s : AppState) : bool :=
  existsb (fun r => js_truthy (obj_get r "success")) (extractedData (pdf1 s))
  && existsb (fun r => js_truthy (obj_get r "success")) (extractedData (pdf2 s)).

(** The Comparison Results card is rendered: [comparisonResult && ...]. *)
Definition results_card_shown (s : AppState) : bool :=
  js_truthy (comparisonResult s).

(** The "Manual Review Required" badge:
    [comparisonResult.needsManualReview && ...] inside the card. *)
Definition manual_review_shown (s : AppState) : bool :=
  results_card_shown s
  && js_truthy (js_field (comparisonResult s) "needsManualReview").

(** [comparisonResult.success && comparisonResult.comparison]: the details
    are rendered, otherwise the "Comparison Failed" panel. *)
Definition details_shown (s : AppState) : bool :=
  results_card_shown s
  && js_truthy (js_field (comparisonResult s) "success")
  && js_truthy (js_field (comparisonResult s) "comparison").

Definition failed_panel_shown (s : AppState) : bool :=
  results_card_shown s && negb (details_shown s).

(** [comparisonResult.error || 'An unknown error occurred']. *)
Definition failed_panel_text (s : AppState) : JSValue :=
  let error := js_field (comparisonResult s) "error" in
  if js_truthy error then error else JStr "An unknown error occurred".

Section Rendering.

(** The number a value is converted to when compared with a number;
    [None] stands for NaN. *)
Variable ToNumeric : JSValue -> option Q.

(** [v >= 0.8]. *)
Definition js_ge_0_8 (v : JSValue) : bool :=
  match ToNumeric v with
  | Some q => Qle_bool literal_0_8 q
  | None => false
  end.

(** The confidence score is drawn green:
    [comparison.analysis.overall_confidence >= 0.8], read inside the
    details.  [None] is the render throwing on a missing [analysis]. *)
Definition confidence_green (s : AppState) : option bool :=
  let analysis := js_field (js_field (comparisonResult s) "comparison")
                    "analysis" in
  if js_nullish analysis then None
  else Some (js_ge_0_8 (js_field analysis "overall_confidence")).

End Rendering.

(** The handler a suspended task belongs to. *)
Definition pdf_eqb (a b : PdfNumber) : bool :=
  match a, b with
  | One, One | Two, Two => true
  | _, _ => false
  end.

Definition is_convert_of (n : PdfNumber) (t : Task) : bool :=
  match t with
  | ConvertTask m => pdf_eqb n m
  | _ => false
  end.

Definition is_extract_of (n : PdfNumber) (t : Task) : bool :=
  match t with
  | ExtractTask m _ _ => pdf_eqb n m
  | _ => false
  end.

Definition is_compare (t : Task) : bool :=
  match t with
  | CompareTask => true
  | _ => false
  end.

(** An Extraction Result that carries a page number. *)
Definition tagged (r : ExtractedData) : Prop := obj_has r "pageNumber" = true.

Definition task_tagged (t : Task) : Prop :=
  match t with
  | ExtractTask _ _ results => Forall tagged results
  | _ => True
  end.

(** The images with their selection forgotten. *)
Definition unselect_all (imgs : list PageImage) : list PageImage :=
  map (set_selected false) imgs.

(** What [compareOrders] stores for an outcome of its call. *)
Definition stored_result (o : NetOutcome) : JSValue :=
  match o with
  | NetJson result => result
  | NetThrows _ =>
      JObj [ ("success", JBool false);
             ("error", JStr "Failed to compare orders. Please try again.") ]
  end.

(** Everything of a state but the selection flags of document [n]. *)
Definition selection_frame (n : PdfNumber) (s s' : AppState) : Prop :=
  unselect_all (pageImages (pdfData n s'))
    = unselect_all (pageImages (pdfData n s)) /\
  file (pdfData n s') = file (pdfData n s) /\
  loading (pdfData n s') = loading (pdfData n s) /\
  extractedData (pdfData n s') = extractedData (pdfData n s) /\
  processing (pdfData n s') = processing (pdfData n s) /\
  pdfData (other_pdf n) s' = pdfData (other_pdf n) s /\
  comparison_view s' = comparison_view s /\
  showExtractedData s' = showExtractedData s.

(** The image the controller makes of one page of a conversion answer. *)
Definition image_of_page (page : JSValue) : PageImage :=
  mkPageImage (js_field page "pageNumber") (js_field page "imageDataUrl")
    false (js_field page "width") (js_field page "height").

(** Every busy flag that is up has a suspended handler behind it. *)
Definition flags_backed (c : Config) : Prop :=
  (forall n, loading (pdfData n (app c)) = true ->
             existsb (is_convert_of n) (tasks c) = true) /\
  (forall n, processing (pdfData n (app c)) = true ->
             existsb (is_extract_of n) (tasks c) = true) /\
  (comparing (app c) = true -> existsb is_compare (tasks c) = true).

(** Every result, stored or still being gathered, carries a page number. *)
Definition results_tagged (c : Config) : Prop :=
  Forall tagged (extractedData (pdf1 (app c))) /\
  Forall tagged (extractedData (pdf2 (app c))) /\
  Forall task_tagged (tasks c).

(** An answer of the image extraction route, as the controller reads
    it: what [apiResponse.json()] gives for the body of one of the route's
    responses, whatever the route was sent, whatever its environment and
    whatever the model replied. *)
Definition route_answer (v : JSValue) : Prop :=
  exists msg env form llm now,
    v = wire_body (body (response (ExtractInvoice.POST msg env form llm now))).

(** Event [e], handled in configuration [c], does not answer an
    extraction call with anything but an answer of the extraction route:
    the call is rejected, or its data URL cannot be read, or the route
    answers. *)
Definition extraction_served (c : Config) (e : Event) : Prop :=
  match e with
  | Settle i (PageNet (NetJson v)) =>
      match nth_error (tasks c) i with
      | Some (ExtractTask _ _ _) => route_answer v
      | _ => True
      end
  | _ => True
  end.

(** A session in which the extraction calls are served by the extraction
    route. *)
Fixpoint served_by_route (ToString : JSValue -> string)
    (TypeErrorMessage : string) (events : list Event) (c : Config) : Prop :=
  match events with
  | [] => True
  | e :: rest =>
      extraction_served c e /\
      served_by_route ToString TypeErrorMessage rest
        (step ToString TypeErrorMessage e c)
  end.

Definition task_records (t : Task) : Prop :=
  match t with
  | ExtractTask _ _ results => Forall carries_record results
  | _ => True
  end.

(** Every successful result, stored or still being gathered, carries a
    record. *)
Definition records_carried (c : Config) : Prop :=
  Forall carries_record (extractedData (pdf1 (app c))) /\
  Forall carries_record (extractedData (pdf2 (app c))) /\
  Forall task_records (tasks c).

(** Both documents uploaded, converted, selected and extracted. *)
Definition sample_extracted : list Event :=
  sample_prepare One ++ sample_prepare Two.

(** The body [compareOrders] posts, as the route parses it. *)
Definition compare_request (order1 order2 : JSValue) : JsonOutcome :=
  JsonValue (wire_body [("order1", order1); ("order2", order2)]).

(** A numeric conversion that reads a number as itself. *)
Definition sample_ToNumeric (v : JSValue) : option Q :=
  match v with
  | JNum q => Some q
  | _ => None
  end.

(** More sample data. *)
Definition sample_get (name : string) : option FormEntry :=
  if (name =? "pdf")%string then Some (EntryFile sample_pdf) else None.

Definition sample_image : File := mkFile "page-1.jpg" "image/jpeg" "JFIF".

Definition sample_image_get (name : string) : option FormEntry :=
  if (name =? "image")%string then Some (EntryFile sample_image) else None.

Definition sample_text_request : JSValue := JObj [("text", JStr "Racun 1")].

Definition sample_now : string := "2024-01-01T00:00:00.000Z".

Definition sample_ready : AppState := with_results [full_success] [full_success].

(* ================================================================== *)
(** ** Basic facts about objects and values *)
(* ================================================================== *)

Lemma obj_get_set_same (o : JSObject) (k : string) (v : JSValue) :
  obj_get (obj_set o k v) k = v.
Proof.
  induction o as [|[k' v'] rest IH]; simpl.
  - now rewrite String.eqb_refl.
  - destruct (k' =? k)%string eqn:E; simpl; rewrite E; auto.
Qed.

Lemma obj_get_set_other (o : JSObject) (k k' : string) (v : JSValue) :
  k <> k' -> obj_get (obj_set o k v) k' = obj_get o k'.
Proof.
  intros Hne.
  induction o as [|[k0 v0] rest IH]; simpl.
  - destruct (String.eqb_spec k k'); [contradiction | reflexivity].
  - destruct (String.eqb_spec k0 k) as [->|Hk]; simpl.
    + destruct (String.eqb_spec k k'); [contradiction | reflexivity].
    + now rewrite IH.
Qed.

Lemma js_nat_inj (a b : nat) : js_nat a = js_nat b -> a = b.
Proof.
  unfold js_nat, inject_Z. intros H. injection H as H.
  now apply Nat2Z.inj.
Qed.

Lemma js_nat_seq_NoDup (start len : nat) :
  NoDup (map js_nat (seq start len)).
Proof.
  generalize (seq_NoDup len start).
  induction (seq start len) as [|a l IH]; intros Hnd; simpl.
  - constructor.
  - inversion Hnd as [|? ? Hnotin Hrest]; subst. constructor; auto.
    intros Hin. apply in_map_iff in Hin as (b & Hb & Hbin).
    apply js_nat_inj in Hb. now subst.
Qed.

Lemma js_get_field (m : string) (v : JSValue) (k : string) (x : JSValue) :
  js_get m v k = Ok x -> x = js_field v k /\ js_nullish v = false.
Proof.
  destruct v; simpl; intros H; inversion H; auto.
Qed.

Lemma js_get_nullish (m : string) (v : JSValue) (k : string) :
  js_nullish v = true -> js_get m v k = Throw (ThrownError m).
Proof. destruct v; simpl; intros H; try discriminate; reflexivity. Qed.

Lemma js_get_not_nullish (m : string) (v : JSValue) (k : string) :
  js_nullish v = false -> js_get m v k = Ok (js_field v k).
Proof. destruct v; simpl; intros H; try discriminate; reflexivity. Qed.

(** Object spread leaves the named properties of an object alone, and
    gives none to anything else. *)
Lemma nat_to_string_not (k : string) (c : ascii) (rest : string) :
  k = String c rest ->
  (c <> "0" /\ c <> "1" /\ c <> "2" /\ c <> "3" /\ c <> "4" /\
   c <> "5" /\ c <> "6" /\ c <> "7" /\ c <> "8" /\ c <> "9")%char ->
  forall i, (nat_to_string i =? k)%string = false.
Proof.
  intros -> (H0 & H1 & H2 & H3 & H4 & H5 & H6 & H7 & H8 & H9) i.
  apply String.eqb_neq. unfold nat_to_string, NilZero.string_of_uint.
  destruct (Nat.to_uint i); cbn [NilEmpty.string_of_uint];
    intros H; injection H as Hc _; congruence.
Qed.

Lemma index_entries_no_name (k : string) (vs : list JSValue) :
  (forall i, (nat_to_string i =? k)%string = false) ->
  forall i, obj_get (index_entries i vs) k = JUndefined.
Proof.
  intros Hk. induction vs as [|v rest IH]; intros i; [reflexivity|].
  cbn [index_entries obj_get]. now rewrite Hk.
Qed.

Lemma char_entries_no_name (k : string) (s : string) :
  (forall i, (nat_to_string i =? k)%string = false) ->
  forall i, obj_get (char_entries i s) k = JUndefined.
Proof.
  intros Hk. induction s as [|c rest IH]; intros i; [reflexivity|].
  cbn [char_entries obj_get]. now rewrite Hk.
Qed.

Lemma spread_named_field (v : JSValue) (k : string) :
  (forall i, (nat_to_string i =? k)%string = false) ->
  obj_get (js_spread v) k = js_field v k.
Proof.
  intros Hk. destruct v; cbn [js_spread js_field]; try reflexivity.
  - now apply char_entries_no_name.
  - now apply index_entries_no_name.
Qed.

(* ================================================================== *)
(** ** The conversion route *)
(* ================================================================== *)

Section ConversionFacts.

Variable ToString : JSValue -> string.
Variable TypeErrorMessage : string.

Lemma build_pages_spec (fs : list JSValue) :
  forall i pages,
    build_pages ToString TypeErrorMessage i fs = Ok pages ->
    List.length pages = List.length fs /\
    map (fun p => js_field p "pageNumber") pages
      = map js_nat (seq (i + 1) (List.length fs)) /\
    map (fun p => js_field p "imageDataUrl") pages
      = map (data_url_of ToString) fs /\
    map (fun p => js_field p "fileName") pages
      = map (fun f => js_field f "FileName") fs /\
    forallb (fun f => negb (js_nullish f)) fs = true.
Proof.
  induction fs as [|f rest IH]; intros i pages H; simpl in H.
  - inversion H; subst. simpl. repeat split; reflexivity.
  - destruct (js_nullish f) eqn:Hn.
    + rewrite js_get_nullish in H by assumption. discriminate.
    + rewrite !js_get_not_nullish in H by assumption. simpl in H.
      destruct (build_pages ToString TypeErrorMessage (S i) rest)
        as [ps|t] eqn:Hrest; simpl in H; [|discriminate].
      inversion H; subst; clear H.
      destruct (IH _ _ Hrest) as (Hlen & Hnum & Hurl & Hname & Hall).
      simpl. rewrite Hn, Hlen, Hnum, Hurl, Hname, Hall.
      replace (S i + 1) with (S (i + 1)) by lia.
      repeat split; reflexivity.
Qed.

Lemma build_pages_total (fs : list JSValue) :
  forallb (fun f => negb (js_nullish f)) fs = true ->
  forall i, exists pages, build_pages ToString TypeErrorMessage i fs = Ok pages.
Proof.
  induction fs as [|f rest IH]; intros Hall i; simpl.
  - now exists [].
  - simpl in Hall. apply andb_true_iff in Hall as [Hf Hrest].
    apply negb_true_iff in Hf.
    rewrite !js_get_not_nullish by assumption. simpl.
    destruct (IH Hrest (S i)) as [ps Hps]. rewrite Hps. simpl. eauto.
Qed.

Let upstream := convert_upstream ToString TypeErrorMessage.
Let pages_from := build_pages ToString TypeErrorMessage 0.

Lemma convert_upstream_ok_inv (up : FetchOutcome) (resp : Response) :
  upstream up = Ok resp ->
  exists st statusText result fs pages,
    up = FetchResponse st statusText (JsonValue result) /\
    resp_ok st = true /\
    js_field result "Files" = JArr fs /\
    fs <> [] /\
    pages_from fs = Ok pages /\
    resp = json_response 200 (success_body result fs pages).
Proof.
  unfold upstream, convert_upstream.
  destruct up as [t|st statusText json]; [discriminate|].
  destruct (resp_ok st) eqn:Hok; cbn -[build_pages List.length]; [|discriminate].
  destruct json as [t|result]; [discriminate|].
  destruct (js_nullish result) eqn:Hres.
  { rewrite js_get_nullish by assumption. discriminate. }
  rewrite !js_get_not_nullish by assumption. cbn -[build_pages List.length].
  destruct (js_field result "Files") as [| |b|q|str|fs|o] eqn:HF;
    cbn -[build_pages List.length]; try discriminate.
  - destruct str as [|c str]; cbn -[build_pages List.length]; discriminate.
  - destruct fs as [|f0 fs]; cbn -[build_pages List.length]; [discriminate|].
    destruct (js_nullish f0) eqn:Hf0; unfold js_object_keys; rewrite Hf0;
      cbn -[build_pages List.length]; [discriminate|].
    unfold pages_from.
    destruct (build_pages ToString TypeErrorMessage 0 (f0 :: fs))
      as [pages|t] eqn:Hpages; [|cbn -[build_pages List.length]; discriminate].
    cbn [bind]. intros H. inversion H; subst.
    exists st, statusText, result, (f0 :: fs), pages.
    repeat split; auto. discriminate.
  - destruct (js_object_keys TypeErrorMessage (obj_get o "0")); discriminate.
Qed.

Lemma convert_upstream_ok_intro (up : FetchOutcome) (fs : list JSValue) :
  upstream_page_list up fs ->
  exists result pages,
    pages_from fs = Ok pages /\
    upstream up = Ok (json_response 200 (success_body result fs pages)).
Proof.
  intros (st & statusText & result & -> & Hok & HF & Hne & Hall).
  destruct (build_pages_total fs Hall 0) as [pages Hpages]. fold (pages_from fs) in Hpages.
  exists result, pages. split; [assumption|].
  unfold upstream, convert_upstream. rewrite Hok. cbn -[build_pages List.length].
  assert (Hres : js_nullish result = false).
  { destruct result; simpl in *; try reflexivity; discriminate. }
  rewrite !js_get_not_nullish by assumption. cbn -[build_pages List.length]. rewrite HF. cbn -[build_pages List.length].
  destruct fs as [|f0 fs]; [contradiction|]. simpl in Hall.
  apply andb_true_iff in Hall as [Hf0 _]. apply negb_true_iff in Hf0.
  unfold js_object_keys. cbn [nth]. rewrite Hf0. cbn [bind].
  unfold pages_from in Hpages. rewrite Hpages. reflexivity.
Qed.

Lemma convert_upstream_fails (up : FetchOutcome) :
  upstream_non_success up \/ lacks_page_list up \/ upstream_throws up ->
  exists t, upstream up = Throw t.
Proof.
  unfold upstream, convert_upstream.
  intros [(st & statusText & json & -> & Hok)
         |[(st & statusText & result & -> & Hok & Harr)
          |[(t & ->)|(st & statusText & t & ->)]]].
  - rewrite Hok. simpl. eauto.
  - rewrite Hok. simpl.
    destruct (js_nullish result) eqn:Hres.
    { rewrite js_get_nullish by assumption. simpl. eauto. }
    rewrite !js_get_not_nullish by assumption. simpl.
    destruct (js_field result "Files") as [| |b|q|str|fs|o];
      simpl in *; try discriminate; eauto.
    + destruct str; simpl; eauto.
    + destruct (js_object_keys TypeErrorMessage (obj_get o "0")); simpl; eauto.
  - eauto.
  - destruct (resp_ok st); simpl; eauto.
Qed.

Lemma secret_truthy (env : EnvVar) :
  js_truthy (JStr (CONVERTAPI_SECRET env)) = true.
Proof.
  unfold CONVERTAPI_SECRET. destruct env as [s|]; [|reflexivity].
  destruct (js_truthy (JStr s)) eqn:E; [assumption | reflexivity].
Qed.

(** With a file in the form, the route always reaches the upstream call. *)
Lemma process_pdf_with_file (get : string -> option FormEntry)
    (entry : FormEntry) (env : EnvVar) (up : FetchOutcome) :
  get "pdf" = Some entry ->
  entry_truthy (Some entry) = true ->
  ProcessPdf.POST ToString TypeErrorMessage (FormDataOk get) env up
  = ([ConvertApiCall (CONVERTAPI_SECRET env) entry],
     match upstream up with
     | Ok resp => resp
     | Throw error =>
         json_response 500
           [ ("success", JBool false);
             ("error", JStr (message_or error "Failed to process PDF")) ]
     end).
Proof.
  intros Hget Htruthy. unfold ProcessPdf.POST, convert_try.
  rewrite Hget, Htruthy. cbn [negb]. rewrite secret_truthy. cbn [negb].
  unfold upstream. destruct (convert_upstream ToString TypeErrorMessage up);
    reflexivity.
Qed.

Lemma process_pdf_without_file (get : string -> option FormEntry)
    (env : EnvVar) (up : FetchOutcome) :
  entry_truthy (get "pdf") = false ->
  ProcessPdf.POST ToString TypeErrorMessage (FormDataOk get) env up
  = ([], json_response 400 [("error", JStr "No PDF file provided")]).
Proof.
  intros H. unfold ProcessPdf.POST, convert_try.
  destruct (get "pdf") as [entry|]; [|reflexivity].
  rewrite H. reflexivity.
Qed.

Lemma process_pdf_200_inv (form : FormDataOutcome) (env : EnvVar)
    (up : FetchOutcome) :
  status (response (ProcessPdf.POST ToString TypeErrorMessage form env up)) = 200 ->
  exists resp, upstream up = Ok resp /\
    response (ProcessPdf.POST ToString TypeErrorMessage form env up) = resp.
Proof.
  destruct form as [t|get].
  - simpl. discriminate.
  - destruct (entry_truthy (get "pdf")) eqn:Htruthy.
    + destruct (get "pdf") as [entry|] eqn:Hget; [|discriminate].
      rewrite (process_pdf_with_file get entry env up Hget Htruthy).
      unfold response. cbn [snd].
      destruct (upstream up) as [resp|t]; [eauto | simpl; discriminate].
    + rewrite process_pdf_without_file by assumption. simpl. discriminate.
Qed.

(** C8 -- A successful conversion whose upstream reply lists N files
    returns exactly N pages, the i-th built from the i-th file and numbered
    i (from 1), so the numbers are 1..N in source order without gap or
    duplicate. *)
Theorem convert_pages_numbered (form : FormDataOutcome) (env : EnvVar)
    (up : FetchOutcome) :
  status (response (ProcessPdf.POST ToString TypeErrorMessage form env up)) = 200 ->
  exists st statusText result fs pages,
    up = FetchResponse st statusText (JsonValue result) /\
    js_field result "Files" = JArr fs /\
    body (response (ProcessPdf.POST ToString TypeErrorMessage form env up))
      = success_body result fs pages /\
    List.length pages = List.length fs /\
    map (fun p => js_field p "pageNumber") pages
      = map js_nat (seq 1 (List.length fs)) /\
    NoDup (map (fun p => js_field p "pageNumber") pages) /\
    map (fun p => js_field p "imageDataUrl") pages
      = map (data_url_of ToString) fs /\
    map (fun p => js_field p "fileName") pages
      = map (fun f => js_field f "FileName") fs.
Proof.
  intros H200.
  destruct (process_pdf_200_inv form env up H200) as (resp & Hup & Hresp).
  destruct (convert_upstream_ok_inv up resp Hup)
    as (st & statusText & result & fs & pages & -> & _ & HF & _ & Hpages & ->).
  unfold pages_from in Hpages.
  destruct (build_pages_spec fs 0 pages Hpages)
    as (Hlen & Hnum & Hurl & Hname & _).
  exists st, statusText, result, fs, pages.
  rewrite Hresp. cbn [body json_response].
  repeat split; auto.
  rewrite Hnum. apply js_nat_seq_NoDup.
Qed.

(** C5, as the code has it -- The gateway fails for each of the four
    listed causes, and also when the upstream call or the reading of its body
    throws; it succeeds when a PDF is supplied and the upstream answers
    with a success status and a non-empty list of non-null files; at the
    route, a request without a file is answered 400 with no upstream
    call. *)
Theorem gateway_failure_causes (selectedFile : option File) (env : EnvVar)
    (up : FetchOutcome) :
  let g := conversion_gateway ToString TypeErrorMessage selectedFile env up in
  (listed_failure selectedFile up -> gateway_succeeds g = false) /\
  (upstream_throws up -> gateway_succeeds g = false) /\
  (forall f fs,
      selectedFile = Some f ->
      file_type f = "application/pdf" ->
      upstream_page_list up fs ->
      gateway_succeeds g = true) /\
  (forall get,
      entry_truthy (get "pdf") = false ->
      ProcessPdf.POST ToString TypeErrorMessage (FormDataOk get) env up
      = ([], json_response 400 [("error", JStr "No PDF file provided")])).
Proof.
  cbv zeta.
  assert (Hfail : forall f,
            selectedFile = Some f ->
            processPdf_rejects selectedFile = false ->
            (exists t, upstream up = Throw t) ->
            gateway_succeeds
              (conversion_gateway ToString TypeErrorMessage selectedFile env up)
            = false).
  { intros f -> Hrej (t & Ht). unfold conversion_gateway. rewrite Hrej.
    unfold pdf_form.
    rewrite (process_pdf_with_file _ (EntryFile f)) by reflexivity.
    rewrite Ht. reflexivity. }
  assert (Hrejected : processPdf_rejects selectedFile = true ->
            gateway_succeeds
              (conversion_gateway ToString TypeErrorMessage selectedFile env up)
            = false).
  { intros Hrej. unfold conversion_gateway.
    destruct selectedFile; [rewrite Hrej|]; reflexivity. }
  repeat split.
  - intros Hlisted.
    destruct (processPdf_rejects selectedFile) eqn:Hrej; [auto|].
    destruct selectedFile as [f|]; [|discriminate].
    destruct Hlisted as [Hnone|[(f' & Heq & Htype)|Hup]].
    + discriminate.
    + injection Heq as <-. simpl in Hrej.
      apply negb_false_iff, String.eqb_eq in Hrej. contradiction.
    + apply (Hfail f eq_refl eq_refl). apply convert_upstream_fails. tauto.
  - intros Hthrows.
    destruct (processPdf_rejects selectedFile) eqn:Hrej; [auto|].
    destruct selectedFile as [f|]; [|discriminate].
    apply (Hfail f eq_refl eq_refl). apply convert_upstream_fails. tauto.
  - intros f fs -> Htype Hlist. unfold conversion_gateway.
    simpl. rewrite Htype. cbn [String.eqb negb].
    destruct (convert_upstream_ok_intro up fs Hlist)
      as (result & pages & _ & Hup).
    unfold pdf_form.
    rewrite (process_pdf_with_file _ (EntryFile f)) by reflexivity.
    rewrite Hup. reflexivity.
  - intros get. apply process_pdf_without_file.
Qed.

End ConversionFacts.

Lemma convert_pages_numbered_witness :
  status (response (ProcessPdf.POST sample_ToString sample_TypeError
                      (pdf_form sample_pdf) None sample_upstream)) = 200 /\
  exists st statusText result fs pages,
    sample_upstream = FetchResponse st statusText (JsonValue result) /\
    js_field result "Files" = JArr fs /\
    body (response (ProcessPdf.POST sample_ToString sample_TypeError
                      (pdf_form sample_pdf) None sample_upstream))
      = success_body result fs pages /\
    List.length pages = List.length fs /\
    map (fun p => js_field p "pageNumber") pages
      = map js_nat (seq 1 (List.length fs)) /\
    NoDup (map (fun p => js_field p "pageNumber") pages) /\
    map (fun p => js_field p "imageDataUrl") pages
      = map (data_url_of sample_ToString) fs /\
    map (fun p => js_field p "fileName") pages
      = map (fun f => js_field f "FileName") fs.
Proof.
  split; [reflexivity|].
  apply (convert_pages_numbered sample_ToString sample_TypeError
           (pdf_form sample_pdf) None sample_upstream).
  reflexivity.
Defined.

(** C5 with "exactly when" does not hold -- With a PDF supplied and the
    upstream call rejecting (no response, hence no status), the gateway
    fails although none of the four listed causes holds. *)
Lemma gateway_fails_outside_listed_causes :
  gateway_succeeds
    (conversion_gateway sample_ToString sample_TypeError (Some sample_pdf)
       None (FetchThrows (ThrownError "fetch failed"))) = false /\
  ~ listed_failure (Some sample_pdf) (FetchThrows (ThrownError "fetch failed")).
Proof.
  split; [reflexivity|].
  intros [Hnone|[(f & Heq & Htype)|[(st & txt & json & Heq & _)
                                   |(st & txt & result & Heq & _)]]].
  - discriminate.
  - injection Heq as <-. apply Htype. reflexivity.
  - discriminate.
  - discriminate.
Qed.

Lemma gateway_failure_causes_witness :
  upstream_page_list sample_upstream
    [ sample_file_info "order-1.jpg" "AAAA";
      sample_file_info "order-2.jpg" "BBBB";
      sample_file_info "order-3.jpg" "CCCC" ] /\
  gateway_succeeds
    (conversion_gateway sample_ToString sample_TypeError (Some sample_pdf)
       None sample_upstream) = true.
Proof.
  assert (Hlist : upstream_page_list sample_upstream
            [ sample_file_info "order-1.jpg" "AAAA";
              sample_file_info "order-2.jpg" "BBBB";
              sample_file_info "order-3.jpg" "CCCC" ]).
  { exists 200, "OK". eexists. split; [reflexivity|].
    repeat split; try reflexivity. discriminate. }
  split; [exact Hlist|].
  exact (proj1 (proj2 (proj2
           (gateway_failure_causes sample_ToString sample_TypeError
              (Some sample_pdf) None sample_upstream)))
           sample_pdf _ eq_refl eq_refl Hlist).
Defined.

(* ================================================================== *)
(** ** The controller against the conversion route *)
(* ================================================================== *)

Section ControllerPages.

Variable ToString : JSValue -> string.
Variable TypeErrorMessage : string.

Lemma pages_of_json_built (fs : list JSValue) :
  forall i pages,
    build_pages ToString TypeErrorMessage i fs = Ok pages ->
    exists images,
      pages_of_json TypeErrorMessage
        (map (fun x => if js_is_undefined x then JNull else json_wire x) pages)
      = Ok images /\
      map pageNumber images = map js_nat (seq (i + 1) (List.length fs)) /\
      Forall (fun img => selected img = false) images.
Proof.
  induction fs as [|f rest IH]; intros i pages H; cbn [build_pages] in H.
  - inversion H; subst. exists []. repeat split. constructor.
  - destruct (js_nullish f) eqn:Hn.
    + rewrite js_get_nullish in H by assumption. discriminate.
    + rewrite !js_get_not_nullish in H by assumption. cbn [bind] in H.
      destruct (build_pages ToString TypeErrorMessage (S i) rest)
        as [ps|t] eqn:Hrest; cbn [bind] in H; [|discriminate].
      inversion H; subst; clear H.
      destruct (IH _ _ Hrest) as (images & Himages & Hnum & Hsel).
      cbn [map js_is_undefined json_wire pages_of_json].
      unfold page_of_json. cbn -[json_wire pages_of_json nat_to_string].
      rewrite Himages. cbn [bind]. eexists. split; [reflexivity|].
      cbn [map pageNumber List.length seq]. rewrite Hnum.
      replace (S i + 1) with (S (i + 1)) by lia.
      split; [reflexivity|]. constructor; [reflexivity | assumption].
Qed.

(** X25 -- What the controller stores after a successful conversion, read
    from the route's answer as sent: one page per upstream file, numbered
    from 1 in order without duplicate, none selected. *)
Lemma controller_pages_numbered (form : FormDataOutcome) (env : EnvVar)
    (up : FetchOutcome) :
  status (response (ProcessPdf.POST ToString TypeErrorMessage form env up))
    = 200 ->
  exists images n,
    processPdf_try ToString TypeErrorMessage
      (NetJson (wire_body
                  (body (response
                           (ProcessPdf.POST ToString TypeErrorMessage
                              form env up)))))
    = Ok images /\
    obj_get (body (response
                     (ProcessPdf.POST ToString TypeErrorMessage form env up)))
      "totalPages" = js_nat n /\
    map pageNumber images = map js_nat (seq 1 n) /\
    NoDup (map pageNumber images) /\
    Forall (fun img => selected img = false) images.
Proof.
  intros H200.
  destruct (process_pdf_200_inv ToString TypeErrorMessage form env up H200)
    as (resp & Hup & Hresp).
  destruct (convert_upstream_ok_inv ToString TypeErrorMessage up resp Hup)
    as (st & statusText & result & fs & pages & -> & _ & HF & _ & Hpages & ->).
  destruct (pages_of_json_built fs 0 pages Hpages)
    as (images & Himages & Hnum & Hsel).
  exists images, (List.length fs). rewrite Hresp.
  cbn [body json_response]. unfold success_body, wire_body, processPdf_try.
  cbn -[pages_of_json json_wire js_nat].
  cbn [json_wire js_is_undefined]. unfold images_of_result.
  cbn -[pages_of_json json_wire js_nat].
  repeat split; auto.
  rewrite Hnum. apply js_nat_seq_NoDup.
Qed.

End ControllerPages.

(* ================================================================== *)
(** ** Credentials *)
(* ================================================================== *)

(** C6 at the conversion route -- With
    [CONVERTAPI_SECRET] unset and a PDF in the request, the route does not
    answer 500: it calls the upstream service under the built-in secret
    and, the upstream answering, returns 200. *)
Theorem convert_unset_secret_reaches_upstream :
  calls (ProcessPdf.POST sample_ToString sample_TypeError
           (pdf_form sample_pdf) None sample_upstream)
  = [ConvertApiCall fallback_secret (EntryFile sample_pdf)] /\
  status (response (ProcessPdf.POST sample_ToString sample_TypeError
                      (pdf_form sample_pdf) None sample_upstream)) = 200.
Proof. split; reflexivity. Qed.

(** X27 -- Whatever the environment, the request and the upstream
    answer, the conversion route never answers with its "secret is not
    configured" body: the secret it ends up with is never empty. *)
Lemma convert_never_reports_missing_secret (ToString : JSValue -> string)
    (m : string) (form : FormDataOutcome) (env : EnvVar) (up : FetchOutcome) :
  body (response (ProcessPdf.POST ToString m form env up))
  <> [("error", JStr "ConvertAPI secret is not configured")].
Proof.
  destruct form as [t|get]; [simpl; discriminate|].
  destruct (entry_truthy (get "pdf")) eqn:Htruthy.
  - destruct (get "pdf") as [entry|] eqn:Hget; [|discriminate].
    rewrite (process_pdf_with_file ToString m get entry env up Hget Htruthy).
    unfold response. cbn [snd].
    destruct (convert_upstream ToString m up) as [resp|t] eqn:Hup.
    + apply convert_upstream_ok_inv in Hup
        as (? & ? & ? & ? & ? & _ & _ & _ & _ & _ & ->).
      simpl. discriminate.
    + simpl. discriminate.
  - rewrite process_pdf_without_file by assumption. simpl. discriminate.
Qed.

(** The three routes that talk to the model do stop at a missing key. *)
Lemma extract_image_missing_key (m : string) (env : EnvVar)
    (form : FormDataOutcome) (llm : LlmOutcome JSObject) (now : string) :
  key_missing env = true ->
  ExtractInvoice.POST m env form llm now
  = ([], json_response 500 [("error", JStr "OpenAI API key is not configured")]).
Proof.
  intros H. unfold ExtractInvoice.POST, extract_image_try. now rewrite H.
Qed.

Lemma extract_text_missing_key (ToString : JSValue -> string) (m : string)
    (env : EnvVar) (req : JsonOutcome) (llm : LlmOutcome JSObject)
    (now : string) :
  key_missing env = true ->
  ExtractText.POST ToString m env req llm now
  = ([], json_response_cors 500
           [("error", JStr "OpenAI API key is not configured")]).
Proof.
  intros H. unfold ExtractText.POST, extract_text_try. now rewrite H.
Qed.

Lemma compare_missing_key (m : string) (env : EnvVar) (req : JsonOutcome)
    (llm : LlmOutcome ComparisonResult) (now : string) :
  key_missing env = true ->
  CompareOrders.POST m env req llm now
  = ([], json_response 500 [("error", JStr "OpenAI API key is not configured")]).
Proof.
  intros H. unfold CompareOrders.POST, compare_try. now rewrite H.
Qed.

(* ================================================================== *)
(** ** The comparison route and its threshold *)
(* ================================================================== *)

Section Threshold.

Local Open Scope Q_scope.

Lemma js_lt_spec (a b : Q) : js_lt a b = true <-> a < b.
Proof.
  unfold js_lt. rewrite negb_true_iff. split; intros H.
  - apply Qnot_le_lt. intros Hle. apply Qle_bool_iff in Hle. congruence.
  - destruct (Qle_bool b a) eqn:E; [|reflexivity].
    apply Qle_bool_iff in E. exfalso. now apply (Qlt_not_le a b).
Qed.

(** No double lies between 4/5 and the double the literal [0.8] denotes:
    below the literal means below 4/5. *)
Lemma no_double_below_literal (m e : Z) :
  (Z.abs m < 2 ^ 53)%Z ->
  double_value m e < literal_0_8 ->
  double_value m e < 4 # 5.
Proof.
  intros Hm. unfold double_value, literal_0_8.
  destruct (0 <=? e)%Z eqn:He.
  - unfold Qlt, inject_Z. cbn [Qnum Qden]. lia.
  - apply Z.leb_gt in He.
    assert (Hpos : (0 < 2 ^ (- e))%Z) by (apply Z.pow_pos_nonneg; lia).
    unfold Qlt. cbn [Qnum Qden]. rewrite Z2Pos.id by assumption.
    change (2 ^ 53)%Z with 9007199254740992%Z in Hm.
    destruct (Z_le_gt_dec (- e) 53) as [Hk|Hk].
    + assert (Hsplit : (2 ^ (- e) * 2 ^ (53 - - e) = 9007199254740992)%Z).
      { rewrite <- Z.pow_add_r by lia.
        replace (- e + (53 - - e))%Z with 53%Z by lia. reflexivity. }
      assert (Hr : (0 < 2 ^ (53 - - e))%Z) by (apply Z.pow_pos_nonneg; lia).
      set (P := (2 ^ (- e))%Z) in *. set (R := (2 ^ (53 - - e))%Z) in *.
      intros H.
      destruct (Z_lt_ge_dec (m * 5) (4 * P)) as [Hlt|Hge]; [lia|exfalso].
      assert (H1 : (m * R * 4503599627370496
                    < 3602879701896397 * 9007199254740992)%Z) by nia.
      assert (H2 : (4 * 9007199254740992 <= m * R * 5)%Z) by nia.
      lia.
    + assert (Hbig : (2 ^ 54 <= 2 ^ (- e))%Z)
        by (apply Z.pow_le_mono_r; lia).
      change (2 ^ 54)%Z with 18014398509481984%Z in Hbig.
      intros _. lia.
Qed.

Lemma threshold_on_doubles (c : Q) :
  is_binary64 c -> (js_lt c literal_0_8 = true <-> c < 4 # 5).
Proof.
  intros (m & e & Hm & _ & Hc). rewrite js_lt_spec. split; intros H.
  - rewrite Hc in *. now apply no_double_below_literal.
  - apply Qlt_trans with (4 # 5); [assumption | reflexivity].
Qed.

(** With the key set, both orders present and the model answering, the
    route does answer 200, after one call to the model. *)
Lemma compare_success_path (msg : string) (key : string) (reqBody : JSValue)
    (r : ComparisonResult) (now : string) :
  key_missing (Some key) = false ->
  js_truthy (js_field reqBody "order1") = true ->
  js_truthy (js_field reqBody "order2") = true ->
  CompareOrders.POST msg (Some key) (JsonValue reqBody) (LlmReturns r) now
  = ([LlmCall "gpt-4o-mini" key
        (PromptCompare (js_field reqBody "order1") (js_field reqBody "order2"))],
     json_response 200
       (comparison_body r
          (js_lt (overall_confidence (analysis r)) literal_0_8) now)).
Proof.
  intros Hkey H1 H2. unfold CompareOrders.POST, compare_try. rewrite Hkey.
  assert (Hnn : js_nullish reqBody = false).
  { destruct reqBody; try reflexivity; discriminate. }
  rewrite !js_get_not_nullish by assumption. cbn [bind].
  rewrite H1, H2. reflexivity.
Qed.

(** C1 -- Whenever the comparison route answers 200 on a model result
    whose overall confidence [c] is a double in [0,1], the body is the
    model's result next to a flag of the route's own, and that flag is
    true exactly when [c < 0.8]. *)
Theorem manual_review_threshold (msg : string) (env : EnvVar)
    (req : JsonOutcome) (llm : LlmOutcome ComparisonResult) (now : string)
    (r : ComparisonResult) :
  llm = LlmReturns r ->
  status (response (CompareOrders.POST msg env req llm now)) = 200%nat ->
  is_binary64 (overall_confidence (analysis r)) ->
  0 <= overall_confidence (analysis r) <= 1 ->
  exists flag : bool,
    body (response (CompareOrders.POST msg env req llm now))
      = comparison_body r flag now /\
    (flag = true <-> overall_confidence (analysis r) < 4 # 5).
Proof.
  intros -> H200 Hdouble _.
  exists (js_lt (overall_confidence (analysis r)) literal_0_8).
  split; [|now apply threshold_on_doubles].
  revert H200. unfold CompareOrders.POST, compare_try.
  destruct (key_missing env); [simpl; discriminate|].
  destruct req as [t|reqBody]; [simpl; discriminate|].
  destruct (js_get msg reqBody "order1") as [order1|t]; cbn [bind];
    [|simpl; discriminate].
  destruct (js_get msg reqBody "order2") as [order2|t]; cbn [bind];
    [|simpl; discriminate].
  destruct (negb (js_truthy order1) || negb (js_truthy order2));
    [simpl; discriminate|].
  reflexivity.
Qed.

Lemma manual_review_threshold_witness :
  status (response (CompareOrders.POST sample_TypeError (Some "sk-test")
                      sample_compare_request (LlmReturns sample_comparison)
                      "2024-01-01T00:00:00.000Z")) = 200%nat /\
  is_binary64 (overall_confidence (analysis sample_comparison)) /\
  0 <= overall_confidence (analysis sample_comparison) <= 1 /\
  exists flag : bool,
    body (response (CompareOrders.POST sample_TypeError (Some "sk-test")
                      sample_compare_request (LlmReturns sample_comparison)
                      "2024-01-01T00:00:00.000Z"))
      = comparison_body sample_comparison flag "2024-01-01T00:00:00.000Z" /\
    (flag = true <-> overall_confidence (analysis sample_comparison) < 4 # 5).
Proof.
  assert (Hd : is_binary64 (overall_confidence (analysis sample_comparison))).
  { exists 3%Z, (-2)%Z. repeat split; try reflexivity; discriminate. }
  assert (Hr : 0 <= overall_confidence (analysis sample_comparison) <= 1).
  { split; discriminate. }
  split; [reflexivity|]. split; [exact Hd|]. split; [exact Hr|].
  exact (manual_review_threshold sample_TypeError (Some "sk-test")
           sample_compare_request (LlmReturns sample_comparison)
           "2024-01-01T00:00:00.000Z" sample_comparison
           eq_refl eq_refl Hd Hr).
Defined.

End Threshold.

(* ================================================================== *)
(** ** Extraction runs *)
(* ================================================================== *)

Section ExtractionFacts.

Variable ToString : JSValue -> string.

Lemma pdfData_setPdfData_same (n : PdfNumber) (f : PdfData -> PdfData)
    (s : AppState) :
  pdfData n (setPdfData n f s) = f (pdfData n s).
Proof. destruct n; reflexivity. Qed.

Lemma pdfData_setPdfData_other (n : PdfNumber) (f : PdfData -> PdfData)
    (s : AppState) :
  pdfData (other_pdf n) (setPdfData n f s) = pdfData (other_pdf n) s.
Proof. destruct n; reflexivity. Qed.

Lemma entry_pageNumber (imageData : PageImage) (o : PageOutcome) :
  obj_get (snd (process_page ToString imageData o)) "pageNumber"
  = pageNumber imageData.
Proof.
  destruct o as [t|[t|result]]; cbn [process_page snd]; try reflexivity.
  apply obj_get_set_same.
Qed.

Lemma page_calls (imageData : PageImage) (o : PageOutcome) :
  filter is_call_event (fst (process_page ToString imageData o))
  = page_call_events ToString imageData o.
Proof. destruct o as [t|[t|result]]; reflexivity. Qed.

Lemma process_loop_unfold (answers : nat -> PageOutcome)
    (images : list PageImage) :
  forall k,
    process_loop ToString answers k images
    = (List.concat (map (fun ki => fst (process_page ToString (snd ki)
                                     (answers (fst ki))))
                 (combine (seq k (List.length images)) images)),
       map (fun ki => snd (process_page ToString (snd ki) (answers (fst ki))))
         (combine (seq k (List.length images)) images)).
Proof.
  induction images as [|img rest IH]; intros k; [reflexivity|].
  cbn [process_loop List.length seq combine map List.concat fst snd].
  rewrite IH.
  destruct (process_page ToString img (answers k)) as [effs entry].
  reflexivity.
Qed.

Lemma indexed_length {A : Type} (l : list A) :
  List.length (indexed l) = List.length l.
Proof.
  unfold indexed. rewrite length_combine, length_seq. apply Nat.min_id.
Qed.

Lemma map_snd_combine_seq {A : Type} (l : list A) (k : nat) :
  map snd (combine (seq k (List.length l)) l) = l.
Proof.
  revert k. induction l as [|x rest IH]; intros k; [reflexivity|].
  simpl. now rewrite IH.
Qed.

Lemma process_loop_entries (answers : nat -> PageOutcome)
    (images : list PageImage) :
  List.length (snd (process_loop ToString answers 0 images))
    = List.length images /\
  map (fun e => obj_get e "pageNumber")
      (snd (process_loop ToString answers 0 images))
    = map pageNumber images.
Proof.
  rewrite process_loop_unfold. cbn [snd]. fold (indexed images). split.
  - now rewrite length_map, indexed_length.
  - rewrite map_map.
    rewrite (map_ext _ (fun ki => pageNumber (snd ki)))
      by (intros; apply entry_pageNumber).
    rewrite <- (map_map snd pageNumber). unfold indexed.
    now rewrite map_snd_combine_seq.
Qed.

Lemma process_page_recorded (imageData : PageImage) (o : PageOutcome) :
  recorded_outcome ToString imageData o
    (snd (process_page ToString imageData o)).
Proof.
  split; [apply entry_pageNumber|].
  destruct o as [t|[t|result]]; cbn [process_page snd].
  - repeat split.
  - repeat split.
  - intros key Hkey Hname. unfold success_entry.
    rewrite obj_get_set_other by congruence.
    now apply spread_named_field.
Qed.

Lemma Forall2_map_right {A B : Type} (R : A -> B -> Prop) (f : A -> B)
    (l : list A) :
  (forall x, R x (f x)) -> Forall2 R l (map f l).
Proof. intros H. induction l; cbn [map]; constructor; auto. Qed.

(** C4 -- In one extraction run the pages are handled one after the
    other in page order: the API-call events are, page by page, the call
    being issued and then settled, before the next page's call; and every
    page contributes its own entry, computed from that page and its own
    outcome only, whatever happened to the other pages: a page whose data
    URL could not be read or whose call was rejected is recorded as a
    failure ([success: false], a message naming the page, no data), a page
    whose call was answered is recorded as that answer, and either way the
    entry is tagged with the page's number. *)
Theorem pages_processed_in_order (answers : nat -> PageOutcome)
    (images : list PageImage) :
  let run := process_loop ToString answers 0 images in
  snd run
    = map (fun ki => snd (process_page ToString (snd ki) (answers (fst ki))))
        (indexed images) /\
  List.length (snd run) = List.length images /\
  map (fun e => obj_get e "pageNumber") (snd run) = map pageNumber images /\
  filter is_call_event (fst run)
    = flat_map (fun ki => page_call_events ToString (snd ki) (answers (fst ki)))
        (indexed images) /\
  Forall2
    (fun ki entry => recorded_outcome ToString (snd ki) (answers (fst ki)) entry)
    (indexed images) (snd run).
Proof.
  cbv zeta.
  destruct (process_loop_entries answers images) as [Hlen Htags].
  split; [|split; [exact Hlen|split; [exact Htags|split]]];
    rewrite process_loop_unfold; cbn [fst snd]; fold (indexed images).
  - reflexivity.
  - induction (indexed images) as [|ki rest IH]; [reflexivity|].
    cbn [map List.concat flat_map]. rewrite filter_app, page_calls, IH.
    reflexivity.
  - apply (Forall2_map_right
             (fun ki entry =>
                recorded_outcome ToString (snd ki) (answers (fst ki)) entry)).
    intros ki. apply process_page_recorded.
Qed.




End ExtractionFacts.



(* ================================================================== *)
(** ** The guard of [compareOrders] *)
(* ================================================================== *)

Section ComparisonGuard.

Lemma first_success_data_first (pre post : list ExtractedData)
    (r : ExtractedData) :
  has_success pre = false ->
  js_truthy (obj_get r "success") = true ->
  first_success_data (pre ++ r :: post) = obj_get r "data".
Proof.
  unfold first_success_data, has_success.
  induction pre as [|x pre IH]; intros Hpre Hr; simpl.
  - now rewrite Hr.
  - simpl in Hpre. apply orb_false_iff in Hpre as [Hx Hpre].
    rewrite Hx. now apply IH.
Qed.

Lemma first_success_data_none (results : list ExtractedData) :
  has_success results = false ->
  first_success_data results = JUndefined.
Proof.
  unfold first_success_data, has_success.
  induction results as [|x rest IH]; intros H; simpl; [reflexivity|].
  simpl in H. apply orb_false_iff in H as [Hx Hrest].
  rewrite Hx. now apply IH.
Qed.

Lemma first_success_data_record (results : list ExtractedData) :
  Forall carries_record results ->
  js_truthy (first_success_data results) = has_success results.
Proof.
  unfold first_success_data, has_success.
  induction 1 as [|x rest Hx _ IH]; simpl; [reflexivity|].
  destruct (js_truthy (obj_get x "success")) eqn:E; simpl; [|exact IH].
  destruct (Hx E) as [o ->]. reflexivity.
Qed.

Lemma compareOrders_start_cases (s : AppState) :
  let d1 := first_success_data (extractedData (pdf1 s)) in
  let d2 := first_success_data (extractedData (pdf2 s)) in
  (js_truthy d1 && js_truthy d2 = true /\
   compareOrders_start s
   = (setComparisonResult JNull (setComparing true s),
      [CompareIssued d1 d2], true)) \/
  (js_truthy d1 && js_truthy d2 = false /\
   compareOrders_start s = (s, [compare_alert], false)).
Proof.
  cbv zeta. unfold compareOrders_start.
  destruct (js_truthy (first_success_data (extractedData (pdf1 s))));
    destruct (js_truthy (first_success_data (extractedData (pdf2 s))));
    cbn [negb orb andb]; auto.
Qed.

(** The guard as the handler computes it, on any state: the comparison
    call is issued exactly when, for each document, the data of its first
    successful Extraction Result is truthy; otherwise the handler only
    shows the message and leaves the state as it was; the records sent are
    those two data, each taken from the first successful result in array
    order; and when every successful result carries a record, the call is
    issued exactly when each document has a successful result. *)
Lemma compareOrders_guard (s : AppState) :
  let d1 := first_success_data (extractedData (pdf1 s)) in
  let d2 := first_success_data (extractedData (pdf2 s)) in
  (compare_started s = true <-> js_truthy d1 = true /\ js_truthy d2 = true) /\
  (compare_started s = false ->
     compare_state s = s /\ compare_effects s = [compare_alert]) /\
  (compare_started s = true -> compare_effects s = [CompareIssued d1 d2]) /\
  (forall pre r post,
      extractedData (pdf1 s) = pre ++ r :: post ->
      has_success pre = false ->
      js_truthy (obj_get r "success") = true ->
      d1 = obj_get r "data") /\
  (forall pre r post,
      extractedData (pdf2 s) = pre ++ r :: post ->
      has_success pre = false ->
      js_truthy (obj_get r "success") = true ->
      d2 = obj_get r "data") /\
  (Forall carries_record (extractedData (pdf1 s)) ->
   Forall carries_record (extractedData (pdf2 s)) ->
   (compare_started s = true <->
    has_success (extractedData (pdf1 s)) = true /\
    has_success (extractedData (pdf2 s)) = true)).
Proof.
  cbv zeta. unfold compare_started, compare_state, compare_effects.
  assert (Hfirst1 : forall pre r post,
            extractedData (pdf1 s) = pre ++ r :: post ->
            has_success pre = false ->
            js_truthy (obj_get r "success") = true ->
            first_success_data (extractedData (pdf1 s)) = obj_get r "data")
    by (intros pre r post -> Hpre Hr; now apply first_success_data_first).
  assert (Hfirst2 : forall pre r post,
            extractedData (pdf2 s) = pre ++ r :: post ->
            has_success pre = false ->
            js_truthy (obj_get r "success") = true ->
            first_success_data (extractedData (pdf2 s)) = obj_get r "data")
    by (intros pre r post -> Hpre Hr; now apply first_success_data_first).
  destruct (compareOrders_start_cases s) as [[Hd ->]|[Hd ->]];
    cbn [fst snd].
  - apply andb_true_iff in Hd as [Hd1 Hd2].
    split; [tauto|]. split; [discriminate|]. split; [reflexivity|].
    split; [exact Hfirst1|]. split; [exact Hfirst2|].
    intros Hrec1 Hrec2.
    rewrite <- (first_success_data_record _ Hrec1).
    rewrite <- (first_success_data_record _ Hrec2). tauto.
  - apply andb_false_iff in Hd.
    split; [split; [discriminate | intros [H1 H2]; destruct Hd; congruence]|].
    split; [auto|]. split; [discriminate|].
    split; [exact Hfirst1|]. split; [exact Hfirst2|].
    intros Hrec1 Hrec2.
    rewrite <- (first_success_data_record _ Hrec1).
    rewrite <- (first_success_data_record _ Hrec2).
    split; [discriminate | intros [H1 H2]; destruct Hd; congruence].
Qed.

End ComparisonGuard.

(* ================================================================== *)
(** ** The comparison slice of the state along any run *)
(* ================================================================== *)

Section MachineFacts.

Variable ToString : JSValue -> string.
Variable TypeErrorMessage : string.

Let step' := step ToString TypeErrorMessage.
Let run' := run ToString TypeErrorMessage.

Lemma view_setPdfData (n : PdfNumber) (f : PdfData -> PdfData) (s : AppState) :
  comparison_view (setPdfData n f s) = comparison_view s.
Proof. destruct n; reflexivity. Qed.

Lemma view_processPdf_start (selectedFile : option File) (n : PdfNumber)
    (s : AppState) :
  comparison_view (fst (fst (processPdf_start selectedFile n s)))
  = comparison_view s.
Proof.
  unfold processPdf_start. destruct selectedFile as [f|]; [|reflexivity].
  destruct (processPdf_rejects (Some f)); [reflexivity|].
  apply view_setPdfData.
Qed.

Lemma view_processPdf_finish (n : PdfNumber) (o : NetOutcome) (s : AppState) :
  comparison_view (fst (processPdf_finish ToString TypeErrorMessage n o s))
  = comparison_view s.
Proof.
  unfold processPdf_finish.
  destruct (processPdf_try ToString TypeErrorMessage o);
    apply view_setPdfData.
Qed.

Lemma view_togglePageSelection (k : nat) (n : PdfNumber) (s : AppState) :
  comparison_view (togglePageSelection k n s) = comparison_view s.
Proof.
  unfold togglePageSelection.
  destruct (nth_error (pageImages (pdfData n s)) k); [|reflexivity].
  apply view_setPdfData.
Qed.

Lemma step_view (e : Event) (c : Config) :
  view_change c e (comparison_view (app (step' e c))).
Proof.
  unfold step'. destruct e as [f n|k n|n|n|n| | |i o]; cbn [step].
  - destruct f as [f|]; [|constructor].
    pose proof (view_processPdf_start (Some f) n (app c)) as H.
    destruct (processPdf_start (Some f) n (app c)) as [[s' effs] started].
    cbn [app fst] in *. rewrite H. constructor.
  - cbn [app]. rewrite view_togglePageSelection. constructor.
  - cbn [app]. unfold selectAllPages. rewrite view_setPdfData. constructor.
  - cbn [app]. unfold deselectAllPages. rewrite view_setPdfData. constructor.
  - destruct (selectedImages (pdfData n (app c))); cbn [app].
    + constructor.
    + unfold mark_processing. rewrite view_setPdfData. constructor.
  - destruct (compareOrders_start_cases (app c)) as [[Hd H]|[Hd H]].
    + assert (Hs : compare_started (app c) = true)
        by (unfold compare_started; now rewrite H).
      rewrite H. cbn [app]. now apply view_cleared.
    + rewrite H. cbn [app]. apply view_kept.
  - cbn [app]. apply view_kept.
  - destruct (nth_error (tasks c) i) as [t|] eqn:Hnth; [|apply view_kept].
    destruct t as [n|n todo results|]; cbn [resume].
    + destruct o as [t|no]; [constructor|].
      pose proof (view_processPdf_finish n no (app c)) as H.
      destruct (processPdf_finish ToString TypeErrorMessage n no (app c))
        as [s' effs].
      cbn [app fst] in *. rewrite H. constructor.
    + destruct todo as [|imageData rest]; [destruct o; constructor|].
      unfold page_settled.
      destruct (process_page ToString imageData o) as [effs entry].
      destruct rest; cbn [app]; [|constructor].
      unfold commit_results. rewrite view_setPdfData. constructor.
    + destruct o as [t|no]; [constructor|].
      destruct no as [t|result]; cbn [compareOrders_finish app];
        now apply (view_stored c _ i _ _ eq_refl).
Qed.

Lemma view_change_flag (c : Config) (e : Event) (b : bool) (r : JSValue) :
  view_change c e (b, r) ->
  b = true ->
  r = JNull \/ (comparing (app c) = true /\ r = comparisonResult (app c)).
Proof.
  intros H Hb. inversion H; subst; auto; discriminate.
Qed.

Lemma step_keeps_invariant (e : Event) (c : Config) :
  (comparing (app c) = true -> comparisonResult (app c) = JNull) ->
  comparing (app (step' e c)) = true ->
  comparisonResult (app (step' e c)) = JNull.
Proof.
  intros Hinv Hcomparing.
  destruct (view_change_flag c e _ _ (step_view e c) Hcomparing)
    as [H|[Hc H]]; [assumption|].
  rewrite H. now apply Hinv.
Qed.

Lemma run_keeps_invariant (events : list Event) :
  forall c,
    (comparing (app c) = true -> comparisonResult (app c) = JNull) ->
    comparing (app (run' events c)) = true ->
    comparisonResult (app (run' events c)) = JNull.
Proof.
  unfold run'. induction events as [|e rest IH]; intros c Hinv; cbn [run].
  - exact Hinv.
  - apply IH. apply step_keeps_invariant. exact Hinv.
Qed.

(** C10 -- In every state the controller can reach, a raised [comparing]
    flag comes with a null Comparison Result; and from there each event
    either leaves the comparison slice alone, or is a comparison being
    started, which raises the flag and clears the result as the call is
    issued, or is a pending comparison call settling, which stores its
    result and drops the flag. *)
Theorem no_stale_comparison (events : list Event) :
  comparing (app (run' events initial_config)) = true ->
  comparisonResult (app (run' events initial_config)) = JNull /\
  (forall e,
      view_change (run' events initial_config) e
        (comparison_view (app (step' e (run' events initial_config))))) /\
  (forall s,
      compare_started s = true ->
      comparison_view (compare_state s) = (true, JNull) /\
      exists order1 order2, compare_effects s = [CompareIssued order1 order2]) /\
  (forall o s, comparing (fst (compareOrders_finish o s)) = false).
Proof.
  intros Hcomparing. repeat split.
  - apply run_keeps_invariant; [discriminate | assumption].
  - intros e. apply step_view.
  - unfold compare_started, compare_state in *.
    destruct (compareOrders_start_cases s) as [[_ Hs]|[_ Hs]];
      rewrite Hs in *; [reflexivity | discriminate].
  - unfold compare_started, compare_effects in *.
    destruct (compareOrders_start_cases s) as [[_ Hs]|[_ Hs]];
      rewrite Hs in *; cbn [fst snd] in *; [eauto | discriminate].
  - destruct o; reflexivity.
Qed.

End MachineFacts.

Lemma no_stale_comparison_witness :
  comparing (app (run sample_ToString sample_TypeError sample_session
                    initial_config)) = true /\
  comparisonResult (app (run sample_ToString sample_TypeError sample_session
                           initial_config)) = JNull.
Proof.
  split; [reflexivity|].
  exact (proj1 (no_stale_comparison sample_ToString sample_TypeError
                  sample_session eq_refl)).
Defined.

(* ================================================================== *)
(** ** The shapes of the conversion and extraction responses *)
(* ================================================================== *)

Section ShapeFacts.

Variable ToString : JSValue -> string.
Variable TypeErrorMessage : string.

Lemma convert_shape (form : FormDataOutcome) (env : EnvVar)
    (up : FetchOutcome) :
  one_of_three_shapes "pages"
    (response (ProcessPdf.POST ToString TypeErrorMessage form env up)).
Proof.
  unfold one_of_three_shapes.
  destruct form as [t|get].
  - right; left. split; [reflexivity|]. cbn. eauto.
  - destruct (entry_truthy (get "pdf")) eqn:Htruthy.
    + destruct (get "pdf") as [entry|] eqn:Hget; [|discriminate].
      rewrite (process_pdf_with_file ToString TypeErrorMessage
                 get entry env up Hget Htruthy).
      unfold response. cbn [snd].
      destruct (convert_upstream ToString TypeErrorMessage up)
        as [resp|t] eqn:Hup.
      * apply convert_upstream_ok_inv in Hup
          as (? & ? & ? & ? & ? & _ & _ & _ & _ & _ & ->).
        left. repeat split.
      * right; left. split; [reflexivity|]. cbn. eauto.
    + rewrite process_pdf_without_file by assumption.
      right; right. split; [now left|]. cbn. eauto.
Qed.

Lemma extract_image_shape (env : EnvVar) (form : FormDataOutcome)
    (llm : LlmOutcome JSObject) (now : string) :
  one_of_three_shapes "data"
    (response (ExtractInvoice.POST TypeErrorMessage env form llm now)).
Proof.
  unfold one_of_three_shapes, ExtractInvoice.POST, extract_image_try.
  destruct (key_missing env).
  { right; right. split; [now right|]. cbn. eauto. }
  destruct form as [t|get].
  { right; left. split; [reflexivity|]. cbn. eauto. }
  destruct (get "image") as [entry|] eqn:Hget.
  - destruct (entry_truthy (Some entry)); cbn [negb].
    + destruct (entry_arrayBuffer TypeErrorMessage entry).
      * destruct llm as [t|r].
        -- right; left. split; [reflexivity|]. cbn. eauto.
        -- left. repeat split.
      * right; left. split; [reflexivity|]. cbn. eauto.
    + right; right. split; [now left|]. cbn. eauto.
  - right; right. split; [now left|]. cbn. eauto.
Qed.

Lemma extract_text_shape (env : EnvVar) (req : JsonOutcome)
    (llm : LlmOutcome JSObject) (now : string) :
  one_of_three_shapes "data"
    (response (ExtractText.POST ToString TypeErrorMessage env req llm now)).
Proof.
  unfold one_of_three_shapes, ExtractText.POST, extract_text_try.
  destruct (key_missing env).
  { right; right. split; [now right|]. cbn. eauto. }
  destruct req as [t|reqBody].
  { right; left. split; [reflexivity|]. cbn. eauto. }
  destruct (js_get TypeErrorMessage reqBody "text") as [text|t].
  - destruct (negb (js_truthy text) || negb (js_isString text)).
    + right; right. split; [now left|]. cbn. eauto.
    + destruct llm as [t|r].
      * right; left. split; [reflexivity|]. cbn. eauto.
      * left. repeat split.
  - right; left. split; [reflexivity|]. cbn. eauto.
Qed.

(** What the controller makes of a body that holds only an error. *)
Lemma error_only_body_reads_as_failure (r : Response) :
  precondition_shape r ->
  obj_has (body r) "success" = false /\
  js_truthy (obj_get (body r) "success") = false /\
  (forall imageData,
      js_truthy
        (obj_get (snd (process_page ToString imageData
                         (PageNet (NetJson (wire_body (body r))))))
           "success") = false) /\
  (exists t,
      processPdf_try ToString TypeErrorMessage (NetJson (wire_body (body r)))
      = Throw t).
Proof.
  intros (_ & m & Hbody). rewrite Hbody. repeat split; try reflexivity.
  cbn. eauto.
Qed.

Lemma shapes_exclusive (payload : string) (r : Response) :
  ~ (ok_shape payload r /\ exception_shape r) /\
  ~ (ok_shape payload r /\ precondition_shape r) /\
  ~ (exception_shape r /\ precondition_shape r).
Proof.
  repeat split.
  - intros [(_ & Hs & _) (_ & m & Hb)]. rewrite Hb in Hs. discriminate.
  - intros [(_ & Hs & _) (_ & m & Hb)]. rewrite Hb in Hs. discriminate.
  - intros [(_ & m & Hb) (_ & m' & Hb')]. rewrite Hb in Hb'. discriminate.
Qed.

(** C9 -- Every response of the conversion route and of the two
    extraction routes has one of three shapes, no two at once: status 200
    with [success: true] and the payload; status 500 with
    [success: false] and an error message; or status 400 or 500 with a
    body holding only [error].  The last is what a missing file, a missing
    text or a missing key produces; its [success] reads [undefined], so
    the controller records the page as not successful and treats the
    conversion as failed. *)
Theorem response_shapes
    (form1 : FormDataOutcome) (env1 : EnvVar) (up : FetchOutcome)
    (env2 : EnvVar) (form2 : FormDataOutcome) (llm2 : LlmOutcome JSObject)
    (env3 : EnvVar) (req3 : JsonOutcome) (llm3 : LlmOutcome JSObject)
    (now : string) :
  let r1 := response (ProcessPdf.POST ToString TypeErrorMessage form1 env1 up) in
  let r2 := response (ExtractInvoice.POST TypeErrorMessage env2 form2 llm2 now) in
  let r3 :=
    response (ExtractText.POST ToString TypeErrorMessage env3 req3 llm3 now) in
  one_of_three_shapes "pages" r1 /\
  one_of_three_shapes "data" r2 /\
  one_of_three_shapes "data" r3 /\
  (forall payload r,
      ~ (ok_shape payload r /\ exception_shape r) /\
      ~ (ok_shape payload r /\ precondition_shape r) /\
      ~ (exception_shape r /\ precondition_shape r)) /\
  (forall get,
      form1 = FormDataOk get -> entry_truthy (get "pdf") = false ->
      precondition_shape r1 /\ status r1 = 400) /\
  (key_missing env2 = true -> precondition_shape r2 /\ status r2 = 500) /\
  (forall get,
      key_missing env2 = false ->
      form2 = FormDataOk get -> entry_truthy (get "image") = false ->
      precondition_shape r2 /\ status r2 = 400) /\
  (key_missing env3 = true -> precondition_shape r3 /\ status r3 = 500) /\
  (forall reqBody,
      key_missing env3 = false ->
      req3 = JsonValue reqBody ->
      js_nullish reqBody = false ->
      js_truthy (js_field reqBody "text") = false ->
      precondition_shape r3 /\ status r3 = 400) /\
  (forall r,
      precondition_shape r ->
      obj_has (body r) "success" = false /\
      js_truthy (obj_get (body r) "success") = false /\
      (forall imageData,
          js_truthy
            (obj_get (snd (process_page ToString imageData
                             (PageNet (NetJson (wire_body (body r))))))
               "success") = false) /\
      (exists t,
          processPdf_try ToString TypeErrorMessage (NetJson (wire_body (body r)))
          = Throw t)).
Proof.
  cbv zeta.
  split; [apply convert_shape|].
  split; [apply extract_image_shape|].
  split; [apply extract_text_shape|].
  split; [intros; apply shapes_exclusive|].
  split.
  { intros get -> H. rewrite process_pdf_without_file by assumption.
    split; [|reflexivity]. split; [now left|]. cbn. eauto. }
  split.
  { intros H. rewrite extract_image_missing_key by assumption.
    split; [|reflexivity]. split; [now right|]. cbn. eauto. }
  split.
  { intros get Hkey -> H.
    unfold ExtractInvoice.POST, extract_image_try. rewrite Hkey.
    destruct (get "image") as [entry|]; [rewrite H|];
      (split; [|reflexivity]; split; [now left|]; cbn; eauto). }
  split.
  { intros H. rewrite extract_text_missing_key by assumption.
    split; [|reflexivity]. split; [now right|]. cbn. eauto. }
  split.
  { intros reqBody Hkey -> Hnn H.
    unfold ExtractText.POST, extract_text_try. rewrite Hkey.
    rewrite js_get_not_nullish by assumption. rewrite H. cbn [negb orb].
    split; [|reflexivity]. split; [now left|]. cbn. eauto. }
  apply error_only_body_reads_as_failure.
Qed.

End ShapeFacts.

Lemma response_shapes_witness :
  key_missing None = true /\
  precondition_shape
    (response (ExtractInvoice.POST sample_TypeError None
                 (FormDataThrows ThrownOther) (LlmThrows ThrownOther)
                 "2024-01-01T00:00:00.000Z")) /\
  status
    (response (ExtractInvoice.POST sample_TypeError None
                 (FormDataThrows ThrownOther) (LlmThrows ThrownOther)
                 "2024-01-01T00:00:00.000Z")) = 500.
Proof.
  split; [reflexivity|].
  exact (proj1 (proj2 (proj2 (proj2 (proj2 (proj2
           (response_shapes sample_ToString sample_TypeError
              (FormDataThrows ThrownOther) None
              (FetchThrows ThrownOther)
              None (FormDataThrows ThrownOther) (LlmThrows ThrownOther)
              None (JsonThrows ThrownOther) (LlmThrows ThrownOther)
              "2024-01-01T00:00:00.000Z"))))))
           eq_refl).
Defined.

(* ================================================================== *)
(** ** The controller against the extraction route *)
(* ================================================================== *)


(** A failed page never counts as a success. *)
Lemma failure_entry_not_success (ToString : JSValue -> string)
    (imageData : PageImage) :
  js_truthy (obj_get (failure_entry ToString imageData) "success") = false.
Proof. reflexivity. Qed.

(* ================================================================== *)
(** ** The machine runs the loop of [processSelectedImages] *)
(* ================================================================== *)

Section MachineExtraction.

Variable ToString : JSValue -> string.
Variable TypeErrorMessage : string.

Lemma nth_error_last {A : Type} (ts : list A) (t : A) :
  nth_error (ts ++ [t]) (List.length ts) = Some t.
Proof. induction ts as [|x ts IH]; [reflexivity | exact IH]. Qed.

Lemma remove_nth_last {A : Type} (ts : list A) (t : A) :
  remove_nth (List.length ts) (ts ++ [t]) = ts.
Proof. induction ts as [|x ts IH]; [reflexivity | simpl; now rewrite IH]. Qed.

Lemma replace_nth_last {A : Type} (ts : list A) (t y : A) :
  replace_nth (List.length ts) y (ts ++ [t]) = ts ++ [y].
Proof. induction ts as [|x ts IH]; [reflexivity | simpl; now rewrite IH]. Qed.

(** The first effect of an iteration is the fetch of the page's data
    URL; what follows is what the iteration does once it has settled. *)
Lemma process_page_fetch_first (imageData : PageImage) (o : PageOutcome) :
  process_page ToString imageData o
  = (enter_iteration [imageData] ++ fst (page_settled ToString imageData o),
     snd (page_settled ToString imageData o)).
Proof. destruct o as [t|[t|result]]; reflexivity. Qed.

(** A loop suspended in the iteration it has entered, resumed once per
    remaining page with that page's outcome, ends by committing the entries
    of [process_loop], having done what [process_loop] does. *)
Lemma settle_remaining_pages (n : PdfNumber) (answers : nat -> PageOutcome)
    (ts : list Task) (s : AppState) (rest : list PageImage) :
  forall imageData results k tr,
    run ToString TypeErrorMessage
      (map (fun j => Settle (List.length ts) (answers j))
         (seq k (S (List.length rest))))
      (mkConfig s (ts ++ [ExtractTask n (imageData :: rest) results])
         (tr ++ enter_iteration (imageData :: rest)))
    = mkConfig
        (commit_results n
           (results ++ snd (process_loop ToString answers k (imageData :: rest)))
           s)
        ts
        (tr ++ fst (process_loop ToString answers k (imageData :: rest))).
Proof.
  induction rest as [|next rest IH]; intros imageData results k tr.
  - cbn [List.length seq map run step tasks].
    rewrite nth_error_last. cbn [resume process_loop].
    rewrite process_page_fetch_first.
    destruct (page_settled ToString imageData (answers k)) as [effs entry].
    cbn [tasks app trace fst snd enter_iteration].
    rewrite remove_nth_last, app_nil_r, <- app_assoc. reflexivity.
  - change (seq k (S (List.length (next :: rest))))
      with (k :: seq (S k) (S (List.length rest))).
    cbn [map run step tasks]. rewrite nth_error_last. cbn [resume].
    rewrite (process_loop_unfold ToString answers (imageData :: next :: rest) k).
    pose proof (process_page_fetch_first imageData (answers k)) as Hpage.
    destruct (page_settled ToString imageData (answers k)) as [effs entry].
    cbn [tasks app trace fst snd] in *. rewrite replace_nth_last.
    replace ((tr ++ enter_iteration (imageData :: next :: rest))
               ++ effs ++ enter_iteration (next :: rest))
      with ((tr ++ enter_iteration [imageData] ++ effs)
              ++ enter_iteration (next :: rest))
      by (cbn [enter_iteration]; now rewrite <- !app_assoc).
    rewrite IH.
    rewrite (process_loop_unfold ToString answers (next :: rest) (S k)).
    cbn [List.length seq combine map List.concat fst snd].
    rewrite Hpage. cbn [fst snd].
    rewrite <- !app_assoc. reflexivity.
Qed.

(** The click on Extract followed by the settling of each page's calls,
    with nothing in between, is the run of [processSelectedImages]. *)
Lemma machine_runs_extraction (n : PdfNumber) (answers : nat -> PageOutcome)
    (c : Config) :
  selectedImages (pdfData n (app c)) <> [] ->
  run ToString TypeErrorMessage
    (ClickExtract n
       :: map (fun j => Settle (List.length (tasks c)) (answers j))
            (seq 0 (List.length (selectedImages (pdfData n (app c))))))
    c
  = mkConfig (fst (processSelectedImages ToString n answers (app c)))
      (tasks c)
      (trace c ++ snd (processSelectedImages ToString n answers (app c))).
Proof.
  intros Hne. unfold processSelectedImages. cbn [run step].
  destruct (selectedImages (pdfData n (app c))) as [|imageData rest];
    [contradiction|].
  cbn [List.length]. rewrite (settle_remaining_pages n answers (tasks c)).
  destruct (process_loop ToString answers 0 (imageData :: rest)).
  reflexivity.
Qed.

End MachineExtraction.

(* ================================================================== *)
(** ** A worked session *)
(* ================================================================== *)

(** Three pages, pages 1 and 3 selected; page 1 is extracted, the call
    for page 3 is rejected: two results tagged 1 and 3, one success and one
    failure, and the document counts as having a success. *)
Example partial_failure_scenario :
  let s' := fst (processSelectedImages sample_ToString One sample_answers
                   sample_state) in
  map (fun e => obj_get e "pageNumber") (extractedData (pdf1 s'))
    = [js_nat 1; js_nat 3] /\
  map (fun e => js_truthy (obj_get e "success")) (extractedData (pdf1 s'))
    = [true; false] /\
  has_success (extractedData (pdf1 s')) = true /\
  filter is_call_event
    (snd (processSelectedImages sample_ToString One sample_answers sample_state))
  = [ ExtractIssued (js_nat 1) "page-?.jpg"; ExtractSettled (js_nat 1);
      ExtractIssued (js_nat 3) "page-?.jpg"; ExtractSettled (js_nat 3) ].
Proof. repeat split. Qed.

(** The sample session ends with a comparison in flight; when its call
    settles, the result is stored and the flag dropped. *)
Example comparison_settles :
  let c := run sample_ToString sample_TypeError
             (sample_session ++ [Settle 0 (PageNet (NetJson JNull))])
             initial_config in
  tasks c = [] /\ comparing (app c) = false.
Proof. split; reflexivity. Qed.

(* ================================================================== *)
(** ** Outbound calls and error answers of the routes *)
(* ================================================================== *)

Section RouteCalls.

Variable ToString : JSValue -> string.
Variable TypeErrorMessage : string.

Lemma js_truthy_not_nullish (v : JSValue) :
  js_truthy v = true -> js_nullish v = false.
Proof. destruct v; simpl; intros H; try reflexivity; discriminate. Qed.

Lemma nonempty_string_truthy (s : string) :
  s <> "" <-> js_truthy (JStr s) = true.
Proof.
  simpl. rewrite negb_true_iff. split.
  - intros H. now apply String.eqb_neq.
  - intros H. now apply String.eqb_neq.
Qed.

(** X1 -- The conversion route calls the upstream service exactly once
    when the form carries something under [pdf], whatever the environment
    and whatever the upstream then answers, and not at all otherwise; the
    call bears the configured secret when one is set and non-empty, and a
    non-empty secret in every case. *)
Theorem process_pdf_upstream_call (form : FormDataOutcome) (env : EnvVar)
    (up : FetchOutcome) :
  let made := calls (ProcessPdf.POST ToString TypeErrorMessage form env up) in
  (forall get entry,
      form = FormDataOk get -> get "pdf" = Some entry ->
      entry_truthy (Some entry) = true ->
      made = [ConvertApiCall (CONVERTAPI_SECRET env) entry]) /\
  (forall get,
      form = FormDataOk get -> entry_truthy (get "pdf") = false -> made = []) /\
  (forall t, form = FormDataThrows t -> made = []) /\
  (forall s, env = Some s -> s <> "" -> CONVERTAPI_SECRET env = s) /\
  CONVERTAPI_SECRET env <> "".
Proof.
  cbv zeta. repeat split.
  - intros get entry -> Hget Htruthy.
    now rewrite (process_pdf_with_file ToString TypeErrorMessage
                   get entry env up Hget Htruthy).
  - intros get -> H. now rewrite process_pdf_without_file.
  - intros t ->. reflexivity.
  - intros s -> Hs. unfold CONVERTAPI_SECRET.
    apply nonempty_string_truthy in Hs. now rewrite Hs.
  - apply nonempty_string_truthy. apply secret_truthy.
Qed.

(** X2 -- A non-success status of the upstream service is answered 500,
    with [success: false] and a message that names the status and its
    text. *)
Theorem process_pdf_upstream_status (get : string -> option FormEntry)
    (entry : FormEntry) (env : EnvVar) (st : nat) (statusText : string)
    (json : JsonOutcome) :
  get "pdf" = Some entry ->
  entry_truthy (Some entry) = true ->
  resp_ok st = false ->
  response (ProcessPdf.POST ToString TypeErrorMessage (FormDataOk get) env
              (FetchResponse st statusText json))
  = json_response 500
      [ ("success", JBool false);
        ("error", JStr ("ConvertAPI error: " ++ nat_to_string st
                          ++ " " ++ statusText)%string) ].
Proof.
  intros Hget Htruthy Hok.
  rewrite (process_pdf_with_file ToString TypeErrorMessage get entry env _
             Hget Htruthy).
  unfold response, convert_upstream. cbn [snd]. rewrite Hok. reflexivity.
Qed.

Lemma build_pages_throws (fs : list JSValue) :
  forall i t,
    build_pages ToString TypeErrorMessage i fs = Throw t ->
    t = ThrownError TypeErrorMessage.
Proof.
  induction fs as [|f rest IH]; intros i t H; cbn [build_pages] in H;
    [discriminate|].
  destruct (js_nullish f) eqn:Hn.
  - rewrite js_get_nullish in H by assumption. cbn [bind] in H. congruence.
  - rewrite !js_get_not_nullish in H by assumption. cbn [bind] in H.
    destruct (build_pages ToString TypeErrorMessage (S i) rest) as [ps|t']
      eqn:Hrest; cbn [bind] in H; [discriminate|].
    injection H as <-. now apply (IH (S i)).
Qed.

(** X3 -- With a PDF supplied and a success status upstream, a reply
    whose [Files] is not a usable list is answered 500.  The message is
    the engine's [TypeError] text, raised by the diagnostic read of
    [Files[0]], when [Files] is absent, [null], a number, a boolean, an
    empty string or an empty array, or holds [undefined] or [null] at
    index 0; it is the route's own message exactly when [Files] is not an
    array and yet holds something at index 0: a non-empty string, or an
    object with such a property ["0"].  Every value of [Files] that is
    not an array falls under one of the two, and only an array with a
    first element is answered 200. *)
Theorem process_pdf_unusable_files (get : string -> option FormEntry)
    (entry : FormEntry) (env : EnvVar) (st : nat) (statusText : string)
    (result : JSValue) :
  get "pdf" = Some entry ->
  entry_truthy (Some entry) = true ->
  resp_ok st = true ->
  let resp := response (ProcessPdf.POST ToString TypeErrorMessage
                          (FormDataOk get) env
                          (FetchResponse st statusText (JsonValue result))) in
  let files := js_field result "Files" in
  let type_error :=
    json_response 500
      [("success", JBool false); ("error", JStr TypeErrorMessage)] in
  let invalid :=
    json_response 500
      [ ("success", JBool false);
        ("error", JStr "Invalid response from ConvertAPI") ] in
  (first_file_unreadable files = true -> resp = type_error) /\
  (indexable_non_array files = true -> resp = invalid) /\
  (js_isArray files = false ->
   first_file_unreadable files = true \/ indexable_non_array files = true) /\
  (TypeErrorMessage <> "Invalid response from ConvertAPI" ->
   (resp = invalid <-> indexable_non_array files = true)) /\
  (status resp = 200 ->
   exists f0 fs, files = JArr (f0 :: fs) /\ js_nullish f0 = false).
Proof.
  intros Hget Htruthy Hok. cbv zeta.
  rewrite (process_pdf_with_file ToString TypeErrorMessage get entry env _
             Hget Htruthy).
  unfold response, convert_upstream. cbn [snd]. rewrite Hok. cbn [negb].
  assert (Hmsg : TypeErrorMessage <> "Invalid response from ConvertAPI" ->
                 json_response 500
                   [("success", JBool false); ("error", JStr TypeErrorMessage)]
                 <> json_response 500
                      [ ("success", JBool false);
                        ("error", JStr "Invalid response from ConvertAPI") ])
    by (intros Hne H; injection H as H; contradiction).
  destruct (js_nullish result) eqn:Hres.
  { rewrite js_get_nullish by assumption. cbn [bind message_or].
    assert (HF : js_field result "Files" = JUndefined)
      by (destruct result; try discriminate; reflexivity).
    rewrite HF. cbn [first_file_unreadable indexable_non_array js_isArray].
    split; [reflexivity|]. split; [discriminate|]. split; [auto|].
    split; [|discriminate].
    intros Hne. split; [intros H; now elim (Hmsg Hne) | discriminate]. }
  rewrite !js_get_not_nullish by assumption. cbn [bind].
  destruct (js_field result "Files") as [| |b|q|str|fs|o] eqn:HF;
    cbn [js_first bind js_object_keys js_nullish js_truthy js_isArray negb orb
         first_file_unreadable indexable_non_array message_or].
  1-4: (split; [reflexivity|]; split; [discriminate|]; split; [auto|];
        split; [|discriminate];
        intros Hne; split; [intros H; now elim (Hmsg Hne) | discriminate]).
  - destruct str as [|ch str];
      cbn [js_first bind js_object_keys js_nullish js_truthy String.eqb negb
           orb message_or].
    + split; [reflexivity|]. split; [discriminate|]. split; [auto|].
      split; [|discriminate].
      intros Hne. split; [intros H; now elim (Hmsg Hne) | discriminate].
    + split; [discriminate|]. split; [reflexivity|]. split; [auto|].
      split; [|discriminate]. intros _. split; reflexivity.
  - destruct fs as [|f0 fs]; cbn [nth].
    + cbn [js_object_keys js_nullish bind message_or].
      split; [reflexivity|]. split; [discriminate|]. split; [discriminate|].
      split; [|discriminate].
      intros Hne. split; [intros H; now elim (Hmsg Hne) | discriminate].
    + unfold js_object_keys. destruct (js_nullish f0) eqn:Hf0; cbn [bind].
      * cbn [message_or].
        split; [reflexivity|]. split; [discriminate|]. split; [discriminate|].
        split; [|discriminate].
        intros Hne. split; [intros H; now elim (Hmsg Hne) | discriminate].
      * split; [discriminate|]. split; [discriminate|]. split; [discriminate|].
        destruct (build_pages ToString TypeErrorMessage 0 (f0 :: fs))
          as [pages|t] eqn:Hpages; cbn [bind].
        -- split; [|eauto].
           intros _. split; [intros H; discriminate | discriminate].
        -- apply build_pages_throws in Hpages as ->. cbn [message_or].
           split; [|discriminate].
           intros Hne. split; [intros H; now elim (Hmsg Hne) | discriminate].
  - unfold js_object_keys. destruct (js_nullish (obj_get o "0")) eqn:H0;
      cbn [bind negb message_or].
    + split; [reflexivity|]. split; [discriminate|]. split; [auto|].
      split; [|discriminate].
      intros Hne. split; [intros H; now elim (Hmsg Hne) | discriminate].
    + split; [discriminate|]. split; [reflexivity|]. split; [auto|].
      split; [|discriminate]. intros _. split; reflexivity.
Qed.

(** The paths through the comparison route. *)
Lemma compare_route_cases (env : EnvVar) (req : JsonOutcome)
    (llm : LlmOutcome ComparisonResult) (now : string) :
  let run := CompareOrders.POST TypeErrorMessage env req llm now in
  (key_missing env = true /\
   run = ([], json_response 500
                [("error", JStr "OpenAI API key is not configured")])) \/
  (key_missing env = false /\
   ((exists t, req = JsonThrows t /\ calls run = [] /\
               exception_shape (response run)) \/
    (exists b, req = JsonValue b /\ js_nullish b = true /\ calls run = [] /\
               exception_shape (response run)) \/
    (exists b, req = JsonValue b /\ js_nullish b = false /\
               (js_truthy (js_field b "order1") = false \/
                js_truthy (js_field b "order2") = false) /\
               run = ([], json_response 400
                            [("error",
                              JStr "Both order1 and order2 data are required")])) \/
    (exists b, req = JsonValue b /\
               js_truthy (js_field b "order1") = true /\
               js_truthy (js_field b "order2") = true /\
               calls run
               = [LlmCall "gpt-4o-mini" (env_string env)
                    (PromptCompare (js_field b "order1") (js_field b "order2"))] /\
               ((exists t, llm = LlmThrows t /\
                   response run
                   = json_response 500
                       [ ("success", JBool false);
                         ("error",
                           JStr (message_or t
                                   "An unknown error occurred during comparison")) ]) \/
                (exists r, llm = LlmReturns r /\
                   response run
                   = json_response 200
                       (comparison_body r
                          (js_lt (overall_confidence (analysis r)) literal_0_8)
                          now)))))).
Proof.
  cbv zeta. unfold CompareOrders.POST, compare_try.
  destruct (key_missing env); [left; split; reflexivity|right; split; [reflexivity|]].
  destruct req as [t|b].
  { left. exists t. repeat split. cbn. eauto. }
  right. destruct (js_nullish b) eqn:Hb.
  { left. exists b. rewrite js_get_nullish by assumption. cbn [bind].
    repeat split; auto. cbn. eauto. }
  right. rewrite !js_get_not_nullish by assumption. cbn [bind].
  destruct (js_truthy (js_field b "order1")) eqn:H1;
    destruct (js_truthy (js_field b "order2")) eqn:H2; cbn [negb orb];
    try (left; exists b; repeat split; auto; fail).
  right. exists b. split; [reflexivity|]. split; [assumption|].
  split; [assumption|].
  destruct llm as [t|r]; (split; [reflexivity|]);
    [left; exists t | right; exists r]; split; reflexivity.
Qed.

(** X4 -- The comparison route answers in one of the three shapes of
    the other routes; it calls the model at most once, and does so exactly
    when the key is set and the request body holds truthy [order1] and
    [order2]; it answers 400 exactly when the key is set and the body is
    read but one of the two orders is falsy. *)
Theorem compare_route_responses (env : EnvVar) (req : JsonOutcome)
    (llm : LlmOutcome ComparisonResult) (now : string) :
  let run := CompareOrders.POST TypeErrorMessage env req llm now in
  one_of_three_shapes "comparison" (response run) /\
  (calls run <> [] <->
   key_missing env = false /\
   exists b, req = JsonValue b /\
             js_truthy (js_field b "order1") = true /\
             js_truthy (js_field b "order2") = true) /\
  (calls run <> [] ->
   exists b, calls run
             = [LlmCall "gpt-4o-mini" (env_string env)
                  (PromptCompare (js_field b "order1") (js_field b "order2"))]) /\
  (status (response run) = 400 <->
   key_missing env = false /\
   exists b, req = JsonValue b /\ js_nullish b = false /\
             (js_truthy (js_field b "order1") = false \/
              js_truthy (js_field b "order2") = false)).
Proof.
  cbv zeta.
  destruct (compare_route_cases env req llm now)
    as [[Hkey Hrun]
       |[Hkey [(t & -> & Hcalls & Hshape)
              |[(b & -> & Hb & Hcalls & Hshape)
               |[(b & -> & Hb & Hfalsy & Hrun)
                |(b & -> & H1 & H2 & Hcalls & Hllm)]]]]].
  - rewrite Hrun. split; [|split; [|split]].
    + right; right. split; [now right|]. cbn. eauto.
    + split; [intros H; now elim H | intros [H _]; congruence].
    + intros H; now elim H.
    + split; [discriminate | intros [H _]; congruence].
  - split; [|split; [|split]].
    + right; left. exact Hshape.
    + rewrite Hcalls. split; [intros H; now elim H|].
      intros (_ & b & Hb & _). discriminate.
    + rewrite Hcalls. intros H; now elim H.
    + destruct Hshape as [Hst _]. rewrite Hst.
      split; [discriminate | intros (_ & b & Hb & _); discriminate].
  - split; [|split; [|split]].
    + right; left. exact Hshape.
    + rewrite Hcalls. split; [intros H; now elim H|].
      intros (_ & b' & Hb' & H1 & _). injection Hb' as <-.
      apply js_truthy_not_nullish in H1.
      destruct b; discriminate.
    + rewrite Hcalls. intros H; now elim H.
    + destruct Hshape as [Hst _]. rewrite Hst.
      split; [discriminate|].
      intros (_ & b' & Hb' & Hnn & _). injection Hb' as <-. congruence.
  - rewrite Hrun. split; [|split; [|split]].
    + right; right. split; [now left|]. cbn. eauto.
    + split; [intros H; now elim H|].
      intros (_ & b' & Hb' & H1 & H2). injection Hb' as <-.
      destruct Hfalsy; congruence.
    + intros H; now elim H.
    + split; [intros _; split; [assumption|]; exists b; auto | reflexivity].
  - split; [|split; [|split]].
    + destruct Hllm as [(t & -> & Hresp)|(r & -> & Hresp)]; rewrite Hresp.
      * right; left. split; [reflexivity|]. cbn. eauto.
      * left. repeat split.
    + rewrite Hcalls. split; [|discriminate].
      intros _. split; [assumption|]. exists b. auto.
    + intros _. exists b. exact Hcalls.
    + destruct Hllm as [(t & -> & Hresp)|(r & -> & Hresp)]; rewrite Hresp;
        (split; [discriminate|]);
        intros (_ & b' & Hb' & _ & [H|H]); injection Hb' as <-; congruence.
Qed.

(** X5 -- The image extraction route calls the model exactly when the
    key is set and the form carries a file under [image], and then once,
    with that file; a non-empty plain string under [image] passes the
    presence test but has no [arrayBuffer], so it is answered 500 with the
    engine's [TypeError] text and no call. *)
Theorem extract_invoice_model_call (env : EnvVar) (form : FormDataOutcome)
    (llm : LlmOutcome JSObject) (now : string) :
  let run := ExtractInvoice.POST TypeErrorMessage env form llm now in
  (calls run <> [] <->
   key_missing env = false /\
   exists get f, form = FormDataOk get /\ get "image" = Some (EntryFile f)) /\
  (forall get f,
      key_missing env = false -> form = FormDataOk get ->
      get "image" = Some (EntryFile f) ->
      calls run
      = [LlmCall "gpt-4o-mini" (env_string env) (PromptImage (EntryFile f))]) /\
  (forall get s,
      key_missing env = false -> form = FormDataOk get ->
      get "image" = Some (EntryString s) -> s <> "" ->
      run = ([], json_response 500
                   [("success", JBool false); ("error", JStr TypeErrorMessage)])).
Proof.
  cbv zeta. unfold ExtractInvoice.POST, extract_image_try.
  destruct (key_missing env) eqn:Hkey.
  { split; [|split].
    - split; [intros H; now elim H | intros [H _]; discriminate].
    - intros get f H; discriminate.
    - intros get s H; discriminate. }
  destruct form as [t|get].
  { split; [|split].
    - split; [intros H; now elim H|].
      intros (_ & get & f & H & _); discriminate.
    - intros get f _ H; discriminate.
    - intros get s _ H; discriminate. }
  destruct (get "image") as [[f|str]|] eqn:Hget.
  - cbn [entry_truthy negb entry_arrayBuffer].
    split; [|split].
    + split; [|destruct llm; discriminate].
      intros _. split; [reflexivity|]. exists get, f. auto.
    + intros get' f' _ Hform Hget'. injection Hform as <-.
      rewrite Hget in Hget'. injection Hget' as <-. destruct llm; reflexivity.
    + intros get' s' _ Hform Hget'. injection Hform as <-. congruence.
  - cbn [entry_truthy]. destruct (negb (str =? "")%string) eqn:Hstr;
      cbn [negb entry_arrayBuffer]; (split; [|split]).
    + split; [intros H; now elim H|].
      intros (_ & get' & f & Hform & Hget'). injection Hform as <-. congruence.
    + intros get' f' _ Hform Hget'. injection Hform as <-. congruence.
    + intros; reflexivity.
    + split; [intros H; now elim H|].
      intros (_ & get' & f & Hform & Hget'). injection Hform as <-. congruence.
    + intros get' f' _ Hform Hget'. injection Hform as <-. congruence.
    + intros get' s' _ Hform Hget' Hs. injection Hform as <-.
      rewrite Hget in Hget'. injection Hget' as <-.
      apply negb_false_iff, String.eqb_eq in Hstr. contradiction.
  - split; [|split].
    + split; [intros H; now elim H|].
      intros (_ & get' & f & Hform & Hget'). injection Hform as <-. congruence.
    + intros get' f' _ Hform Hget'. injection Hform as <-. congruence.
    + intros get' s' _ Hform Hget'. injection Hform as <-. congruence.
Qed.

Lemma text_guard (text : JSValue) :
  negb (js_truthy text) || negb (js_isString text) = false <->
  exists t, text = JStr t /\ t <> "".
Proof.
  split.
  - intros H. apply orb_false_iff in H as [H1 H2].
    apply negb_false_iff in H1, H2.
    destruct text; try discriminate. exists s. split; [reflexivity|].
    now apply nonempty_string_truthy.
  - intros (t & -> & Ht). apply nonempty_string_truthy in Ht.
    cbn [js_isString negb orb]. now rewrite Ht.
Qed.

(** X6 -- The text extraction route calls the model exactly when the
    key is set and the request body holds a non-empty string under [text],
    and then once, with exactly that string; with the key set and the body
    read, any other [text] (absent, empty, or not a string) is answered
    400. *)
Theorem extract_text_model_call (env : EnvVar) (req : JsonOutcome)
    (llm : LlmOutcome JSObject) (now : string) :
  let run := ExtractText.POST ToString TypeErrorMessage env req llm now in
  (calls run <> [] <->
   key_missing env = false /\
   exists b t, req = JsonValue b /\ js_field b "text" = JStr t /\ t <> "") /\
  (forall b t,
      key_missing env = false -> req = JsonValue b ->
      js_field b "text" = JStr t -> t <> "" ->
      calls run = [LlmCall "gpt-4.1-mini" (env_string env) (PromptText t)]) /\
  (status (response run) = 400 <->
   key_missing env = false /\
   exists b, req = JsonValue b /\ js_nullish b = false /\
             forall t, js_field b "text" = JStr t -> t = "").
Proof.
  cbv zeta. unfold ExtractText.POST, extract_text_try.
  destruct (key_missing env) eqn:Hkey.
  { split; [|split].
    - split; [intros H; now elim H | intros [H _]; discriminate].
    - intros b t H; discriminate.
    - split; [discriminate | intros [H _]; discriminate]. }
  destruct req as [t|b].
  { split; [|split].
    - split; [intros H; now elim H|].
      intros (_ & b & t' & H & _); discriminate.
    - intros b t' _ H; discriminate.
    - split; [discriminate|].
      intros (_ & b & H & _); discriminate. }
  destruct (js_nullish b) eqn:Hb.
  { rewrite js_get_nullish by assumption. split; [|split].
    - split; [intros H; now elim H|].
      intros (_ & b' & t & Hreq & Htext & _). injection Hreq as <-.
      destruct b; discriminate.
    - intros b' t _ Hreq Htext. injection Hreq as <-. destruct b; discriminate.
    - split; [discriminate|].
      intros (_ & b' & Hreq & Hnn & _). injection Hreq as <-. congruence. }
  rewrite js_get_not_nullish by assumption.
  destruct (negb (js_truthy (js_field b "text"))
            || negb (js_isString (js_field b "text"))) eqn:Hguard.
  - assert (Hno : forall t, js_field b "text" = JStr t -> t = "").
    { intros t Ht. destruct (String.eqb_spec t ""); [assumption|].
      assert (Hg : negb (js_truthy (js_field b "text"))
                   || negb (js_isString (js_field b "text")) = false)
        by (apply text_guard; eauto).
      congruence. }
    split; [|split].
    + split; [intros H; now elim H|].
      intros (_ & b' & t & Hreq & Htext & Ht). injection Hreq as <-.
      elim Ht. now apply Hno.
    + intros b' t _ Hreq Htext Ht. injection Hreq as <-.
      elim Ht. now apply Hno.
    + split; [|reflexivity].
      intros _. split; [reflexivity|]. exists b. auto.
  - apply text_guard in Hguard as (t & Htext & Ht).
    rewrite Htext. split; [|split].
    + split; [|destruct llm; discriminate].
      intros _. split; [reflexivity|]. exists b, t. auto.
    + intros b' t' _ Hreq Htext' _. injection Hreq as <-.
      rewrite Htext in Htext'. injection Htext' as <-.
      destruct llm; reflexivity.
    + split; [destruct llm; discriminate|].
      intros (_ & b' & Hreq & _ & Hno). injection Hreq as <-.
      elim Ht. now apply Hno.
Qed.

(** X7 -- Every answer of the text extraction route, errors included,
    carries the CORS headers; no answer of the conversion, image
    extraction or comparison route does. *)
Theorem cors_only_on_text_route
    (form1 : FormDataOutcome) (env1 : EnvVar) (up : FetchOutcome)
    (env2 : EnvVar) (form2 : FormDataOutcome) (llm2 : LlmOutcome JSObject)
    (env3 : EnvVar) (req3 : JsonOutcome) (llm3 : LlmOutcome JSObject)
    (env4 : EnvVar) (req4 : JsonOutcome) (llm4 : LlmOutcome ComparisonResult)
    (now : string) :
  cors (response (ExtractText.POST ToString TypeErrorMessage env3 req3 llm3 now))
    = true /\
  cors (response (ProcessPdf.POST ToString TypeErrorMessage form1 env1 up))
    = false /\
  cors (response (ExtractInvoice.POST TypeErrorMessage env2 form2 llm2 now))
    = false /\
  cors (response (CompareOrders.POST TypeErrorMessage env4 req4 llm4 now))
    = false.
Proof.
  split; [|split; [|split]].
  - unfold ExtractText.POST, extract_text_try.
    destruct (key_missing env3); [reflexivity|].
    destruct req3 as [t|b]; [reflexivity|].
    destruct (js_get TypeErrorMessage b "text") as [text|t]; [|reflexivity].
    destruct (negb (js_truthy text) || negb (js_isString text));
      [reflexivity|]. destruct llm3; reflexivity.
  - destruct form1 as [t|get]; [reflexivity|].
    destruct (entry_truthy (get "pdf")) eqn:Htruthy.
    + destruct (get "pdf") as [entry|] eqn:Hget; [|discriminate].
      rewrite (process_pdf_with_file ToString TypeErrorMessage
                 get entry env1 up Hget Htruthy).
      unfold response. cbn [snd].
      destruct (convert_upstream ToString TypeErrorMessage up)
        as [resp|t] eqn:Hup; [|reflexivity].
      apply convert_upstream_ok_inv in Hup
        as (? & ? & ? & ? & ? & _ & _ & _ & _ & _ & ->).
      reflexivity.
    + now rewrite process_pdf_without_file.
  - unfold ExtractInvoice.POST, extract_image_try.
    destruct (key_missing env2); [reflexivity|].
    destruct form2 as [t|get]; [reflexivity|].
    destruct (get "image") as [entry|]; [|reflexivity].
    destruct (entry_truthy (Some entry)); [|reflexivity]. cbn [negb].
    destruct (entry_arrayBuffer TypeErrorMessage entry); [|reflexivity].
    destruct llm2; reflexivity.
  - destruct (compare_route_cases env4 req4 llm4 now)
      as [[_ ->]
         |[_ [(t & _ & _ & _ & m & H)
             |[(b & _ & _ & _ & _ & m & H)
              |[(b & _ & _ & _ & ->)
               |(b & _ & _ & _ & _ & [(t & _ & ->)|(r & _ & ->)])]]]]];
      try reflexivity.
    + unfold CompareOrders.POST, compare_try in *.
      destruct (key_missing env4); [reflexivity|].
      destruct req4 as [t'|b]; [reflexivity|].
      destruct (js_get TypeErrorMessage b "order1"); cbn [bind];
        [|reflexivity].
      destruct (js_get TypeErrorMessage b "order2"); cbn [bind];
        [|reflexivity].
      destruct (negb (js_truthy a) || negb (js_truthy a0)); [reflexivity|].
      destruct llm4; reflexivity.
    + unfold CompareOrders.POST, compare_try in *.
      destruct (key_missing env4); [reflexivity|].
      destruct req4 as [t'|b']; [reflexivity|].
      destruct (js_get TypeErrorMessage b' "order1"); cbn [bind];
        [|reflexivity].
      destruct (js_get TypeErrorMessage b' "order2"); cbn [bind];
        [|reflexivity].
      destruct (negb (js_truthy a) || negb (js_truthy a0)); [reflexivity|].
      destruct llm4; reflexivity.
Qed.

(** X8 -- When the call to the model rejects, each of the three routes
    that reached it answers 500 with [success: false] and the rejection's
    own message, or the route's generic text when what was thrown is not an
    [Error]. *)
Theorem model_failure_reported (t : Thrown)
    (env2 : EnvVar) (form2 : FormDataOutcome)
    (env3 : EnvVar) (req3 : JsonOutcome)
    (env4 : EnvVar) (req4 : JsonOutcome) (now : string) :
  (calls (ExtractInvoice.POST TypeErrorMessage env2 form2 (LlmThrows t) now)
     <> [] ->
   response (ExtractInvoice.POST TypeErrorMessage env2 form2 (LlmThrows t) now)
   = json_response 500
       [ ("success", JBool false);
         ("error", JStr (message_or t "An unknown error occurred")) ]) /\
  (calls (ExtractText.POST ToString TypeErrorMessage env3 req3 (LlmThrows t) now)
     <> [] ->
   response (ExtractText.POST ToString TypeErrorMessage env3 req3
               (LlmThrows t) now)
   = json_response_cors 500
       [ ("success", JBool false);
         ("error", JStr (message_or t "An unknown error occurred")) ]) /\
  (calls (CompareOrders.POST TypeErrorMessage env4 req4 (LlmThrows t) now)
     <> [] ->
   response (CompareOrders.POST TypeErrorMessage env4 req4 (LlmThrows t) now)
   = json_response 500
       [ ("success", JBool false);
         ("error",
           JStr (message_or t "An unknown error occurred during comparison")) ]).
Proof.
  split; [|split].
  - unfold ExtractInvoice.POST, extract_image_try.
    destruct (key_missing env2); [intros H; now elim H|].
    destruct form2 as [t'|get]; [intros H; now elim H|].
    destruct (get "image") as [entry|]; [|intros H; now elim H].
    destruct (entry_truthy (Some entry)); [|intros H; now elim H].
    cbn [negb].
    destruct (entry_arrayBuffer TypeErrorMessage entry);
      [reflexivity | intros H; now elim H].
  - unfold ExtractText.POST, extract_text_try.
    destruct (key_missing env3); [intros H; now elim H|].
    destruct req3 as [t'|b]; [intros H; now elim H|].
    destruct (js_get TypeErrorMessage b "text") as [text|t'];
      [|intros H; now elim H].
    destruct (negb (js_truthy text) || negb (js_isString text));
      [intros H; now elim H | reflexivity].
  - destruct (compare_route_cases env4 req4 (LlmThrows t) now)
      as [[_ ->]
         |[_ [(t' & _ & -> & _)
             |[(b & _ & _ & -> & _)
              |[(b & _ & _ & _ & ->)
               |(b & _ & _ & _ & _ & [(t' & Ht & ->)|(r & Hr & _)])]]]]];
      try (intros H; now elim H).
    intros _. injection Ht as <-. reflexivity.
Qed.

End RouteCalls.

Lemma process_pdf_upstream_status_witness :
  resp_ok 401 = false /\
  response (ProcessPdf.POST sample_ToString sample_TypeError
              (pdf_form sample_pdf) None
              (FetchResponse 401 "Unauthorized" (JsonThrows ThrownOther)))
  = json_response 500
      [ ("success", JBool false);
        ("error", JStr "ConvertAPI error: 401 Unauthorized") ].
Proof.
  split; [reflexivity|].
  exact (process_pdf_upstream_status sample_ToString sample_TypeError
           (fun name => if (name =? "pdf")%string
                        then Some (EntryFile sample_pdf) else None)
           (EntryFile sample_pdf) None 401 "Unauthorized"
           (JsonThrows ThrownOther) eq_refl eq_refl eq_refl).
Defined.

Lemma process_pdf_unusable_files_witness :
  indexable_non_array
    (js_field (JObj [("Files", JObj [("0", js_nat 1)])]) "Files") = true /\
  response (ProcessPdf.POST sample_ToString sample_TypeError
              (pdf_form sample_pdf) None
              (FetchResponse 200 "OK"
                 (JsonValue (JObj [("Files", JObj [("0", js_nat 1)])]))))
  = json_response 500
      [ ("success", JBool false);
        ("error", JStr "Invalid response from ConvertAPI") ].
Proof.
  split; [reflexivity|].
  exact (proj1 (proj2
           (process_pdf_unusable_files sample_ToString sample_TypeError
              (fun name => if (name =? "pdf")%string
                           then Some (EntryFile sample_pdf) else None)
              (EntryFile sample_pdf) None 200 "OK"
              (JObj [("Files", JObj [("0", js_nat 1)])])
              eq_refl eq_refl eq_refl))
           eq_refl).
Defined.

(* ================================================================== *)
(** ** Page selection *)
(* ================================================================== *)

Section SelectionFacts.

Lemma flip_selected_twice (img : PageImage) :
  flip_selected (flip_selected img) = img.
Proof. destruct img as [pn url [|] w h]; reflexivity. Qed.

Lemma toggle_images_twice (k : nat) (p : JSValue) (imgs : list PageImage) :
  forall j, toggle_images j k p (toggle_images j k p imgs) = imgs.
Proof.
  induction imgs as [|img rest IH]; intros j; [reflexivity|].
  cbn [toggle_images]. rewrite IH.
  destruct ((j =? k) || js_strict_eq (pageNumber img) p) eqn:E.
  - cbn [flip_selected pageNumber]. rewrite E.
    now rewrite flip_selected_twice.
  - now rewrite E.
Qed.

Lemma nth_error_toggle_images (k : nat) (p : JSValue)
    (imgs : list PageImage) :
  forall j i,
    nth_error (toggle_images j k p imgs) i
    = option_map
        (fun img => if (j + i =? k) || js_strict_eq (pageNumber img) p
                    then flip_selected img else img)
        (nth_error imgs i).
Proof.
  induction imgs as [|img rest IH]; intros j i.
  - destruct i; reflexivity.
  - destruct i as [|i]; cbn [toggle_images nth_error option_map].
    + now rewrite Nat.add_0_r.
    + rewrite IH. now replace (S j + i) with (j + S i) by lia.
Qed.

Lemma setPdfData_setPdfData (n : PdfNumber) (f g : PdfData -> PdfData)
    (s : AppState) :
  setPdfData n f (setPdfData n g s) = setPdfData n (fun pd => f (g pd)) s.
Proof. destruct n; reflexivity. Qed.

Lemma setPdfData_id (n : PdfNumber) (f : PdfData -> PdfData) (s : AppState) :
  f (pdfData n s) = pdfData n s -> setPdfData n f s = s.
Proof.
  destruct n, s as [p1 p2 r c sh]; cbn [setPdfData pdfData pdf1 pdf2
    comparisonResult comparing showExtractedData]; intros ->; reflexivity.
Qed.

(** X9 -- Clicking the same thumbnail twice restores the state: the
    second click flips back exactly the flags the first one flipped. *)
Theorem toggle_twice_restores (k : nat) (n : PdfNumber) (s : AppState) :
  togglePageSelection k n (togglePageSelection k n s) = s.
Proof.
  unfold togglePageSelection at 2.
  destruct (nth_error (pageImages (pdfData n s)) k) as [clicked|] eqn:Hk.
  - unfold togglePageSelection.
    rewrite pdfData_setPdfData_same. cbn [pageImages].
    rewrite nth_error_toggle_images, Hk. cbn [option_map].
    rewrite Nat.add_0_l, Nat.eqb_refl. cbn [orb flip_selected pageNumber].
    rewrite setPdfData_setPdfData. apply setPdfData_id.
    cbn [file pageImages loading extractedData processing].
    rewrite toggle_images_twice. now destruct (pdfData n s).
  - unfold togglePageSelection. now rewrite Hk.
Qed.

(** X10 -- A click on the [k]-th thumbnail flips that page and every page
    whose number is strictly equal to its number; so, when the other
    pages' numbers all differ from it, it flips that page alone. *)
Theorem toggle_flips_clicked_page (k : nat) (n : PdfNumber) (s : AppState)
    (clicked : PageImage) :
  nth_error (pageImages (pdfData n s)) k = Some clicked ->
  let after := pageImages (pdfData n (togglePageSelection k n s)) in
  nth_error after k = Some (flip_selected clicked) /\
  (forall j img,
      nth_error (pageImages (pdfData n s)) j = Some img ->
      js_strict_eq (pageNumber img) (pageNumber clicked) = true ->
      nth_error after j = Some (flip_selected img)) /\
  ((forall j img,
       nth_error (pageImages (pdfData n s)) j = Some img -> j <> k ->
       js_strict_eq (pageNumber img) (pageNumber clicked) = false) ->
   forall j, j <> k -> nth_error after j = nth_error (pageImages (pdfData n s)) j).
Proof.
  intros Hk. cbv zeta. unfold togglePageSelection. rewrite Hk.
  rewrite pdfData_setPdfData_same. cbn [pageImages].
  split; [|split].
  - rewrite nth_error_toggle_images, Hk. cbn [option_map].
    now rewrite Nat.add_0_l, Nat.eqb_refl.
  - intros j img Hj Heq.
    rewrite nth_error_toggle_images, Hj. cbn [option_map].
    now rewrite Heq, orb_true_r.
  - intros Hdistinct j Hjk. rewrite nth_error_toggle_images.
    destruct (nth_error (pageImages (pdfData n s)) j) as [img|] eqn:Hj;
      [|reflexivity].
    cbn [option_map]. rewrite (Hdistinct j img Hj Hjk).
    apply Nat.eqb_neq in Hjk. rewrite Nat.add_0_l, Hjk. reflexivity.
Qed.

Lemma unselect_all_toggle (k : nat) (p : JSValue) (imgs : list PageImage) :
  forall j, unselect_all (toggle_images j k p imgs) = unselect_all imgs.
Proof.
  unfold unselect_all.
  induction imgs as [|img rest IH]; intros j; [reflexivity|].
  cbn [toggle_images map]. rewrite IH.
  destruct ((j =? k) || js_strict_eq (pageNumber img) p); reflexivity.
Qed.

Lemma unselect_all_set (b : bool) (imgs : list PageImage) :
  unselect_all (map (set_selected b) imgs) = unselect_all imgs.
Proof. unfold unselect_all. rewrite map_map. reflexivity. Qed.

(** X11 -- The three selection handlers change nothing but selection
    flags of their own document: its pages keep their number, order,
    image and size, its file, results and busy flags stay, and so do the
    other document and the comparison. *)
Theorem selection_changes_flags_only (k : nat) (n : PdfNumber)
    (s : AppState) :
  selection_frame n s (togglePageSelection k n s) /\
  selection_frame n s (selectAllPages n s) /\
  selection_frame n s (deselectAllPages n s).
Proof.
  unfold selection_frame, togglePageSelection, selectAllPages,
    deselectAllPages.
  split; [|split].
  - destruct (nth_error (pageImages (pdfData n s)) k); [|repeat split].
    rewrite pdfData_setPdfData_same, pdfData_setPdfData_other.
    cbn [pageImages file loading extractedData processing].
    rewrite unselect_all_toggle. destruct n; repeat split.
  - rewrite pdfData_setPdfData_same, pdfData_setPdfData_other.
    cbn [pageImages file loading extractedData processing].
    rewrite unselect_all_set. destruct n; repeat split.
  - rewrite pdfData_setPdfData_same, pdfData_setPdfData_other.
    cbn [pageImages file loading extractedData processing].
    rewrite unselect_all_set. destruct n; repeat split.
Qed.

Lemma filter_selected_set_true (imgs : list PageImage) :
  filter selected (map (set_selected true) imgs) = map (set_selected true) imgs.
Proof.
  induction imgs as [|img rest IH]; [reflexivity|].
  cbn [map filter set_selected selected]. now rewrite IH.
Qed.

Lemma filter_selected_set_false (imgs : list PageImage) :
  filter selected (map (set_selected false) imgs) = [].
Proof.
  induction imgs as [|img rest IH]; [reflexivity|].
  cbn [map filter set_selected selected]. exact IH.
Qed.

(** X12 -- After Select All the selection is every page of the document, in
    order; after None it is empty.  So, when the document has pages and no
    run is under way, Select All leaves the Extract button enabled, while
    None always leaves it disabled. *)
Theorem select_all_and_none (n : PdfNumber) (s : AppState) :
  selectedImages (pdfData n (selectAllPages n s))
    = map (set_selected true) (pageImages (pdfData n s)) /\
  selectedImages (pdfData n (deselectAllPages n s)) = [] /\
  extract_disabled (pdfData n (deselectAllPages n s)) = true /\
  (pageImages (pdfData n s) <> [] ->
   processing (pdfData n s) = false ->
   extract_disabled (pdfData n (selectAllPages n s)) = false).
Proof.
  unfold selectAllPages, deselectAllPages, selectedImages, extract_disabled.
  rewrite !pdfData_setPdfData_same.
  cbn [pageImages processing].
  rewrite filter_selected_set_true, filter_selected_set_false.
  repeat split.
  - cbn [List.length Nat.eqb]. apply orb_true_r.
  - intros Hne Hproc. rewrite Hproc, length_map.
    destruct (pageImages (pdfData n s)); [contradiction | reflexivity].
Qed.

End SelectionFacts.

(* ================================================================== *)
(** ** Uploading a file and receiving its pages *)
(* ================================================================== *)

Section ControllerConversion.

Variable ToString : JSValue -> string.
Variable TypeErrorMessage : string.

Lemma page_of_json_spec (page : JSValue) :
  page_of_json TypeErrorMessage page
  = if js_nullish page then Throw (ThrownError TypeErrorMessage)
    else Ok (image_of_page page).
Proof.
  unfold page_of_json. destruct (js_nullish page) eqn:Hn.
  - now rewrite js_get_nullish.
  - now rewrite !js_get_not_nullish.
Qed.

Lemma pages_of_json_spec (ps : list JSValue) (images : list PageImage) :
  pages_of_json TypeErrorMessage ps = Ok images <->
  forallb (fun page => negb (js_nullish page)) ps = true /\
  images = map image_of_page ps.
Proof.
  revert images. induction ps as [|page rest IH]; intros images.
  - cbn. split; [intros H; inversion H; auto | intros [_ ->]; reflexivity].
  - cbn [pages_of_json forallb map]. rewrite page_of_json_spec.
    destruct (js_nullish page); cbn [negb andb bind].
    + split; [discriminate | intros [H _]; discriminate].
    + destruct (pages_of_json TypeErrorMessage rest) as [imgs|t] eqn:Hrest;
        cbn [bind].
      * destruct (proj1 (IH imgs) eq_refl) as [Hall ->].
        split; [intros H; inversion H; auto | intros [_ ->]; reflexivity].
      * split; [discriminate|]. intros [Hall ->].
        pose proof (proj2 (IH (map image_of_page rest)) (conj Hall eq_refl)).
        discriminate.
Qed.

(** X13 -- The controller accepts the answer of a conversion exactly when
    the call settled with a JSON body whose [success] is truthy and whose
    [pages] is an array without [null] entries; the images it then stores
    are those pages in order, each with the page's number, image and size
    as sent, and none selected. *)
Theorem processPdf_accepts (o : NetOutcome) (images : list PageImage) :
  processPdf_try ToString TypeErrorMessage o = Ok images <->
  exists result ps,
    o = NetJson result /\
    js_truthy (js_field result "success") = true /\
    js_field result "pages" = JArr ps /\
    forallb (fun page => negb (js_nullish page)) ps = true /\
    images = map image_of_page ps.
Proof.
  unfold processPdf_try. destruct o as [t|result].
  { split; [discriminate | intros (r & ps & H & _); discriminate]. }
  destruct (js_nullish result) eqn:Hres.
  { rewrite js_get_nullish by assumption. cbn [bind].
    split; [discriminate|].
    intros (r & ps & Hr & Hs & _). injection Hr as <-.
    destruct result; discriminate. }
  rewrite !js_get_not_nullish by assumption. cbn [bind].
  destruct (js_truthy (js_field result "success")) eqn:Hs.
  - unfold images_of_result. rewrite js_get_not_nullish by assumption.
    cbn [bind].
    destruct (js_field result "pages") as [| |b|q|str|ps|o'] eqn:Hp;
      try (split; [discriminate
                  | intros (r & ps' & Hr & _ & Hp' & _);
                    injection Hr as <-; congruence]).
    rewrite pages_of_json_spec. split.
    + intros [Hall ->]. exists result, ps. auto.
    + intros (r & ps' & Hr & _ & Hp' & Hall & ->).
      injection Hr as <-. rewrite Hp in Hp'. injection Hp' as <-. auto.
  - split; [discriminate|].
    intros (r & ps & Hr & Hs' & _). injection Hr as <-. congruence.
Qed.

Lemma filter_selected_images_of_pages (ps : list JSValue) :
  filter selected (map image_of_page ps) = [].
Proof. induction ps as [|p rest IH]; [reflexivity | exact IH]. Qed.

(** X14 -- When a conversion settles, the document stops loading, keeps
    its file and results, and leaves the other document alone.  If the
    answer is accepted, its pages are stored with none selected, so the
    Extract button is disabled; if not, the pages stay as they were and
    the user is alerted. *)
Theorem conversion_settles (n : PdfNumber) (o : NetOutcome) (s : AppState) :
  let done := processPdf_finish ToString TypeErrorMessage n o s in
  let pd' := pdfData n (fst done) in
  loading pd' = false /\
  file pd' = file (pdfData n s) /\
  extractedData pd' = extractedData (pdfData n s) /\
  processing pd' = processing (pdfData n s) /\
  pdfData (other_pdf n) (fst done) = pdfData (other_pdf n) s /\
  (forall images,
      processPdf_try ToString TypeErrorMessage o = Ok images ->
      pageImages pd' = images /\
      selectedImages pd' = [] /\
      extract_disabled pd' = true /\
      snd done = []) /\
  (forall t,
      processPdf_try ToString TypeErrorMessage o = Throw t ->
      pageImages pd' = pageImages (pdfData n s) /\
      snd done = [ConsoleError "Error processing PDF:";
                  Alert "Error processing PDF. Please try again."]).
Proof.
  cbv zeta. unfold processPdf_finish.
  destruct (processPdf_try ToString TypeErrorMessage o) as [images|t] eqn:Htry;
    cbn [fst snd]; rewrite pdfData_setPdfData_same, pdfData_setPdfData_other;
    cbn [loading file extractedData processing pageImages].
  - do 5 (split; [reflexivity|]). split.
    + intros images' Himages. injection Himages as <-.
      apply processPdf_accepts in Htry as (r & ps & _ & _ & _ & _ & ->).
      unfold selectedImages, extract_disabled. cbn [pageImages processing].
      rewrite filter_selected_images_of_pages.
      repeat split. apply orb_true_r.
    + intros t' Ht'. discriminate.
  - do 5 (split; [reflexivity|]). split.
    + intros images' Himages. discriminate.
    + intros t' Ht'. split; reflexivity.
Qed.

Lemma compare_refused_without_results (s : AppState) :
  extractedData (pdf1 s) = [] \/ extractedData (pdf2 s) = [] ->
  compare_started s = false.
Proof.
  intros Hempty. unfold compare_started.
  destruct (compareOrders_start_cases s) as [[Hd ->]|[_ ->]];
    [|reflexivity].
  apply andb_true_iff in Hd as [H1 H2].
  destruct Hempty as [H|H]; rewrite H in *; discriminate.
Qed.

(** X15 -- Choosing a PDF for a document empties its pages and its
    results, marks it loading and issues the conversion call, the other
    document being left alone; from that state a comparison is refused and
    the Compare card is not rendered, until results are extracted again.
    A missing file or one of another type changes nothing and only alerts. *)
Theorem new_file_resets_document (selectedFile : option File)
    (n : PdfNumber) (s : AppState) :
  let started := processPdf_start selectedFile n s in
  (forall f,
      selectedFile = Some f -> file_type f = "application/pdf" ->
      pdfData n (fst (fst started))
        = mkPdfData (Some f) [] true [] (processing (pdfData n s)) /\
      pdfData (other_pdf n) (fst (fst started)) = pdfData (other_pdf n) s /\
      started = (fst (fst started), [ConvertIssued f], true) /\
      compare_started (fst (fst started)) = false /\
      compare_card_shown (fst (fst started)) = false) /\
  (processPdf_rejects selectedFile = true ->
   started = (s, [Alert "Please select a valid PDF file"], false)).
Proof.
  cbv zeta. unfold processPdf_start. split.
  - intros f -> Htype. cbn [processPdf_rejects]. rewrite Htype.
    cbn [String.eqb Ascii.eqb Bool.eqb negb fst snd].
    rewrite pdfData_setPdfData_same, pdfData_setPdfData_other.
    repeat split.
    + apply compare_refused_without_results.
      destruct n; [left | right]; reflexivity.
    + unfold compare_card_shown.
      destruct n; cbn [setPdfData pdf1 pdf2 extractedData existsb andb];
        [reflexivity | apply andb_false_r].
  - intros Hrej. destruct selectedFile as [f|]; [|reflexivity].
    now rewrite Hrej.
Qed.


End ControllerConversion.

(* ================================================================== *)
(** ** Invariants of the controller along any run *)
(* ================================================================== *)

Section MachineInvariants.

Variable ToString : JSValue -> string.
Variable TypeErrorMessage : string.

Lemma existsb_remove_nth {A : Type} (p : A -> bool) (l : list A) :
  forall i x,
    nth_error l i = Some x -> p x = false ->
    existsb p (remove_nth i l) = existsb p l.
Proof.
  induction l as [|y rest IH]; intros i x Hnth Hp.
  - destruct i; discriminate.
  - destruct i as [|i]; cbn [nth_error remove_nth existsb] in *.
    + injection Hnth as ->. now rewrite Hp.
    + now rewrite (IH i x Hnth Hp).
Qed.

Lemma existsb_replace_nth {A : Type} (p : A -> bool) (l : list A) :
  forall i x y,
    nth_error l i = Some x -> p y = p x ->
    existsb p (replace_nth i y l) = existsb p l.
Proof.
  induction l as [|z rest IH]; intros i x y Hnth Hp.
  - destruct i; discriminate.
  - destruct i as [|i]; cbn [nth_error replace_nth existsb] in *.
    + injection Hnth as ->. now rewrite Hp.
    + now rewrite (IH i x y Hnth Hp).
Qed.

Lemma existsb_app_left {A : Type} (p : A -> bool) (l l' : list A) :
  existsb p l = true -> existsb p (l ++ l') = true.
Proof. intros H. rewrite existsb_app, H. reflexivity. Qed.

Lemma pdfData_setPdfData (m n : PdfNumber) (f : PdfData -> PdfData)
    (s : AppState) :
  pdfData m (setPdfData n f s)
  = if pdf_eqb m n then f (pdfData n s) else pdfData m s.
Proof. destruct m, n; reflexivity. Qed.

Lemma comparing_setPdfData (n : PdfNumber) (f : PdfData -> PdfData)
    (s : AppState) :
  comparing (setPdfData n f s) = comparing s.
Proof. destruct n; reflexivity. Qed.

Lemma pdf_eqb_true (m n : PdfNumber) : pdf_eqb m n = true -> m = n.
Proof. destruct m, n; intros H; try reflexivity; discriminate. Qed.

(** A handler that only rewrites document [n], keeping or dropping its
    flags, with the task list only growing. *)
Lemma flags_backed_grow (c : Config) (n : PdfNumber)
    (f : PdfData -> PdfData) (new : list Task) (tr : list Effect) :
  flags_backed c ->
  (loading (f (pdfData n (app c))) = true ->
   loading (pdfData n (app c)) = true \/ existsb (is_convert_of n) new = true) ->
  (processing (f (pdfData n (app c))) = true ->
   processing (pdfData n (app c)) = true \/ existsb (is_extract_of n) new = true) ->
  flags_backed (mkConfig (setPdfData n f (app c)) (tasks c ++ new) tr).
Proof.
  intros (Hl & Hp & Hc) Hload Hproc. unfold flags_backed. cbn [app tasks].
  split; [|split].
  - intros m. rewrite pdfData_setPdfData, existsb_app.
    destruct (pdf_eqb m n) eqn:E.
    + apply pdf_eqb_true in E as ->. intros H.
      destruct (Hload H) as [H'|H']; [rewrite (Hl n H')|rewrite H'];
        auto using orb_true_r.
    + intros H. now rewrite (Hl m H).
  - intros m. rewrite pdfData_setPdfData, existsb_app.
    destruct (pdf_eqb m n) eqn:E.
    + apply pdf_eqb_true in E as ->. intros H.
      destruct (Hproc H) as [H'|H']; [rewrite (Hp n H')|rewrite H'];
        auto using orb_true_r.
    + intros H. now rewrite (Hp m H).
  - rewrite comparing_setPdfData. intros H. apply existsb_app_left. auto.
Qed.

(** A handler of document [n] that ends: its task is taken off the list
    and the flag it backed is dropped. *)
Lemma flags_backed_end (c : Config) (n : PdfNumber) (i : nat) (t : Task)
    (f : PdfData -> PdfData) (tr : list Effect) :
  flags_backed c ->
  nth_error (tasks c) i = Some t ->
  is_compare t = false ->
  (loading (f (pdfData n (app c))) = true ->
   loading (pdfData n (app c)) = true /\ is_convert_of n t = false) ->
  (processing (f (pdfData n (app c))) = true ->
   processing (pdfData n (app c)) = true /\ is_extract_of n t = false) ->
  (forall m, m <> n -> is_convert_of m t = false /\ is_extract_of m t = false) ->
  flags_backed (mkConfig (setPdfData n f (app c)) (remove_nth i (tasks c)) tr).
Proof.
  intros (Hl & Hp & Hc) Hnth Hcmp Hload Hproc Hother.
  unfold flags_backed. cbn [app tasks]. split; [|split].
  - intros m. rewrite pdfData_setPdfData.
    destruct (pdf_eqb m n) eqn:E.
    + apply pdf_eqb_true in E as ->. intros H.
      destruct (Hload H) as [H' Ht].
      rewrite (existsb_remove_nth _ _ i t Hnth Ht). auto.
    + intros H. assert (Hmn : m <> n) by (intros ->; destruct n; discriminate).
      rewrite (existsb_remove_nth _ _ i t Hnth (proj1 (Hother m Hmn))). auto.
  - intros m. rewrite pdfData_setPdfData.
    destruct (pdf_eqb m n) eqn:E.
    + apply pdf_eqb_true in E as ->. intros H.
      destruct (Hproc H) as [H' Ht].
      rewrite (existsb_remove_nth _ _ i t Hnth Ht). auto.
    + intros H. assert (Hmn : m <> n) by (intros ->; destruct n; discriminate).
      rewrite (existsb_remove_nth _ _ i t Hnth (proj2 (Hother m Hmn))). auto.
  - rewrite comparing_setPdfData. intros H.
    rewrite (existsb_remove_nth _ _ i t Hnth Hcmp). auto.
Qed.

Lemma setPdfData_same_state (n : PdfNumber) (s : AppState) :
  setPdfData n (fun pd => pd) s = s.
Proof. destruct n, s; reflexivity. Qed.

Lemma pdf_eqb_neq (m n : PdfNumber) : m <> n -> pdf_eqb m n = false.
Proof. destruct m, n; intros H; try reflexivity; now elim H. Qed.

Lemma step_keeps_flags_backed (e : Event) (c : Config) :
  flags_backed c -> flags_backed (step ToString TypeErrorMessage e c).
Proof.
  intros Hinv. destruct e as [f n|k n|n|n|n| | |i o]; cbn [step].
  - destruct f as [f|]; [|exact Hinv].
    unfold processPdf_start.
    destruct (processPdf_rejects (Some f)).
    + rewrite <- (setPdfData_same_state n (app c)), <- (app_nil_r (tasks c)).
      apply flags_backed_grow; auto.
    + apply flags_backed_grow; auto.
      intros _. right. cbn. destruct n; reflexivity.
  - unfold togglePageSelection.
    destruct (nth_error (pageImages (pdfData n (app c))) k).
    + rewrite <- (app_nil_r (tasks c)). apply flags_backed_grow; auto.
    + now destruct c.
  - unfold selectAllPages. rewrite <- (app_nil_r (tasks c)).
    apply flags_backed_grow; auto.
  - unfold deselectAllPages. rewrite <- (app_nil_r (tasks c)).
    apply flags_backed_grow; auto.
  - destruct (selectedImages (pdfData n (app c))) as [|img rest].
    + rewrite <- (setPdfData_same_state n (app c)), <- (app_nil_r (tasks c)).
      apply flags_backed_grow; auto.
    + unfold mark_processing. apply flags_backed_grow; auto.
      intros _. right. cbn. destruct n; reflexivity.
  - destruct Hinv as (Hl & Hp & Hc).
    destruct (compareOrders_start_cases (app c)) as [[_ ->]|[_ ->]];
      unfold flags_backed; cbn [app tasks pdfData setComparisonResult
        setComparing pdf1 pdf2 comparing].
    + split; [|split].
      * intros n H. apply existsb_app_left. apply Hl. now destruct n.
      * intros n H. apply existsb_app_left. apply Hp. now destruct n.
      * intros _. rewrite existsb_app. apply orb_true_r.
    + split; [|split]; auto.
  - destruct Hinv as (Hl & Hp & Hc). unfold flags_backed.
    cbn [app tasks setShowExtractedData]. split; [|split]; auto.
  - destruct (nth_error (tasks c) i) as [t|] eqn:Hnth; [|exact Hinv].
    destruct t as [n|n todo results|]; cbn [resume].
    + destruct o as [t|no]; [exact Hinv|].
      unfold processPdf_finish.
      destruct (processPdf_try ToString TypeErrorMessage no);
        (apply (flags_backed_end c n i (ConvertTask n)); auto;
         [discriminate | intros m Hmn; split; [|reflexivity];
                         now apply pdf_eqb_neq]).
    + destruct todo as [|imageData rest]; [destruct o; exact Hinv|].
      unfold page_settled.
      destruct (process_page ToString imageData o) as [effs entry].
      destruct rest as [|next rest].
      * unfold commit_results.
        apply (flags_backed_end c n i (ExtractTask n [imageData] results));
          auto; [discriminate|].
        intros m Hmn. split; [reflexivity | now apply pdf_eqb_neq].
      * destruct Hinv as (Hl & Hp & Hc). unfold flags_backed.
        cbn [app tasks]. split; [|split].
        -- intros m H.
           rewrite (existsb_replace_nth (is_convert_of m) _ i _
                      (ExtractTask n (next :: rest) (results ++ [entry]))
                      Hnth eq_refl). auto.
        -- intros m H.
           rewrite (existsb_replace_nth (is_extract_of m) _ i _
                      (ExtractTask n (next :: rest) (results ++ [entry]))
                      Hnth eq_refl). auto.
        -- intros H.
           rewrite (existsb_replace_nth is_compare _ i _
                      (ExtractTask n (next :: rest) (results ++ [entry]))
                      Hnth eq_refl). auto.
    + destruct o as [t|no]; [exact Hinv|].
      destruct Hinv as (Hl & Hp & Hc).
      destruct no as [t|result]; cbn [compareOrders_finish];
        unfold flags_backed;
        cbn [app tasks pdfData setComparisonResult setComparing pdf1 pdf2
             comparing];
        (split; [|split; [|discriminate]]).
      * intros n H.
        rewrite (existsb_remove_nth _ _ i CompareTask Hnth eq_refl).
        apply Hl. now destruct n.
      * intros n H.
        rewrite (existsb_remove_nth _ _ i CompareTask Hnth eq_refl).
        apply Hp. now destruct n.
      * intros n H.
        rewrite (existsb_remove_nth _ _ i CompareTask Hnth eq_refl).
        apply Hl. now destruct n.
      * intros n H.
        rewrite (existsb_remove_nth _ _ i CompareTask Hnth eq_refl).
        apply Hp. now destruct n.
Qed.

(** X17 -- In every state the controller can reach, a document shown as
    loading has a conversion call outstanding, a document shown as
    processing has an extraction run outstanding, and a raised [comparing]
    flag has a comparison call outstanding: no busy indicator is left on
    by a handler that has ended. *)
Theorem busy_flags_have_pending_handler (events : list Event) :
  flags_backed (run ToString TypeErrorMessage events initial_config).
Proof.
  assert (H : forall c, flags_backed c ->
                        flags_backed (run ToString TypeErrorMessage events c)).
  { induction events as [|e rest IH]; intros c Hc; cbn [run]; [exact Hc|].
    apply IH. now apply step_keeps_flags_backed. }
  apply H. unfold flags_backed. cbn.
  split; [|split]; [intros [|] | intros [|] |]; discriminate.
Qed.

Lemma obj_has_set (o : JSObject) (k : string) (v : JSValue) :
  obj_has (obj_set o k v) k = true.
Proof.
  induction o as [|[k' v'] rest IH]; cbn [obj_set obj_has].
  - now rewrite String.eqb_refl.
  - destruct (k' =? k)%string eqn:E; cbn [obj_has]; rewrite E; auto.
Qed.

Lemma process_page_tagged (imageData : PageImage) (o : PageOutcome) :
  tagged (snd (process_page ToString imageData o)).
Proof.
  unfold tagged. destruct o as [t|[t|result]]; cbn [process_page snd];
    try reflexivity.
  apply obj_has_set.
Qed.

Lemma Forall_remove_nth {A : Type} (P : A -> Prop) (l : list A) :
  forall i, Forall P l -> Forall P (remove_nth i l).
Proof.
  induction l as [|x rest IH]; intros i H; [destruct i; exact H|].
  inversion H; subst. destruct i; cbn [remove_nth]; auto.
Qed.

Lemma Forall_replace_nth {A : Type} (P : A -> Prop) (l : list A) (y : A) :
  forall i, P y -> Forall P l -> Forall P (replace_nth i y l).
Proof.
  induction l as [|x rest IH]; intros i Hy H; [destruct i; exact H|].
  inversion H; subst. destruct i; cbn [replace_nth]; auto.
Qed.

Lemma Forall_nth_error {A : Type} (P : A -> Prop) (l : list A) (i : nat)
    (x : A) :
  Forall P l -> nth_error l i = Some x -> P x.
Proof.
  intros H Hnth. rewrite Forall_forall in H. apply H.
  eapply nth_error_In. exact Hnth.
Qed.

(** A step that rewrites document [n] only. *)
Lemma results_tagged_set (c : Config) (n : PdfNumber)
    (f : PdfData -> PdfData) (ts : list Task) (tr : list Effect) :
  results_tagged c ->
  Forall tagged (extractedData (f (pdfData n (app c)))) ->
  Forall task_tagged ts ->
  results_tagged (mkConfig (setPdfData n f (app c)) ts tr).
Proof.
  intros (H1 & H2 & _) Hf Hts. unfold results_tagged. cbn [app tasks].
  destruct n; cbn [setPdfData pdf1 pdf2 pdfData] in *; auto.
Qed.

Lemma step_keeps_results_tagged (e : Event) (c : Config) :
  results_tagged c -> results_tagged (step ToString TypeErrorMessage e c).
Proof.
  intros Hinv. pose proof Hinv as (H1 & H2 & Hts).
  assert (Hdoc : forall n, Forall tagged (extractedData (pdfData n (app c))))
    by (intros [|]; assumption).
  destruct e as [f n|k n|n|n|n| | |i o]; cbn [step].
  - destruct f as [f|]; [|exact Hinv].
    unfold processPdf_start.
    destruct (processPdf_rejects (Some f)).
    + unfold results_tagged. cbn [app tasks]. auto.
    + apply results_tagged_set; auto.
      apply Forall_app. split; [assumption|]. repeat constructor.
  - unfold togglePageSelection.
    destruct (nth_error (pageImages (pdfData n (app c))) k).
    + apply results_tagged_set; auto. apply Hdoc.
    + unfold results_tagged. cbn [app tasks]. auto.
  - unfold selectAllPages. apply results_tagged_set; auto. apply Hdoc.
  - unfold deselectAllPages. apply results_tagged_set; auto. apply Hdoc.
  - destruct (selectedImages (pdfData n (app c))) as [|img rest].
    + unfold results_tagged. cbn [app tasks]. auto.
    + unfold mark_processing. apply results_tagged_set; auto; [apply Hdoc|].
      apply Forall_app. split; [assumption|]. repeat constructor.
  - destruct (compareOrders_start_cases (app c)) as [[_ ->]|[_ ->]];
      unfold results_tagged; cbn [app tasks]; auto.
    cbn [setComparisonResult setComparing pdf1 pdf2].
    repeat split; auto.
    apply Forall_app. split; [assumption|]. repeat constructor.
  - unfold results_tagged. cbn [app tasks]. auto.
  - destruct (nth_error (tasks c) i) as [t|] eqn:Hnth; [|exact Hinv].
    pose proof (Forall_nth_error _ _ _ _ Hts Hnth) as Ht.
    destruct t as [n|n todo results|]; cbn [resume].
    + destruct o as [t|no]; [exact Hinv|].
      unfold processPdf_finish.
      destruct (processPdf_try ToString TypeErrorMessage no);
        apply results_tagged_set; auto using Forall_remove_nth; apply Hdoc.
    + destruct todo as [|imageData rest]; [destruct o; exact Hinv|].
      pose proof (process_page_tagged imageData o) as Hentry.
      unfold page_settled.
      destruct (process_page ToString imageData o) as [effs entry].
      cbn [snd task_tagged] in *.
      assert (Hnew : Forall tagged (results ++ [entry]))
        by (apply Forall_app; split; [assumption | repeat constructor; assumption]).
      destruct rest as [|next rest].
      * unfold commit_results.
        apply results_tagged_set; auto using Forall_remove_nth.
      * unfold results_tagged. cbn [app tasks].
        repeat split; auto. apply Forall_replace_nth; auto.
    + destruct o as [t|no]; [exact Hinv|].
      destruct no as [t|result]; cbn [compareOrders_finish];
        unfold results_tagged;
        cbn [app tasks setComparisonResult setComparing pdf1 pdf2];
        repeat split; auto using Forall_remove_nth.
Qed.

(** X18 -- In every state the controller can reach, every Extraction
    Result, whether stored in a document or still held by a run under way,
    carries a [pageNumber] property, however the events interleave and
    whatever the extraction call answered. *)
Theorem stored_results_carry_page_number (events : list Event) :
  results_tagged (run ToString TypeErrorMessage events initial_config).
Proof.
  assert (H : forall c, results_tagged c ->
                        results_tagged (run ToString TypeErrorMessage events c)).
  { induction events as [|e rest IH]; intros c Hc; cbn [run]; [exact Hc|].
    apply IH. now apply step_keeps_results_tagged. }
  apply H. unfold results_tagged. cbn. repeat split; constructor.
Qed.

End MachineInvariants.

(* ================================================================== *)
(** ** The guard of [compareOrders] in the states a session reaches *)
(* ================================================================== *)

Section ComparisonOnSessions.

Variable ToString : JSValue -> string.
Variable TypeErrorMessage : string.

(** The extraction route answers with an object, and with truthy
    [success] only together with the model's record as [data]. *)
Lemma route_answer_record (v : JSValue) :
  route_answer v ->
  exists o,
    v = JObj o /\
    (js_truthy (obj_get o "success") = true ->
     exists r, obj_get o "data" = JObj r).
Proof.
  intros (msg & env & form & llm & now & ->).
  unfold ExtractInvoice.POST, extract_image_try.
  destruct (key_missing env).
  { eexists. split; [reflexivity|]. discriminate. }
  destruct form as [t|get].
  { eexists. split; [reflexivity|]. discriminate. }
  destruct (get "image") as [entry|].
  - destruct (entry_truthy (Some entry)); cbn [negb].
    + destruct (entry_arrayBuffer msg entry).
      * destruct llm as [t|r].
        -- eexists. split; [reflexivity|]. discriminate.
        -- eexists. split; [reflexivity|]. intros _. cbn. eauto.
      * eexists. split; [reflexivity|]. discriminate.
    + eexists. split; [reflexivity|]. discriminate.
  - eexists. split; [reflexivity|]. discriminate.
Qed.

Lemma process_page_record (imageData : PageImage) (o : PageOutcome) :
  (forall v, o = PageNet (NetJson v) -> route_answer v) ->
  carries_record (snd (process_page ToString imageData o)).
Proof.
  intros Hserved. unfold carries_record.
  destruct o as [t|[t|v]]; cbn [process_page snd]; try discriminate.
  destruct (route_answer_record v (Hserved v eq_refl)) as (o & -> & Hrec).
  unfold success_entry. cbn [js_spread].
  rewrite !obj_get_set_other by discriminate. exact Hrec.
Qed.

(** A step that rewrites document [n] only. *)
Lemma records_carried_set (c : Config) (n : PdfNumber)
    (f : PdfData -> PdfData) (ts : list Task) (tr : list Effect) :
  records_carried c ->
  Forall carries_record (extractedData (f (pdfData n (app c)))) ->
  Forall task_records ts ->
  records_carried (mkConfig (setPdfData n f (app c)) ts tr).
Proof.
  intros (H1 & H2 & _) Hf Hts. unfold records_carried. cbn [app tasks].
  destruct n; cbn [setPdfData pdf1 pdf2 pdfData] in *; auto.
Qed.

Lemma step_keeps_records (e : Event) (c : Config) :
  records_carried c ->
  extraction_served c e ->
  records_carried (step ToString TypeErrorMessage e c).
Proof.
  intros Hinv Hserved. pose proof Hinv as (H1 & H2 & Hts).
  assert (Hdoc : forall n,
             Forall carries_record (extractedData (pdfData n (app c))))
    by (intros [|]; assumption).
  destruct e as [f n|k n|n|n|n| | |i o]; cbn [step].
  - destruct f as [f|]; [|exact Hinv].
    unfold processPdf_start.
    destruct (processPdf_rejects (Some f)).
    + unfold records_carried. cbn [app tasks]. auto.
    + apply records_carried_set; auto.
      apply Forall_app. split; [assumption|]. repeat constructor.
  - unfold togglePageSelection.
    destruct (nth_error (pageImages (pdfData n (app c))) k).
    + apply records_carried_set; auto. apply Hdoc.
    + unfold records_carried. cbn [app tasks]. auto.
  - unfold selectAllPages. apply records_carried_set; auto. apply Hdoc.
  - unfold deselectAllPages. apply records_carried_set; auto. apply Hdoc.
  - destruct (selectedImages (pdfData n (app c))) as [|img rest].
    + unfold records_carried. cbn [app tasks]. auto.
    + unfold mark_processing. apply records_carried_set; auto; [apply Hdoc|].
      apply Forall_app. split; [assumption|]. repeat constructor.
  - destruct (compareOrders_start_cases (app c)) as [[_ ->]|[_ ->]];
      unfold records_carried; cbn [app tasks]; auto.
    cbn [setComparisonResult setComparing pdf1 pdf2].
    repeat split; auto.
    apply Forall_app. split; [assumption|]. repeat constructor.
  - unfold records_carried. cbn [app tasks]. auto.
  - cbn [extraction_served] in Hserved.
    destruct (nth_error (tasks c) i) as [t|] eqn:Hnth; [|exact Hinv].
    pose proof (Forall_nth_error _ _ _ _ Hts Hnth) as Ht.
    destruct t as [n|n todo results|]; cbn [resume].
    + destruct o as [t|no]; [exact Hinv|].
      unfold processPdf_finish.
      destruct (processPdf_try ToString TypeErrorMessage no);
        apply records_carried_set; auto using Forall_remove_nth; apply Hdoc.
    + destruct todo as [|imageData rest]; [destruct o; exact Hinv|].
      assert (Hentry : carries_record
                         (snd (process_page ToString imageData o))).
      { apply process_page_record. intros v ->. exact Hserved. }
      unfold page_settled.
      destruct (process_page ToString imageData o) as [effs entry].
      cbn [snd task_records] in *.
      assert (Hnew : Forall carries_record (results ++ [entry]))
        by (apply Forall_app; split;
            [assumption | repeat constructor; assumption]).
      destruct rest as [|next rest].
      * unfold commit_results.
        apply records_carried_set; auto using Forall_remove_nth.
      * unfold records_carried. cbn [app tasks].
        repeat split; auto. apply Forall_replace_nth; auto.
    + destruct o as [t|no]; [exact Hinv|].
      destruct no as [t|result]; cbn [compareOrders_finish];
        unfold records_carried;
        cbn [app tasks setComparisonResult setComparing pdf1 pdf2];
        repeat split; auto using Forall_remove_nth.
Qed.

Lemma run_keeps_records (events : list Event) :
  forall c,
    records_carried c ->
    served_by_route ToString TypeErrorMessage events c ->
    records_carried (run ToString TypeErrorMessage events c).
Proof.
  induction events as [|e rest IH]; intros c Hc Hserved;
    cbn [run served_by_route] in *; [exact Hc|].
  destruct Hserved as [He Hrest].
  apply IH; [now apply step_keeps_records | exact Hrest].
Qed.

(** C2 -- In every state a session reaches, with the extraction calls
    rejected or answered by the extraction route, [compareOrders] issues
    the comparison call if and only if each of the two documents has at
    least one successful Extraction Result; when it does not, it only shows
    the message: no call is issued and the state is left as it was; when it
    does, the two records submitted are the data of the first successful
    Extraction Result, in array order, of each document.  The handler
    tests those data, and in such a state a successful result always
    carries its record. *)
Theorem compare_guard (events : list Event) :
  served_by_route ToString TypeErrorMessage events initial_config ->
  let c := run ToString TypeErrorMessage events initial_config in
  let s := app c in
  let d1 := first_success_data (extractedData (pdf1 s)) in
  let d2 := first_success_data (extractedData (pdf2 s)) in
  (compare_started s = true <->
   has_success (extractedData (pdf1 s)) = true /\
   has_success (extractedData (pdf2 s)) = true) /\
  (compare_started s = false ->
     compare_state s = s /\ compare_effects s = [compare_alert] /\
     step ToString TypeErrorMessage ClickCompare c
     = mkConfig s (tasks c) (trace c ++ [compare_alert])) /\
  (compare_started s = true ->
     compare_effects s = [CompareIssued d1 d2] /\
     trace (step ToString TypeErrorMessage ClickCompare c)
     = trace c ++ [CompareIssued d1 d2]) /\
  (forall pre r post,
      extractedData (pdf1 s) = pre ++ r :: post ->
      has_success pre = false ->
      js_truthy (obj_get r "success") = true ->
      d1 = obj_get r "data" /\ js_truthy d1 = true) /\
  (forall pre r post,
      extractedData (pdf2 s) = pre ++ r :: post ->
      has_success pre = false ->
      js_truthy (obj_get r "success") = true ->
      d2 = obj_get r "data" /\ js_truthy d2 = true).
Proof.
  intros Hserved. cbv zeta.
  assert (Hrec : records_carried
                   (run ToString TypeErrorMessage events initial_config)).
  { apply run_keeps_records; [|exact Hserved].
    unfold records_carried. cbn. repeat split; constructor. }
  destruct Hrec as (Hrec1 & Hrec2 & _).
  set (c := run ToString TypeErrorMessage events initial_config) in *.
  destruct (compareOrders_guard (app c))
    as (_ & Hrefused & Hissued & Hfirst1 & Hfirst2 & Hiff).
  cbv zeta in Hissued, Hfirst1, Hfirst2.
  split; [exact (Hiff Hrec1 Hrec2)|].
  split; [|split; [|split]].
  - intros Hno. destruct (Hrefused Hno) as [Hstate Heffs].
    split; [exact Hstate|]. split; [exact Heffs|].
    cbn [step]. unfold compare_started, compare_state, compare_effects in *.
    destruct (compareOrders_start (app c)) as [[s' effs] started].
    cbn [fst snd] in *. subst. reflexivity.
  - intros Hyes. pose proof (Hissued Hyes) as Heffs.
    split; [exact Heffs|].
    cbn [step]. unfold compare_started, compare_effects in *.
    destruct (compareOrders_start (app c)) as [[s' effs] started].
    cbn [fst snd trace] in *. now subst.
  - intros pre r post Hsplit Hpre Hr.
    pose proof (Hfirst1 pre r post Hsplit Hpre Hr) as Hd. split; [exact Hd|].
    rewrite Hd.
    assert (Hin : carries_record r).
    { rewrite Forall_forall in Hrec1. apply Hrec1. rewrite Hsplit.
      apply in_or_app. right. now left. }
    destruct (Hin Hr) as [o ->]. reflexivity.
  - intros pre r post Hsplit Hpre Hr.
    pose proof (Hfirst2 pre r post Hsplit Hpre Hr) as Hd. split; [exact Hd|].
    rewrite Hd.
    assert (Hin : carries_record r).
    { rewrite Forall_forall in Hrec2. apply Hrec2. rewrite Hsplit.
      apply in_or_app. right. now left. }
    destruct (Hin Hr) as [o ->]. reflexivity.
Qed.

End ComparisonOnSessions.

(** The answer used in the sample sessions is one the extraction route
    gives. *)
Lemma sample_extraction_served : route_answer sample_extraction.
Proof.
  exists sample_TypeError, (Some "sk-test"),
    (FormDataOk (fun name => if (name =? "image")%string
                             then Some (EntryFile (mkFile "page-1.jpg"
                                                     "image/jpeg" "JFIF"))
                             else None)),
    (LlmReturns [ ("OrderNumber", JStr "SO-1");
                  ("TrackingNumber", JStr "1Z999") ]),
    "2024-01-01T00:00:00.000Z".
  reflexivity.
Defined.

Lemma compare_guard_witness :
  served_by_route sample_ToString sample_TypeError sample_extracted
    initial_config /\
  (compare_started
     (app (run sample_ToString sample_TypeError sample_extracted
             initial_config)) = true <->
   has_success
     (extractedData
        (pdf1 (app (run sample_ToString sample_TypeError sample_extracted
                      initial_config)))) = true /\
   has_success
     (extractedData
        (pdf2 (app (run sample_ToString sample_TypeError sample_extracted
                      initial_config)))) = true).
Proof.
  assert (H : served_by_route sample_ToString sample_TypeError
                sample_extracted initial_config).
  { cbn. repeat split; exact sample_extraction_served. }
  split; [exact H|].
  exact (proj1 (compare_guard sample_ToString sample_TypeError
                  sample_extracted H)).
Defined.

(* ================================================================== *)
(** ** From the comparison route to the screen *)
(* ================================================================== *)

Section Display.

Variable ToNumeric : JSValue -> option Q.
Hypothesis ToNumeric_number : forall q, ToNumeric (JNum q) = Some q.

Variable TypeErrorMessage : string.

Lemma json_wire_truthy (v : JSValue) : js_truthy (json_wire v) = js_truthy v.
Proof. destruct v; reflexivity. Qed.

Lemma json_wire_defined (v : JSValue) :
  js_is_undefined (json_wire v) = js_is_undefined v.
Proof. destruct v; reflexivity. Qed.

Lemma truthy_defined (v : JSValue) :
  js_truthy v = true -> js_is_undefined v = false.
Proof. destruct v; intros H; try reflexivity; discriminate. Qed.

Lemma wire_strings (l : list string) :
  map (fun x => if js_is_undefined x then JNull else json_wire x) (map JStr l)
  = map JStr l.
Proof. rewrite map_map. reflexivity. Qed.

Lemma json_wire_comparison_json (r : ComparisonResult) :
  json_wire (comparison_json r) = comparison_json r.
Proof.
  unfold comparison_json, analysis_json.
  cbn -[map]. rewrite !map_map. reflexivity.
Qed.

Lemma wire_comparison_body (r : ComparisonResult) (flag : bool)
    (now : string) :
  wire_body (comparison_body r flag now) = JObj (comparison_body r flag now).
Proof.
  unfold wire_body, comparison_body.
  change (json_wire (JObj ?l))
    with (JObj [ ("success", JBool true);
                 ("comparison", json_wire (comparison_json r));
                 ("needsManualReview", JBool flag);
                 ("comparedAt", JStr now) ]).
  now rewrite json_wire_comparison_json.
Qed.

Lemma compare_200_body (env : EnvVar) (req : JsonOutcome)
    (llm : LlmOutcome ComparisonResult) (now : string) (r : ComparisonResult) :
  llm = LlmReturns r ->
  status (response (CompareOrders.POST TypeErrorMessage env req llm now)) = 200 ->
  body (response (CompareOrders.POST TypeErrorMessage env req llm now))
  = comparison_body r (js_lt (overall_confidence (analysis r)) literal_0_8) now.
Proof.
  intros -> H200.
  destruct (compare_route_cases TypeErrorMessage env req (LlmReturns r) now)
    as [[_ Hrun]
       |[_ [(t & _ & _ & Hst & _)
           |[(b & _ & _ & _ & Hst & _)
            |[(b & _ & _ & _ & Hrun)
             |(b & _ & _ & _ & _ & [(t & Ht & _)|(r' & Hr & Hresp)])]]]]].
  - rewrite Hrun in H200. discriminate.
  - rewrite Hst in H200. discriminate.
  - rewrite Hst in H200. discriminate.
  - rewrite Hrun in H200. discriminate.
  - discriminate.
  - injection Hr as <-. now rewrite Hresp.
Qed.

(** X19 -- What the route answered on a successful comparison is what
    the screen shows: once stored, the results card and its details are
    rendered, not the failure panel, the flag is down, and the "Manual
    Review Required" badge is shown exactly when the confidence score is
    not drawn green. *)
Theorem successful_comparison_display (env : EnvVar) (req : JsonOutcome)
    (llm : LlmOutcome ComparisonResult) (now : string) (r : ComparisonResult)
    (s : AppState) :
  llm = LlmReturns r ->
  status (response (CompareOrders.POST TypeErrorMessage env req llm now)) = 200 ->
  let answer :=
    wire_body (body (response
                       (CompareOrders.POST TypeErrorMessage env req llm now))) in
  let s' := fst (compareOrders_finish (NetJson answer) s) in
  let below := js_lt (overall_confidence (analysis r)) literal_0_8 in
  comparing s' = false /\
  results_card_shown s' = true /\
  details_shown s' = true /\
  failed_panel_shown s' = false /\
  manual_review_shown s' = below /\
  confidence_green ToNumeric s' = Some (negb below).
Proof.
  intros Hllm H200. cbv zeta.
  rewrite (compare_200_body env req llm now r Hllm H200).
  rewrite wire_comparison_body.
  unfold failed_panel_shown, details_shown, manual_review_shown,
    results_card_shown, confidence_green, js_ge_0_8.
  cbn [compareOrders_finish fst setComparing setComparisonResult
       comparisonResult comparing js_truthy].
  repeat split.
  set (below := js_lt (overall_confidence (analysis r)) literal_0_8).
  replace (js_field (js_field (JObj (comparison_body r below now))
                       "comparison") "analysis")
    with (analysis_json (analysis r)) by reflexivity.
  replace (js_field (analysis_json (analysis r)) "overall_confidence")
    with (JNum (overall_confidence (analysis r))) by reflexivity.
  rewrite ToNumeric_number. unfold analysis_json. cbn [js_nullish].
  unfold below, js_lt. now rewrite negb_involutive.
Qed.

(** The message of a non-200 answer of the comparison route. *)
Lemma compare_failure_body (env : EnvVar) (req : JsonOutcome)
    (llm : LlmOutcome ComparisonResult) (now : string) :
  status (response (CompareOrders.POST TypeErrorMessage env req llm now))
    <> 200 ->
  exists m,
    body (response (CompareOrders.POST TypeErrorMessage env req llm now))
      = [("error", JStr m)] \/
    body (response (CompareOrders.POST TypeErrorMessage env req llm now))
      = [("success", JBool false); ("error", JStr m)].
Proof.
  intros Hst.
  destruct (compare_route_cases TypeErrorMessage env req llm now)
    as [[_ Hrun]
       |[_ [(t & _ & _ & _ & m & Hb)
           |[(b & _ & _ & _ & _ & m & Hb)
            |[(b & _ & _ & _ & Hrun)
             |(b & _ & _ & _ & _ & [(t & _ & Hresp)|(r' & _ & Hresp)])]]]]].
  - rewrite Hrun. cbn. eauto.
  - eauto.
  - eauto.
  - rewrite Hrun. cbn. eauto.
  - rewrite Hresp. cbn. eauto.
  - rewrite Hresp in Hst. now elim Hst.
Qed.

(** X20 -- Every answer of the comparison route other than 200, once
    stored, is rendered as the "Comparison Failed" panel with the route's
    own message (the generic text if that message is empty), never with
    the details or the manual-review badge; a call that rejects is
    rendered the same way with the controller's fixed message. *)
Theorem failed_comparison_display (env : EnvVar) (req : JsonOutcome)
    (llm : LlmOutcome ComparisonResult) (now : string) (t : Thrown)
    (s : AppState) :
  let resp := response (CompareOrders.POST TypeErrorMessage env req llm now) in
  let s' := fst (compareOrders_finish (NetJson (wire_body (body resp))) s) in
  let s'' := fst (compareOrders_finish (NetThrows t) s) in
  (status resp <> 200 ->
   comparing s' = false /\
   failed_panel_shown s' = true /\
   details_shown s' = false /\
   manual_review_shown s' = false /\
   failed_panel_text s'
   = if js_truthy (obj_get (body resp) "error")
     then obj_get (body resp) "error"
     else JStr "An unknown error occurred") /\
  comparing s'' = false /\
  failed_panel_shown s'' = true /\
  manual_review_shown s'' = false /\
  failed_panel_text s'' = JStr "Failed to compare orders. Please try again.".
Proof.
  cbv zeta. split; [|repeat split].
  intros Hst. destruct (compare_failure_body env req llm now Hst)
    as [m [Hb|Hb]]; rewrite Hb; repeat split.
Qed.

End Display.

(* ================================================================== *)
(** ** Comparing again, and what the route receives *)
(* ================================================================== *)

Section Recompare.

Variable TypeErrorMessage : string.

(** X21 -- A comparison that is accepted and then settles leaves, as
    Comparison Result, exactly what its own call produced, with the flag
    down and both documents untouched: nothing of an earlier result,
    failed or not, survives. *)
Theorem comparison_replaces_result (o : NetOutcome) (s : AppState) :
  compare_started s = true ->
  fst (compareOrders_finish o (compare_state s))
  = mkAppState (pdf1 s) (pdf2 s) (stored_result o) false (showExtractedData s).
Proof.
  unfold compare_started, compare_state. intros Hstarted.
  destruct (compareOrders_start_cases s) as [[_ Hs]|[_ Hs]];
    rewrite Hs in *; [|discriminate].
  destruct o; reflexivity.
Qed.

(** X22 -- A comparison the controller lets through is never refused by
    the route for missing data: the two orders it posts arrive truthy, so
    with the key set the route calls the model, on the two orders as sent,
    and does not answer 400. *)
Theorem accepted_comparison_reaches_model (env : EnvVar)
    (llm : LlmOutcome ComparisonResult) (now : string) (s : AppState) :
  compare_started s = true ->
  key_missing env = false ->
  let order1Data := first_success_data (extractedData (pdf1 s)) in
  let order2Data := first_success_data (extractedData (pdf2 s)) in
  let run := CompareOrders.POST TypeErrorMessage env
               (compare_request order1Data order2Data) llm now in
  compare_effects s = [CompareIssued order1Data order2Data] /\
  calls run
  = [LlmCall "gpt-4o-mini" (env_string env)
       (PromptCompare (json_wire order1Data) (json_wire order2Data))] /\
  status (response run) <> 400.
Proof.
  unfold compare_started, compare_effects. intros Hstarted Hkey. cbv zeta.
  destruct (compareOrders_start_cases s) as [[Hd Hs]|[_ Hs]];
    rewrite Hs in *; [|discriminate].
  apply andb_true_iff in Hd as [H1 H2]. cbn [fst snd].
  split; [reflexivity|].
  set (d1 := first_success_data (extractedData (pdf1 s))) in *.
  set (d2 := first_success_data (extractedData (pdf2 s))) in *.
  assert (Hreq : compare_request d1 d2
                 = JsonValue (JObj [ ("order1", json_wire d1);
                                     ("order2", json_wire d2) ])).
  { unfold compare_request, wire_body.
    pose proof (truthy_defined d1 H1) as U1.
    pose proof (truthy_defined d2 H2) as U2.
    cbn [json_wire]. now rewrite U1, U2. }
  rewrite Hreq.
  unfold CompareOrders.POST, compare_try. rewrite Hkey.
  cbn [js_get obj_get String.eqb Ascii.eqb Bool.eqb bind].
  rewrite !json_wire_truthy, H1, H2. cbn [negb orb].
  destruct llm; split; try reflexivity; cbn; discriminate.
Qed.

End Recompare.

(* ================================================================== *)
(** ** Severity rendering *)
(* ================================================================== *)

(** X23 -- The three severities the comparison route can send are drawn
    in three different colours, none of them the fallback grey; their
    icons do not tell critical from minor, which share one; and the icon
    lookup has no fallback, so only those three names get an icon. *)
Theorem severity_rendering :
  (forall d, js_field (discrepancy_json d) "severity"
             = JStr (severity_name (severity d))) /\
  (forall a b : Severity,
      getSeverityColor (severity_name a) = getSeverityColor (severity_name b) ->
      a = b) /\
  (forall a : Severity,
      getSeverityColor (severity_name a) <> getSeverityColor "") /\
  getSeverityIcon (severity_name critical)
    = getSeverityIcon (severity_name minor) /\
  getSeverityIcon (severity_name major)
    <> getSeverityIcon (severity_name critical) /\
  (forall name,
      getSeverityIcon name <> None <->
      exists a : Severity, name = severity_name a).
Proof.
  split; [|split; [|split; [|split; [|split]]]].
  - intros d. destruct d as [f v1 v2 [| |] desc]; reflexivity.
  - intros [| |] [| |] H; try reflexivity; discriminate.
  - intros [| |]; discriminate.
  - reflexivity.
  - discriminate.
  - intros name. unfold getSeverityIcon. split.
    + destruct (String.eqb_spec name "critical") as [->|_];
        [intros _; now exists critical|].
      destruct (String.eqb_spec name "major") as [->|_];
        [intros _; now exists major|].
      destruct (String.eqb_spec name "minor") as [->|_];
        [intros _; now exists minor|].
      intros H. now elim H.
    + intros [[| |] ->]; discriminate.
Qed.

(* ================================================================== *)
(** ** Which pages count as extracted *)
(* ================================================================== *)

Section ExtractedPages.

Variable ToString : JSValue -> string.

(** X24 -- The entry stored for a page counts as successful exactly when
    its calls settled with a JSON object whose [success] is truthy; in that
    case the entry's [data] is the answer's [data].  A rejected call, and
    an answer that is [null], an array, a string or an object without a
    truthy [success], all leave a result that does not count. *)
Theorem page_counts_as_extracted (imageData : PageImage) (o : PageOutcome) :
  let entry := snd (process_page ToString imageData o) in
  (js_truthy (obj_get entry "success") = true <->
   exists fields,
     o = PageNet (NetJson (JObj fields)) /\
     js_truthy (obj_get fields "success") = true) /\
  (forall result,
      o = PageNet (NetJson result) ->
      obj_get entry "data" = js_field result "data").
Proof.
  assert (Hs : forall i, (nat_to_string i =? "success")%string = false).
  { apply (nat_to_string_not "success" "s" "uccess" eq_refl).
    repeat split; discriminate. }
  assert (Hd : forall i, (nat_to_string i =? "data")%string = false).
  { apply (nat_to_string_not "data" "d" "ata" eq_refl).
    repeat split; discriminate. }
  cbv zeta. split.
  - destruct o as [t|[t|result]]; cbn [process_page snd].
    + split; [discriminate | intros (f & H & _); discriminate].
    + split; [discriminate | intros (f & H & _); discriminate].
    + unfold success_entry.
      rewrite obj_get_set_other by discriminate.
      rewrite (spread_named_field result "success" Hs). split.
      * intros H. destruct result; try discriminate. eauto.
      * intros (f & Ho & H). injection Ho as ->. exact H.
  - intros result ->. cbn [process_page snd]. unfold success_entry.
    rewrite obj_get_set_other by discriminate.
    now apply spread_named_field.
Qed.

End ExtractedPages.

(* ================================================================== *)
(** ** Concrete instances *)
(* ================================================================== *)

Lemma process_pdf_upstream_call_witness :
  sample_get "pdf" = Some (EntryFile sample_pdf) /\
  calls (ProcessPdf.POST sample_ToString sample_TypeError
           (FormDataOk sample_get) (Some "secret") sample_upstream)
  = [ConvertApiCall (CONVERTAPI_SECRET (Some "secret")) (EntryFile sample_pdf)].
Proof.
  split; [reflexivity|].
  exact (proj1 (process_pdf_upstream_call sample_ToString sample_TypeError
                  (FormDataOk sample_get) (Some "secret") sample_upstream)
           sample_get (EntryFile sample_pdf) eq_refl eq_refl eq_refl).
Defined.

Lemma compare_route_responses_witness :
  calls (CompareOrders.POST sample_TypeError (Some "sk-test")
           sample_compare_request (LlmReturns sample_comparison) sample_now)
    <> [] /\
  exists b,
    calls (CompareOrders.POST sample_TypeError (Some "sk-test")
             sample_compare_request (LlmReturns sample_comparison) sample_now)
    = [LlmCall "gpt-4o-mini" (env_string (Some "sk-test"))
         (PromptCompare (js_field b "order1") (js_field b "order2"))].
Proof.
  assert (H : calls (CompareOrders.POST sample_TypeError (Some "sk-test")
                       sample_compare_request (LlmReturns sample_comparison)
                       sample_now) <> []) by discriminate.
  split; [exact H|].
  exact (proj1 (proj2 (proj2
           (compare_route_responses sample_TypeError (Some "sk-test")
              sample_compare_request (LlmReturns sample_comparison)
              sample_now))) H).
Defined.

Lemma extract_invoice_model_call_witness :
  key_missing (Some "sk-test") = false /\
  sample_image_get "image" = Some (EntryFile sample_image) /\
  calls (ExtractInvoice.POST sample_TypeError (Some "sk-test")
           (FormDataOk sample_image_get) (LlmReturns []) sample_now)
  = [LlmCall "gpt-4o-mini" (env_string (Some "sk-test"))
       (PromptImage (EntryFile sample_image))].
Proof.
  split; [reflexivity|]. split; [reflexivity|].
  exact (proj1 (proj2
           (extract_invoice_model_call sample_TypeError (Some "sk-test")
              (FormDataOk sample_image_get) (LlmReturns []) sample_now))
           sample_image_get sample_image eq_refl eq_refl eq_refl).
Defined.

Lemma extract_text_model_call_witness :
  key_missing (Some "sk-test") = false /\
  js_field sample_text_request "text" = JStr "Racun 1" /\
  calls (ExtractText.POST sample_ToString sample_TypeError (Some "sk-test")
           (JsonValue sample_text_request) (LlmReturns []) sample_now)
  = [LlmCall "gpt-4.1-mini" (env_string (Some "sk-test"))
       (PromptText "Racun 1")].
Proof.
  split; [reflexivity|]. split; [reflexivity|].
  refine (proj1 (proj2
            (extract_text_model_call sample_ToString sample_TypeError
               (Some "sk-test") (JsonValue sample_text_request)
               (LlmReturns []) sample_now))
            sample_text_request "Racun 1" eq_refl eq_refl eq_refl _).
  discriminate.
Defined.

Lemma model_failure_reported_witness :
  calls (ExtractInvoice.POST sample_TypeError (Some "sk-test")
           (FormDataOk sample_image_get)
           (LlmThrows (ThrownError "rate limit")) sample_now) <> [] /\
  response (ExtractInvoice.POST sample_TypeError (Some "sk-test")
              (FormDataOk sample_image_get)
              (LlmThrows (ThrownError "rate limit")) sample_now)
  = json_response 500
      [("success", JBool false); ("error", JStr "rate limit")].
Proof.
  assert (H : calls (ExtractInvoice.POST sample_TypeError (Some "sk-test")
                       (FormDataOk sample_image_get)
                       (LlmThrows (ThrownError "rate limit")) sample_now)
              <> []) by discriminate.
  split; [exact H|].
  exact (proj1 (model_failure_reported sample_ToString sample_TypeError
                  (ThrownError "rate limit")
                  (Some "sk-test") (FormDataOk sample_image_get)
                  None (JsonThrows ThrownOther)
                  None (JsonThrows ThrownOther) sample_now) H).
Defined.

Lemma toggle_flips_clicked_page_witness :
  nth_error (pageImages (pdfData One sample_state)) 1
    = Some (sample_page 2 false) /\
  nth_error (pageImages (pdfData One (togglePageSelection 1 One sample_state))) 1
    = Some (flip_selected (sample_page 2 false)).
Proof.
  split; [reflexivity|].
  exact (proj1 (toggle_flips_clicked_page 1 One sample_state
                  (sample_page 2 false) eq_refl)).
Defined.

Lemma select_all_and_none_witness :
  pageImages (pdfData One sample_state) <> [] /\
  processing (pdfData One sample_state) = false /\
  extract_disabled (pdfData One (selectAllPages One sample_state)) = false.
Proof.
  assert (H : pageImages (pdfData One sample_state) <> []) by discriminate.
  split; [exact H|]. split; [reflexivity|].
  exact (proj2 (proj2 (proj2 (select_all_and_none One sample_state)))
           H eq_refl).
Defined.

Lemma processPdf_accepts_witness :
  processPdf_try sample_ToString sample_TypeError (NetJson sample_conversion)
  = Ok [sample_page 1 false].
Proof.
  apply (proj2 (processPdf_accepts sample_ToString sample_TypeError
                  (NetJson sample_conversion) [sample_page 1 false])).
  eexists. eexists. split; [reflexivity|].
  split; [reflexivity|]. split; [reflexivity|]. split; reflexivity.
Defined.

Lemma conversion_settles_witness :
  processPdf_try sample_ToString sample_TypeError (NetJson sample_conversion)
    = Ok [sample_page 1 false] /\
  selectedImages
    (pdfData One (fst (processPdf_finish sample_ToString sample_TypeError One
                         (NetJson sample_conversion) sample_state))) = [].
Proof.
  split; [reflexivity|].
  exact (proj1 (proj2
           (proj1 (proj2 (proj2 (proj2 (proj2 (proj2
              (conversion_settles sample_ToString sample_TypeError One
                 (NetJson sample_conversion) sample_state))))))
              [sample_page 1 false] eq_refl))).
Defined.

Lemma new_file_resets_document_witness :
  file_type sample_pdf = "application/pdf" /\
  compare_started (fst (fst (processPdf_start (Some sample_pdf) One sample_ready)))
    = false.
Proof.
  split; [reflexivity|].
  exact (proj1 (proj2 (proj2 (proj2
           (proj1 (new_file_resets_document (Some sample_pdf) One sample_ready)
              sample_pdf eq_refl eq_refl))))).
Defined.


Lemma busy_flags_have_pending_handler_witness :
  comparing (app (run sample_ToString sample_TypeError sample_session
                    initial_config)) = true /\
  existsb is_compare
    (tasks (run sample_ToString sample_TypeError sample_session
              initial_config)) = true.
Proof.
  split; [reflexivity|].
  exact (proj2 (proj2 (busy_flags_have_pending_handler sample_ToString
                         sample_TypeError sample_session)) eq_refl).
Defined.

Lemma successful_comparison_display_witness :
  status (response (CompareOrders.POST sample_TypeError (Some "sk-test")
                      sample_compare_request (LlmReturns sample_comparison)
                      sample_now)) = 200 /\
  manual_review_shown
    (fst (compareOrders_finish
            (NetJson (wire_body (body (response
               (CompareOrders.POST sample_TypeError (Some "sk-test")
                  sample_compare_request (LlmReturns sample_comparison)
                  sample_now)))))
            sample_ready))
  = js_lt (overall_confidence (analysis sample_comparison)) literal_0_8.
Proof.
  split; [reflexivity|].
  exact (proj1 (proj2 (proj2 (proj2 (proj2
           (successful_comparison_display sample_ToNumeric
              (fun q => eq_refl) sample_TypeError (Some "sk-test")
              sample_compare_request (LlmReturns sample_comparison)
              sample_now sample_comparison sample_ready eq_refl eq_refl)))))).
Defined.

Lemma failed_comparison_display_witness :
  status (response (CompareOrders.POST sample_TypeError None
                      sample_compare_request (LlmReturns sample_comparison)
                      sample_now)) <> 200 /\
  failed_panel_shown
    (fst (compareOrders_finish
            (NetJson (wire_body (body (response
               (CompareOrders.POST sample_TypeError None
                  sample_compare_request (LlmReturns sample_comparison)
                  sample_now)))))
            sample_ready)) = true.
Proof.
  assert (H : status (response (CompareOrders.POST sample_TypeError None
                        sample_compare_request (LlmReturns sample_comparison)
                        sample_now)) <> 200) by discriminate.
  split; [exact H|].
  exact (proj1 (proj2
           (proj1 (failed_comparison_display sample_TypeError None
                     sample_compare_request (LlmReturns sample_comparison)
                     sample_now ThrownOther sample_ready) H))).
Defined.

Lemma comparison_replaces_result_witness :
  compare_started sample_ready = true /\
  fst (compareOrders_finish (NetThrows ThrownOther) (compare_state sample_ready))
  = mkAppState (pdf1 sample_ready) (pdf2 sample_ready)
      (stored_result (NetThrows ThrownOther)) false
      (showExtractedData sample_ready).
Proof.
  split; [reflexivity|].
  exact (comparison_replaces_result (NetThrows ThrownOther) sample_ready
           eq_refl).
Defined.

Lemma accepted_comparison_reaches_model_witness :
  compare_started sample_ready = true /\
  key_missing (Some "sk-test") = false /\
  status (response
            (CompareOrders.POST sample_TypeError (Some "sk-test")
               (compare_request
                  (first_success_data (extractedData (pdf1 sample_ready)))
                  (first_success_data (extractedData (pdf2 sample_ready))))
               (LlmReturns sample_comparison) sample_now)) <> 400.
Proof.
  split; [reflexivity|]. split; [reflexivity|].
  exact (proj2 (proj2
           (accepted_comparison_reaches_model sample_TypeError (Some "sk-test")
              (LlmReturns sample_comparison) sample_now sample_ready
              eq_refl eq_refl))).
Defined.

Lemma severity_rendering_witness :
  getSeverityColor (severity_name major) = getSeverityColor (severity_name major)
  /\ major = major.
Proof.
  split; [reflexivity|].
  exact (proj1 (proj2 severity_rendering) major major eq_refl).
Defined.

Lemma page_counts_as_extracted_witness :
  js_truthy
    (obj_get (snd (process_page sample_ToString (sample_page 1 true)
                     (PageNet (NetJson sample_extraction))))
       "success") = true.
Proof.
  apply (proj2 (proj1 (page_counts_as_extracted sample_ToString
                         (sample_page 1 true)
                         (PageNet (NetJson sample_extraction))))).
  eexists. split; reflexivity.
Defined.

Lemma controller_pages_numbered_witness :
  status (response (ProcessPdf.POST sample_ToString sample_TypeError
                      (pdf_form sample_pdf) None sample_upstream)) = 200 /\
  exists images n,
    processPdf_try sample_ToString sample_TypeError
      (NetJson (wire_body
                  (body (response
                           (ProcessPdf.POST sample_ToString sample_TypeError
                              (pdf_form sample_pdf) None sample_upstream)))))
    = Ok images /\
    obj_get (body (response
                     (ProcessPdf.POST sample_ToString sample_TypeError
                        (pdf_form sample_pdf) None sample_upstream)))
      "totalPages" = js_nat n /\
    map pageNumber images = map js_nat (seq 1 n) /\
    NoDup (map pageNumber images) /\
    Forall (fun img => selected img = false) images.
Proof.
  split; [reflexivity|].
  exact (controller_pages_numbered sample_ToString sample_TypeError
           (pdf_form sample_pdf) None sample_upstream eq_refl).
Defined.

